(** * Verification of the ASTM / HL7 framing code of the lab-middleware.

    Bytes are modelled as [ascii] (eight bits each) and byte buffers as
    [list ascii]; Rust [&str] values are modelled as [string], whose bytes
    are [list_ascii_of_string]. *)

From Stdlib Require Import Ascii String List Arith NArith ZArith Lia Bool.
Import ListNotations.
Open Scope list_scope.

(** ** Generic helpers mirroring the Rust standard library *)
Module Std.

Definition byte := ascii.
Definition bytes := list ascii.

(** [Iterator::position] *)
Fixpoint position {A} (p : A -> bool) (l : list A) : option nat :=
  match l with
  | [] => None
  | x :: r => if p x then Some 0 else option_map S (position p r)
  end.

(** [slice[a..b]] for [a <= b <= len]. *)
Definition slice {A} (l : list A) (a b : nat) : list A :=
  firstn (b - a) (skipn a l).

(** [u8] addition with wrap-around (release build semantics). *)
Definition u8_of_nat (n : nat) : byte := ascii_of_nat (n mod 256).

Definition byte_eqb (a b : byte) : bool := Ascii.eqb a b.

(** [utf8_char_width]: the length of the UTF-8 sequence that a lead byte
    starts, 0 for a byte that starts none. *)
Definition utf8_char_width (b : byte) : nat :=
  let n := nat_of_ascii b in
  if n <? 128 then 1
  else if (194 <=? n) && (n <=? 223) then 2
  else if (224 <=? n) && (n <=? 239) then 3
  else if (240 <=? n) && (n <=? 244) then 4
  else 0.

(** A continuation byte ([b as i8 < -64]). *)
Definition is_cont (b : byte) : bool :=
  let n := nat_of_ascii b in (128 <=? n) && (n <=? 191).

(** The second bytes allowed after a three- or four-byte lead byte. *)
Definition second_ok (lead b : byte) : bool :=
  let x := nat_of_ascii lead in
  let y := nat_of_ascii b in
  if x =? 224 then (160 <=? y) && (y <=? 191)
  else if x =? 237 then (128 <=? y) && (y <=? 159)
  else if x =? 240 then (144 <=? y) && (y <=? 191)
  else if x =? 244 then (128 <=? y) && (y <=? 143)
  else (128 <=? y) && (y <=? 191).

(** U+FFFD REPLACEMENT CHARACTER, encoded. *)
Definition REPLACEMENT : bytes := ["239"; "191"; "189"]%char.

(** The decoding loop of [Utf8Chunks] as [String::from_utf8_lossy] uses
    it: a valid sequence is copied, and each maximal prefix of an invalid
    one (the bytes consumed before the check that fails) becomes one
    U+FFFD. *)
Fixpoint utf8_lossy (l : bytes) : bytes :=
  match l with
  | [] => []
  | a :: r =>
      match utf8_char_width a with
      | 1 => a :: utf8_lossy r
      | 2 =>
          match r with
          | b :: r2 => if is_cont b then a :: b :: utf8_lossy r2
                       else REPLACEMENT ++ utf8_lossy r
          | [] => REPLACEMENT
          end
      | 3 =>
          match r with
          | b :: r2 =>
              if second_ok a b then
                match r2 with
                | c :: r3 => if is_cont c then a :: b :: c :: utf8_lossy r3
                             else REPLACEMENT ++ utf8_lossy r2
                | [] => REPLACEMENT
                end
              else REPLACEMENT ++ utf8_lossy r
          | [] => REPLACEMENT
          end
      | 4 =>
          match r with
          | b :: r2 =>
              if second_ok a b then
                match r2 with
                | c :: r3 =>
                    if is_cont c then
                      match r3 with
                      | d :: r4 => if is_cont d then a :: b :: c :: d :: utf8_lossy r4
                                   else REPLACEMENT ++ utf8_lossy r3
                      | [] => REPLACEMENT
                      end
                    else REPLACEMENT ++ utf8_lossy r2
                | [] => REPLACEMENT
                end
              else REPLACEMENT ++ utf8_lossy r
          | [] => REPLACEMENT
          end
      | _ => REPLACEMENT ++ utf8_lossy r
      end
  end.

(** [String::from_utf8_lossy] *)
Definition from_utf8_lossy (l : bytes) : string := string_of_list_ascii (utf8_lossy l).

End Std.

Import Std.

(** ** ASTM wire constants ([protocol/astm/constants.rs]) *)
Module Constants.
Definition STX : ascii := "002".
Definition ETX : ascii := "003".
Definition EOT : ascii := "004".
Definition ENQ : ascii := "005".
Definition ACK : ascii := "006".
Definition NAK : ascii := "021".
Definition ETB : ascii := "023".
Definition CR : ascii := "013".
Definition LF : ascii := "010".
End Constants.

Import Constants.

(** ** ASTM frame codec ([protocol/astm/mod.rs], [impl Frame]) *)
Module Astm.

Record Frame := mkFrame {
  sequence : nat;          (* u8 *)
  content : bytes;
  is_last_frame : bool
}.

Inductive ProtocolError :=
| InvalidFrameFormat (msg : string)
| InvalidChecksum (expected actual : string)
| InvalidRecordFormat (msg : string).

Inductive Result (A : Type) :=
| Ok (a : A)
| Err (e : ProtocolError).
Arguments Ok {A} a.
Arguments Err {A} e.

(** [Frame::calculate_checksum]: the [u16] sum of the bytes, [% 256].
    Any wrap-around of the [u16] accumulator leaves the residue mod 256
    unchanged, since 256 divides 65536. *)
Definition calculate_checksum (data : bytes) : nat :=
  list_sum (map nat_of_ascii data) mod 256.

(** One upper-case hexadecimal digit, as printed by [{:X}]. *)
Definition hex_upper (d : nat) : ascii :=
  if d <? 10 then ascii_of_nat (48 + d) else ascii_of_nat (55 + d).

(** [format!("{:02X}", n)] for a [u8] value [n]. *)
Definition format_02X (n : nat) : bytes :=
  [hex_upper (n / 16); hex_upper (n mod 16)].

Definition format_02X_string (n : nat) : string :=
  string_of_list_ascii (format_02X n).

(** [Frame::encode] *)
Definition encode (f : Frame) : bytes :=
  let buffer :=
    STX :: u8_of_nat (sequence f + 48) :: content f
        ++ [if is_last_frame f then ETX else ETB] in
  let checksum := calculate_checksum (tl buffer) in
  buffer ++ format_02X checksum ++ [CR; LF].

(** [char::to_digit(16)] on one byte. *)
Definition hex_value (c : ascii) : option nat :=
  let n := nat_of_ascii c in
  if (48 <=? n) && (n <=? 57) then Some (n - 48)
  else if (65 <=? n) && (n <=? 70) then Some (n - 55)
  else if (97 <=? n) && (n <=? 102) then Some (n - 87)
  else None.

(** [u8::from_str_radix(s, 16)] on a string of at most two bytes
    (a leading [+] is accepted, [-] is not for unsigned types). *)
Definition u8_from_hex (s : bytes) : option nat :=
  match s with
  | [] => None
  | ["+"%char] => None
  | "+"%char :: d :: [] => hex_value d
  | [d] => hex_value d
  | [d1; d2] =>
      match hex_value d1, hex_value d2 with
      | Some a, Some b => Some (a * 16 + b)
      | _, _ => None
      end
  | _ => None
  end.

(** [std::str::from_utf8] on a two-byte slice. *)
Definition utf8_valid2 (s : bytes) : bool :=
  match s with
  | [a; b] =>
      let x := nat_of_ascii a in
      let y := nat_of_ascii b in
      ((x <? 128) && (y <? 128))
      || ((194 <=? x) && (x <=? 223) && (128 <=? y) && (y <=? 191))
  | _ => forallb (fun c => nat_of_ascii c <? 128) s
  end.

(** [Frame::parse_checksum] *)
Definition parse_checksum (checksum_bytes : bytes) : Result nat :=
  if length checksum_bytes <? 2 then Err (InvalidFrameFormat "Checksum too short")
  else if negb (utf8_valid2 checksum_bytes)
  then Err (InvalidFrameFormat "Invalid checksum encoding")
  else match u8_from_hex checksum_bytes with
       | Some v => Ok v
       | None => Err (InvalidFrameFormat "Invalid checksum format")
       end.

Definition is_terminator (b : byte) : bool := byte_eqb b ETX || byte_eqb b ETB.

(** [Frame::parse].  [data[2..end_position]] cannot panic: a terminator at
    index 1 makes [checked_sub] fail first (ETX and ETB are below ['0']). *)
Definition parse (data : bytes) : Result Frame :=
  if length data <? 7 then Err (InvalidFrameFormat "Frame too short")
  else if negb (byte_eqb (nth 0 data "000"%char) STX)
  then Err (InvalidFrameFormat ("Invalid start byte: "
                                ++ format_02X_string (nat_of_ascii (nth 0 data "000"%char)))%string)
  else match position is_terminator data with
  | None => Err (InvalidFrameFormat "Missing ETX/ETB")
  | Some end_position =>
      let is_last := byte_eqb (nth end_position data "000"%char) ETX in
      let d1 := nat_of_ascii (nth 1 data "000"%char) in
      if d1 <? 48 then Err (InvalidFrameFormat "Invalid sequence number")
      else
        let seq := d1 - 48 in
        let cont := slice data 2 end_position in
        if length data <? end_position + 3
        then Err (InvalidFrameFormat "Missing checksum")
        else match parse_checksum (slice data (end_position + 1) (end_position + 3)) with
             | Err e => Err e
             | Ok expected_checksum =>
                 let calculated_checksum :=
                   calculate_checksum (slice data 1 (end_position + 1)) in
                 if negb (expected_checksum =? calculated_checksum)
                 then Err (InvalidChecksum (format_02X_string expected_checksum)
                                           (format_02X_string calculated_checksum))
                 else Ok (mkFrame seq cont is_last)
             end
  end.

End Astm.

(** ** String helpers for the record parsers *)
Module Str.

(** [str::split(sep)]: always yields one more piece than there are
    separators. *)
Fixpoint split (sep : ascii) (s : string) : list string :=
  match s with
  | EmptyString => [EmptyString]
  | String c r =>
      if Ascii.eqb c sep then EmptyString :: split sep r
      else match split sep r with
           | [] => [String c EmptyString]
           | x :: xs => String c x :: xs
           end
  end.

(** [Vec::get(i).unwrap_or(&"")] *)
Definition get_or (l : list string) (i : nat) (d : string) : string :=
  nth i l d.

(** [str::contains] *)
Fixpoint contains (s pat : string) : bool :=
  if String.prefix pat s then true
  else match s with
       | EmptyString => false
       | String _ r => contains r pat
       end.

(** [str::starts_with] *)
Definition starts_with (s pat : string) : bool := String.prefix pat s.

(** [str::is_char_boundary]: [index == 0 || index == len ||
    (index < len && bytes[index] as i8 >= -0x40)]. *)
Definition is_char_boundary (s : string) (index : nat) : bool :=
  (index =? 0) || (index =? String.length s) ||
  ((index <? String.length s) &&
   match String.get index s with
   | Some c => (nat_of_ascii c <? 128) || (192 <=? nat_of_ascii c)
   | None => false
   end).

(** [char::is_whitespace], by UTF-8 encoding: the characters with the
    Unicode White_Space property take one byte (U+0009..U+000D, U+0020),
    two (U+0085, U+00A0) or three (U+1680, U+2000..U+200A, U+2028, U+2029,
    U+202F, U+205F, U+3000). *)
Definition ws1 (a : ascii) : bool :=
  let n := nat_of_ascii a in (n =? 32) || ((9 <=? n) && (n <=? 13)).
Definition ws2 (a b : ascii) : bool :=
  (nat_of_ascii a =? 194) && ((nat_of_ascii b =? 133) || (nat_of_ascii b =? 160)).
Definition ws3 (a b c : ascii) : bool :=
  let x := nat_of_ascii a in
  let y := nat_of_ascii b in
  let z := nat_of_ascii c in
  ((x =? 225) && (y =? 154) && (z =? 128))
  || ((x =? 226) && (y =? 128)
      && (((128 <=? z) && (z <=? 138)) || (z =? 168) || (z =? 169) || (z =? 175)))
  || ((x =? 226) && (y =? 129) && (z =? 159))
  || ((x =? 227) && (y =? 128) && (z =? 128)).

(** [str::trim_start] on the bytes of a UTF-8 string. *)
Fixpoint trim_start (l : list ascii) : list ascii :=
  match l with
  | a :: r =>
      if ws1 a then trim_start r
      else match r with
           | b :: r2 =>
               if ws2 a b then trim_start r2
               else match r2 with
                    | c :: r3 => if ws3 a b c then trim_start r3 else l
                    | [] => l
                    end
           | [] => l
           end
  | [] => []
  end.

(** [str::trim_end] on the reversed bytes of a UTF-8 string: in valid
    UTF-8 the last character is whitespace exactly when the bytes end
    with the encoding of one. *)
Fixpoint trim_end_rev (l : list ascii) : list ascii :=
  match l with
  | a :: r =>
      if ws1 a then trim_end_rev r
      else match r with
           | b :: r2 =>
               if ws2 b a then trim_end_rev r2
               else match r2 with
                    | c :: r3 => if ws3 c b a then trim_end_rev r3 else l
                    | [] => l
                    end
           | [] => l
           end
  | [] => []
  end.

(** [str::trim] *)
Definition trim (s : string) : string :=
  string_of_list_ascii (rev (trim_end_rev (rev (trim_start (list_ascii_of_string s))))).

(** Decimal rendering of a [u32] counter ([{}] formatting). *)
Fixpoint digits_rev (fuel n : nat) : list ascii :=
  match fuel with
  | 0 => []
  | S f => ascii_of_nat (48 + n mod 10) ::
             (if n <? 10 then [] else digits_rev f (n / 10))
  end.
Definition nat_to_string (n : nat) : string :=
  string_of_list_ascii (rev (digits_rev (S n) n)).

(** Decimal rendering of an [i64] clock value (at most 20 digits). *)
Fixpoint n_digits_rev (fuel : nat) (n : N) : list ascii :=
  match fuel with
  | 0 => []
  | S f => ascii_of_N (48 + n mod 10)%N ::
             (if (n <? 10)%N then [] else n_digits_rev f (n / 10)%N)
  end.
Definition n_to_string (n : N) : string :=
  string_of_list_ascii (rev (n_digits_rev 20 n)).

End Str.

(** ** The AutoQuant/Meril ASTM session ([services/autoquant_meril.rs]) *)
Module AutoQuant.

Inductive ConnectionState :=
| WaitingForEnq | WaitingForFrame | ProcessingFrame | WaitingForChecksum
| WaitingForCR | WaitingForLF | Complete.

(** [Connection] without its socket and peer address: the socket is the
    [Write] effect below. *)
Record Connection := mkConnection {
  state : ConnectionState;
  frame_buffer : list bytes;
  current_frame : bytes;
  analyzer_id : string
}.

(** [PatientData] and [TestResult]; the clock-valued fields ([id] built
    from [Utc::now()], timestamps) are left out. *)
Record PatientData := mkPatientData {
  pd_id : string; pd_name : string; pd_birth_date : option string;
  pd_sex : option string; pd_address : option string;
  pd_telephone : option string; pd_physicians : option string;
  pd_height : option string; pd_weight : option string
}.

Record TestResult := mkTestResult {
  tr_test_id : string; tr_sample_id : string; tr_value : string;
  tr_units : option string; tr_reference_range : option string;
  tr_flags : list string; tr_status : string; tr_analyzer_id : option string
}.

Inductive MerilEvent :=
| AstmMessageReceived (analyzer_id message_type raw_data : string)
| LabResultProcessed (analyzer_id : string) (patient_id : option string)
    (patient_data : option PatientData) (test_results : list TestResult)
| Error (analyzer_id error : string).

(** Observable effects of the driver, in program order. *)
Inductive Effect :=
| Write (bs : bytes)          (* [connection.stream.write_all] *)
| Send (e : MerilEvent).      (* [event_sender.send] *)

(** Outcome of a Rust computation: [Ok], [Err(String)] or a panic. *)
Inductive Outcome (A : Type) :=
| Done (a : A)
| Failed (msg : string)
| Panicked.
Arguments Done {A} a.
Arguments Failed {A} msg.
Arguments Panicked {A}.

(** The session monad: the connection is threaded through, effects are
    accumulated in order; writes to the socket are taken to succeed. *)
Definition M (A : Type) := Connection -> Outcome A * Connection * list Effect.

Definition ret {A} (a : A) : M A := fun c => (Done a, c, []).

Definition bind {A B} (m : M A) (k : A -> M B) : M B := fun c =>
  match m c with
  | (Done a, c1, w1) => let '(r, c2, w2) := k a c1 in (r, c2, w1 ++ w2)
  | (Failed e, c1, w1) => (Failed e, c1, w1)
  | (Panicked, c1, w1) => (Panicked, c1, w1)
  end.

Notation "x <- m ;; k" := (bind m (fun x => k))
  (at level 61, m at next level, right associativity).
Notation "m ;; k" := (bind m (fun _ => k))
  (at level 61, right associativity).

Definition get : M Connection := fun c => (Done c, c, []).
Definition put (c' : Connection) : M unit := fun _ => (Done tt, c', []).
Definition write (bs : bytes) : M unit := fun c => (Done tt, c, [Write bs]).
Definition send (e : MerilEvent) : M unit := fun c => (Done tt, c, [Send e]).
Definition fail {A} (msg : string) : M A := fun c => (Failed msg, c, []).
Definition lift {A} (r : Outcome A) : M A := fun c => (r, c, []).

(** [if let Err(e) = m { h(e) }]: run the handler on [Err]; a panic
    propagates. *)
Definition catch {A} (m : M A) (h : string -> M A) : M A := fun c =>
  match m c with
  | (Failed e, c1, w1) => let '(r, c2, w2) := h e c1 in (r, c2, w1 ++ w2)
  | res => res
  end.

Definition set_state (s : ConnectionState) (c : Connection) : Connection :=
  mkConnection s (frame_buffer c) (current_frame c) (analyzer_id c).
Definition set_current_frame (f : bytes) (c : Connection) : Connection :=
  mkConnection (state c) (frame_buffer c) f (analyzer_id c).
Definition set_frame_buffer (b : list bytes) (c : Connection) : Connection :=
  mkConnection (state c) b (current_frame c) (analyzer_id c).

(** [validate_checksum]: sum (wrapping [u8]) of [frame[0..len-3]], [% 8],
    compared with the byte at [len-3]. *)
Definition validate_checksum (frame : bytes) : bool :=
  if length frame <? 6 then false
  else
    let sum := list_sum (map nat_of_ascii (firstn (length frame - 3) frame)) mod 256 in
    (sum mod 8) =? nat_of_ascii (nth (length frame - 3) frame "000"%char).

(** [extract_frame_data]: the bytes strictly between the first STX and
    the first ETX.  The trailing CR LF check only logs. *)
Definition extract_frame_data (frame : bytes) : Outcome bytes :=
  if length frame <? 6 then Failed "Frame too short"
  else match position (byte_eqb STX) frame, position (byte_eqb ETX) frame with
       | Some stx, Some etx =>
           if stx <? etx then Done (slice frame (stx + 1) etx)
           else Failed "Invalid frame structure: missing STX or ETX"
       | _, _ => Failed "Invalid frame structure: missing STX or ETX"
       end.

(** [parse_record_type]: [frame_data[1]] panics when out of bounds. *)
Definition parse_record_type (frame_data : bytes) : Outcome string :=
  match frame_data with
  | [] => Failed "Empty frame data"
  | _ =>
      match nth_error frame_data 1 with
      | None => Panicked
      | Some c =>
          Done (if Ascii.eqb c "H" then "Header"
                else if Ascii.eqb c "P" then "Patient"
                else if Ascii.eqb c "O" then "Order"
                else if Ascii.eqb c "R" then "Result"
                else if Ascii.eqb c "C" then "Comment"
                else if Ascii.eqb c "Q" then "Request"
                else if Ascii.eqb c "L" then "Terminator"
                else "Unknown")
      end
  end%string.

Definition opt_get (l : list string) (i : nat) : option string := nth_error l i.

(** [parse_patient_record] *)
Definition parse_patient_record (frame_data : bytes) : Outcome PatientData :=
  let fields := Str.split "|" (from_utf8_lossy frame_data) in
  if length fields <? 2 then Failed "Invalid patient record format"
  else
    let name_parts := Str.split "^" (Str.get_or fields 6 "") in
    let name :=
      if 2 <=? length name_parts
      then (Str.get_or name_parts 1 "" ++ " " ++ Str.get_or name_parts 0 "")%string
      else Str.get_or fields 6 "" in
    Done (mkPatientData (Str.get_or fields 3 "") name (opt_get fields 8)
            (opt_get fields 9) (opt_get fields 11) (opt_get fields 13)
            (opt_get fields 14) (opt_get fields 17) (opt_get fields 18)).

(** [parse_result_record] *)
Definition parse_result_record (frame_data : bytes) : Outcome TestResult :=
  let fields := Str.split "|" (from_utf8_lossy frame_data) in
  if length fields <? 4 then Failed "Invalid result record format"
  else
    let test_id_parts := Str.split "^" (Str.get_or fields 3 "") in
    let test_name := last test_id_parts ""%string in
    let reference_range :=
      match opt_get fields 6 with
      | Some range_str =>
          if String.eqb range_str "" then None
          else let parts := Str.split "^" range_str in
               if 2 <=? length parts
               then Some (Str.get_or parts 0 "" ++ "-" ++ Str.get_or parts 1 "")%string
               else Some range_str
      | None => None
      end in
    let flags :=
      match opt_get fields 7 with
      | Some f => if String.eqb f "" then [] else [f]
      | None => []
      end in
    Done (mkTestResult test_name (Str.get_or fields 2 "") (Str.get_or fields 4 "")
            (opt_get fields 5) reference_range flags (Str.get_or fields 9 "F") None).

(** The loop of [process_complete_message] over [frame_buffer];
    [parse_record_type(..)?] propagates its error. *)
Fixpoint collect_records (aid : string) (frames : list bytes)
    (patient : option PatientData) (results : list TestResult)
    : Outcome (option PatientData * list TestResult) :=
  match frames with
  | [] => Done (patient, results)
  | frame :: rest =>
      match extract_frame_data frame with
      | Done frame_data =>
          match parse_record_type frame_data with
          | Failed e => Failed e
          | Panicked => Panicked
          | Done rt =>
              if String.eqb rt "Patient" then
                match parse_patient_record frame_data with
                | Done p => collect_records aid rest (Some p) results
                | _ => collect_records aid rest patient results
                end
              else if String.eqb rt "Result" then
                match parse_result_record frame_data with
                | Done r =>
                    collect_records aid rest patient
                      (results ++ [mkTestResult (tr_test_id r) (tr_sample_id r)
                         (tr_value r) (tr_units r) (tr_reference_range r)
                         (tr_flags r) (tr_status r) (Some aid)])
                | _ => collect_records aid rest patient results
                end
              else collect_records aid rest patient results
          end
      | _ => collect_records aid rest patient results
      end
  end%string.

(** [process_complete_message] *)
Definition process_complete_message : M unit :=
  c <- get ;;
  r <- lift (collect_records (analyzer_id c) (frame_buffer c) None []) ;;
  let '(patient_data, test_results) := r in
  send (LabResultProcessed (analyzer_id c) (option_map pd_id patient_data)
          patient_data test_results).

(** [process_frame]; the checksum verdict is only logged. *)
Definition process_frame : M unit :=
  c <- get ;;
  let _checksum_ok := validate_checksum (current_frame c) in
  frame_data <- lift (extract_frame_data (current_frame c)) ;;
  record_type <- lift (parse_record_type frame_data) ;;
  put (set_frame_buffer (frame_buffer c ++ [current_frame c]) c) ;;
  send (AstmMessageReceived (analyzer_id c) record_type (from_utf8_lossy frame_data)).

(** One iteration of the [for &byte in data] loop of [process_astm_data];
    [true] continues the loop, [false] is a [break]. *)
Definition step (byte : ascii) : M bool :=
  c <- get ;;
  match state c with
  | WaitingForEnq =>
      if byte_eqb byte ENQ then
        write [ACK] ;; put (set_state WaitingForFrame c) ;; ret true
      else ret true
  | WaitingForFrame =>
      if byte_eqb byte STX then
        put (set_state ProcessingFrame (set_current_frame [byte] c)) ;; ret true
      else if byte_eqb byte EOT then
        process_complete_message ;;
        write [ACK] ;;
        c' <- get ;;
        put (set_state WaitingForEnq (set_current_frame [] (set_frame_buffer [] c'))) ;;
        ret false
      else ret true
  | ProcessingFrame =>
      let c1 := set_current_frame (current_frame c ++ [byte]) c in
      if byte_eqb byte ETX || byte_eqb byte ETB
      then put (set_state WaitingForChecksum c1) ;; ret true
      else put c1 ;; ret true
  | WaitingForChecksum =>
      put (set_state WaitingForCR (set_current_frame (current_frame c ++ [byte]) c)) ;;
      ret true
  | WaitingForCR =>
      if byte_eqb byte CR then
        put (set_state WaitingForLF (set_current_frame (current_frame c ++ [byte]) c)) ;;
        ret true
      else fail "Invalid frame format: expected CR"
  | WaitingForLF =>
      if byte_eqb byte LF then
        put (set_current_frame (current_frame c ++ [byte]) c) ;;
        catch process_frame (fun e => write [NAK] ;; fail e) ;;
        write [ACK] ;;
        c' <- get ;;
        put (set_state WaitingForFrame (set_current_frame [] c')) ;;
        ret true
      else fail "Invalid frame format: expected LF"
  | Complete => ret false
  end.

(** [process_astm_data] *)
Fixpoint process_astm_data (data : bytes) : M unit :=
  match data with
  | [] => ret tt
  | b :: rest =>
      continue <- step b ;;
      if continue then process_astm_data rest else ret tt
  end.

End AutoQuant.

(** ** HL7 v2 / MLLP codec ([protocol/hl7_parser.rs]) *)
Module Hl7.

Definition MLLP_START_BLOCK : ascii := "011".
Definition MLLP_END_BLOCK : ascii := "028".
Definition MLLP_CARRIAGE_RETURN : ascii := "013".

(** [Result<A, String>], and a panic as a third outcome. *)
Inductive Result (A : Type) :=
| Ok (a : A)
| Err (e : string)
| Panicked.
Arguments Ok {A} a.
Arguments Err {A} e.
Arguments Panicked {A}.

(** The indices [i] of [for i in from..data.len() - 1] at which
    [data[i] == FS && data[i + 1] == CR]; [l] is [data[from..]]. *)
Fixpoint find_end_sequence (l : bytes) (i : nat) : option nat :=
  match l with
  | a :: ((b :: _) as r) =>
      if byte_eqb a MLLP_END_BLOCK && byte_eqb b MLLP_CARRIAGE_RETURN
      then Some i else find_end_sequence r (S i)
  | _ => None
  end.

(** [extract_mllp_message] *)
Definition extract_mllp_message (data : bytes) : Result bytes :=
  match position (byte_eqb MLLP_START_BLOCK) data with
  | None => Err "MLLP start block not found"
  | Some start_pos =>
      match find_end_sequence (skipn (start_pos + 1) data) (start_pos + 1) with
      | None => Err "MLLP end sequence not found"
      | Some end_pos => Ok (slice data (start_pos + 1) end_pos)
      end
  end.

(** [create_mllp_frame] *)
Definition create_mllp_frame (hl7_message : string) : bytes :=
  [MLLP_START_BLOCK] ++ list_ascii_of_string hl7_message
    ++ [MLLP_END_BLOCK; MLLP_CARRIAGE_RETURN].

(** [validate_mllp_frame] *)
Definition validate_mllp_frame (data : bytes) : bool :=
  if length data <? 3 then false
  else if negb (byte_eqb (nth 0 data "000"%char) MLLP_START_BLOCK) then false
  else
    let len := length data in
    (2 <=? len) && byte_eqb (nth (len - 2) data "000"%char) MLLP_END_BLOCK
    && byte_eqb (nth (len - 1) data "000"%char) MLLP_CARRIAGE_RETURN.

Record HL7Segment := mkSegment {
  segment_type : string;
  fields : list string;
  raw_segment : string
}.

(** [HL7Message] without its [timestamp] ([Utc::now()]). *)
Record HL7Message := mkMessage {
  message_type : string;
  message_control_id : string;
  processing_id : string;
  version_id : string;
  segments : list HL7Segment;
  raw_message : string
}.

(** [s.trim().is_empty()] *)
Definition trim_is_empty (s : string) : bool := String.eqb (Str.trim s) "".

(** [parse_hl7_segment]; [&segment_line[0..3]] panics when byte 3 is
    inside a character. *)
Definition parse_hl7_segment (segment_line : string) : Result HL7Segment :=
  if String.length segment_line <? 3 then Err "Segment too short"
  else if negb (Str.is_char_boundary segment_line 3) then Panicked
  else Ok (mkSegment (substring 0 3 segment_line) (Str.split "|" segment_line)
             segment_line).

Definition field (s : HL7Segment) (i : nat) : string := Str.get_or (fields s) i "".

Record MSHSegment := mkMSH {
  msh_message_type : string;
  msh_message_control_id : string;
  msh_processing_id : string;
  msh_version_id : string
}.

(** [parse_msh_segment] (the fields the rest of the code reads). *)
Definition parse_msh_segment (s : HL7Segment) : Result MSHSegment :=
  if negb (String.eqb (segment_type s) "MSH") then Err "Not an MSH segment"
  else if length (fields s) <? 12 then Err "MSH segment has insufficient fields"
  else Ok (mkMSH (field s 8) (field s 9) (field s 10) (field s 11)).

(** The [for segment_line in segment_lines] loop of [parse_hl7_message]. *)
Fixpoint parse_lines (lines : list string) (acc : HL7Message) : Result HL7Message :=
  match lines with
  | [] => Ok acc
  | line :: rest =>
      if trim_is_empty line then parse_lines rest acc
      else match parse_hl7_segment line with
           | Err e => Err e
           | Panicked => Panicked
           | Ok seg =>
               if String.eqb (segment_type seg) "MSH" then
                 match parse_msh_segment seg with
                 | Err e => Err e
                 | Panicked => Panicked
                 | Ok msh =>
                     parse_lines rest
                       (mkMessage (msh_message_type msh) (msh_message_control_id msh)
                          (msh_processing_id msh) (msh_version_id msh)
                          (segments acc ++ [seg]) (raw_message acc))
                 end
               else parse_lines rest
                      (mkMessage (message_type acc) (message_control_id acc)
                         (processing_id acc) (version_id acc)
                         (segments acc ++ [seg]) (raw_message acc))
           end
  end.

(** [parse_hl7_message] *)
Definition parse_hl7_message (message_content : string) : Result HL7Message :=
  if String.eqb message_content "" then Err "Empty HL7 message"
  else parse_lines (Str.split "013" message_content)
         (mkMessage "" "" "" "" [] message_content).

(** [is_supported_message_type] *)
Definition is_supported_message_type (t : string) : bool :=
  existsb (String.eqb t) ["ORU^R01"; "OUL^R21"; "ORM^O01"; "ORR^O02"; "ACK"]%string.

(** [get_cq5_parameter_codes], as the list of its insertions (keys are
    distinct, so lookup in the list is [HashMap::get]). *)
Definition get_cq5_parameter_codes : list (string * string) :=
  [("2001", "MODE"); ("2002", "MODE_EX"); ("2003", "Ref"); ("2004", "Note");
   ("2005", "Level");
   ("2006", "V_WBC"); ("2007", "V_NEU_p"); ("2008", "V_LYM_p"); ("2009", "V_MON_p");
   ("2010", "V_EOS_p"); ("2011", "V_BAS_p"); ("2012", "V_NEU_c"); ("2013", "V_LYM_c");
   ("2014", "V_MON_c"); ("2015", "V_EOS_c"); ("2016", "V_BAS_c"); ("2017", "V_RBC");
   ("2018", "V_HGB"); ("2019", "V_MCV"); ("2020", "V_HCT"); ("2021", "V_MCH");
   ("2022", "V_MCHC"); ("2023", "V_RDW_SD"); ("2024", "V_RDW_CV"); ("2025", "V_PLT");
   ("2026", "V_MPV"); ("2027", "V_PCT"); ("2028", "V_PDW"); ("2029", "V_P_LCR");
   ("2030", "V_P_LCC"); ("2031", "V_CRP"); ("2032", "V_HS_CRP");
   ("2101", "RBCHistogram.PNG"); ("2102", "PLTHistogram.PNG");
   ("2033", "BASOScattergram.PNG"); ("2034", "DIFFScattergram.PNG")]%string.

Fixpoint lookup (k : string) (m : list (string * string)) : option string :=
  match m with
  | [] => None
  | (k', v) :: r => if String.eqb k k' then Some v else lookup k r
  end.

(** [extract_parameter_name] *)
Definition extract_parameter_name (observation_identifier : string) : string :=
  let parts := Str.split "^" observation_identifier in
  if 2 <=? length parts then Str.get_or parts 1 ""
  else match parts with
       | code :: _ =>
           match lookup code get_cq5_parameter_codes with
           | Some v => v
           | None => code
           end
       | [] => "Unknown"
       end.

(** [extract_parameter_code] *)
Definition extract_parameter_code (observation_identifier : string) : string :=
  match Str.split "^" observation_identifier with
  | code :: _ => code
  | [] => "Unknown"
  end.

End Hl7.

(** ** The BF-6900 HL7 session ([services/bf6900_service.rs]) *)
Module Bf6900.
Import Hl7.

Definition CR_str : string := String "013" EmptyString.

(** The two readings of the clock made while building a response:
    [Utc::now().format("%Y%m%d%H%M%S")] and [Utc::now().timestamp()]. *)
Record Clock := mkClock { now_ymdhms : string; now_epoch : N }.

(** [HL7Connection] without its socket, peer address and health fields;
    [retry_count] is a [u32], below [2^32]. *)
Record HL7Connection := mkHL7Connection {
  message_buffer : bytes;
  retry_count : N;
  analyzer_id : string
}.

Record PatientData := mkPatientData {
  pd_id : string; pd_name : string; pd_birth_date : option string;
  pd_sex : option string; pd_address : option string; pd_telephone : option string
}.

(** [HematologyResult] without its clock-valued fields. *)
Record HematologyResult := mkHematologyResult {
  hr_parameter : string; hr_parameter_code : string; hr_value : string;
  hr_units : option string; hr_reference_range : option string;
  hr_flags : list string; hr_status : string; hr_analyzer_id : option string;
  hr_sample_id : string; hr_test_id : string
}.

Inductive BF6900Event :=
| HL7MessageReceived (analyzer_id message_type raw_data : string)
| HematologyResultProcessed (analyzer_id : string) (patient_id : option string)
    (patient_data : option PatientData) (test_results : list HematologyResult)
| Error (analyzer_id error : string).

Inductive Effect :=
| Write (bs : bytes)
| Send (e : BF6900Event).

Definition nonempty (s : string) : option string :=
  if String.eqb s "" then None else Some s.

(** [extract_abnormal_flags] *)
Definition extract_abnormal_flags (abnormal_flags : string) : list string :=
  if String.eqb abnormal_flags "" then []
  else filter (fun s => negb (String.eqb s ""))
              (map Str.trim (Str.split "~" abnormal_flags)).

(** [str::lines]: split after each LF, dropping the LF and a CR before it. *)
Definition strip_cr (s : string) : string :=
  match rev (list_ascii_of_string s) with
  | c :: r => if Ascii.eqb c "013" then string_of_list_ascii (rev r) else s
  | [] => s
  end.
Definition lines (s : string) : list string :=
  let ps := Str.split "010" s in
  map strip_cr (removelast ps)
    ++ (let l := last ps ""%string in if String.eqb l "" then [] else [l]).

(** [validate_hl7_message_content] *)
Definition validate_hl7_message_content (m : HL7Message) : Result unit :=
  match segments m with
  | [] => Err "HL7 message has no segments"
  | s0 :: _ =>
      if negb (String.eqb (segment_type s0) "MSH") then Err "First segment must be MSH"
      else if negb (is_supported_message_type (message_type m))
      then Err ("Unsupported message type: " ++ message_type m)
      else
        let has_obx := existsb (fun s => String.eqb (segment_type s) "OBX") (segments m) in
        let is_worklist := Str.starts_with (message_type m) "ORM"
                           || Str.starts_with (message_type m) "ORR" in
        if negb has_obx && negb is_worklist
        then Err "HL7 message missing OBX segments - no test results found"
        else Ok tt
  end%string.

(** The [error_type] of [handle_hl7_processing_error]. *)
Definition error_type (error : string) : string :=
  (if Str.contains error "timeout" then "TIMEOUT"
   else if Str.contains error "parse" || Str.contains error "invalid" then "PARSE_ERROR"
   else if Str.contains error "segment" then "SEGMENT_ERROR"
   else "UNKNOWN_ERROR")%string.

(** [handle_hl7_processing_error]: bumps [retry_count] ([u32] [+= 1],
    wrapping at [2^32] as in a release build) and decorates the error
    text. *)
Definition handle_hl7_processing_error (error : string) (c : HL7Connection)
    : string * HL7Connection :=
  let c' := mkHL7Connection (message_buffer c) ((retry_count c + 1) mod 2 ^ 32)%N
              (analyzer_id c) in
  ((error_type error ++ ":" ++ error ++ " (retry " ++ Str.n_to_string (retry_count c')
     ++ ")")%string, c').

(** [create_hl7_nak_response] *)
Definition create_hl7_nak_response (clk : Clock) (original_message error : string)
    : string :=
  let control_id := ("NAK" ++ Str.n_to_string (now_epoch clk))%string in
  let original_control_id :=
    match find (fun l => Str.starts_with l "MSH") (lines original_message) with
    | Some msh_line =>
        match nth_error (Str.split "|" msh_line) 9 with
        | Some s => s
        | None => "UNKNOWN"%string
        end
    | None => "UNKNOWN"%string
    end in
  ("MSH|^~\&|LIS|HOSPITAL|BF-6900|FACILITY|" ++ now_ymdhms clk ++ "||ACK^R01^ACK|"
   ++ control_id ++ "|P|2.3.1||||||UTF-8" ++ CR_str
   ++ "MSA|AE|" ++ original_control_id ++ "|" ++ error)%string.

(** [create_hl7_acknowledgment] *)
Definition create_hl7_acknowledgment (clk : Clock) (m : HL7Message)
    (ack_code : string) (text_message : option string) : string :=
  let timestamp := now_ymdhms clk in
  let first_field i d :=
    match segments m with
    | s :: _ => match nth_error (fields s) i with Some f => f | None => d end
    | [] => d
    end in
  let trigger := match Str.split "^" (message_type m) with
                 | t :: _ => t | [] => "R01"%string end in
  let msh := ("MSH|^~\&|LIS|HOSPITAL|" ++ first_field 3 "SENDER" ++ "|"
              ++ first_field 4 "FACILITY" ++ "|" ++ timestamp ++ "||ACK^" ++ trigger
              ++ "^ACK|ACK" ++ timestamp ++ "|P|2.3.1||||||UTF-8")%string in
  let msa := ("MSA|" ++ ack_code ++ "|" ++ message_control_id m ++ "|"
              ++ match text_message with Some t => t | None => "" end)%string in
  (msh ++ CR_str ++ msa ++ CR_str)%string.

(** The bytes written by [send_hl7_response]: VT, the response, FS, CR. *)
Definition send_hl7_response (response : string) : Effect :=
  Write ([MLLP_START_BLOCK] ++ list_ascii_of_string response
           ++ [MLLP_END_BLOCK; MLLP_CARRIAGE_RETURN]).

(** [convert_pid_to_patient_data] after [parse_pid_segment] *)
Definition convert_pid_to_patient_data (s : HL7Segment) : PatientData :=
  mkPatientData (field s 3) (field s 5) (nonempty (field s 7)) (nonempty (field s 8))
    (nonempty (field s 11)) (nonempty (field s 13)).

(** [convert_obx_to_hematology_result] after [parse_obx_segment] *)
Definition convert_obx_to_hematology_result (s : HL7Segment) (aid : string)
    : HematologyResult :=
  mkHematologyResult (extract_parameter_name (field s 3))
    (extract_parameter_code (field s 3)) (field s 5) (nonempty (field s 6))
    (nonempty (field s 7)) (extract_abnormal_flags (field s 8)) (field s 11)
    (Some aid) (field s 4) (field s 3).

(** [process_hl7_message]: the event it publishes. *)
Definition process_hl7_message (c : HL7Connection) (m : HL7Message) : BF6900Event :=
  let step := fun (acc : option PatientData * list HematologyResult) s =>
    let '(p, rs) := acc in
    if String.eqb (segment_type s) "PID" then (Some (convert_pid_to_patient_data s), rs)
    else if String.eqb (segment_type s) "OBX"
    then (p, rs ++ [convert_obx_to_hematology_result s (analyzer_id c)])
    else (p, rs) in
  let '(patient_data, test_results) := fold_left step (segments m) (None, []) in
  HematologyResultProcessed (analyzer_id c) (option_map pd_id patient_data)
    patient_data test_results.

(** The body of the [while let] loop of [process_hl7_data] for one
    extracted message: the connection afterwards ([None] when the
    connection task panicked) and the effects, in order. *)
Definition handle_message (clk : Clock) (c : HL7Connection) (message_data : bytes)
    : option HL7Connection * list Effect :=
  let message_str := from_utf8_lossy message_data in
  let received := Send (HL7MessageReceived (analyzer_id c) "HL7" message_str) in
  let reject := fun e =>
    let '(enhanced_error, c') := handle_hl7_processing_error e c in
    (Some c', [received; send_hl7_response (create_hl7_nak_response clk message_str enhanced_error)]) in
  match parse_hl7_message message_str with
  | Ok m =>
      match validate_hl7_message_content m with
      | Ok _ =>
          let ack := create_hl7_acknowledgment clk m "AA" (Some "Message accepted"%string) in
          (Some (mkHL7Connection (message_buffer c) 0 (analyzer_id c)),
           [received; send_hl7_response ack; Send (process_hl7_message c m)])
      | Err v => reject v
      | Panicked => (None, [received])
      end
  | Err p => reject p
  | Panicked => (None, [received])
  end.

(** [extract_complete_mllp_message]: the message found, and the buffer
    after [drain(..i + 2)]. *)
Definition extract_complete_mllp_message (buffer : bytes) : option bytes * bytes :=
  match buffer with
  | [] => (None, buffer)
  | _ =>
      match position (byte_eqb MLLP_START_BLOCK) buffer with
      | Some start_pos =>
          match find_end_sequence (skipn (start_pos + 1) buffer) (start_pos + 1) with
          | Some i => (Some (slice buffer (start_pos + 1) i), skipn (i + 2) buffer)
          | None => (None, buffer)
          end
      | None => (None, buffer)
      end
  end.

Definition set_buffer (b : bytes) (c : HL7Connection) : HL7Connection :=
  mkHL7Connection b (retry_count c) (analyzer_id c).

(** The [while let] loop; every extraction drains at least two bytes, so
    the length of the buffer bounds the number of rounds. *)
Fixpoint drain_messages (fuel : nat) (clk : Clock) (c : HL7Connection)
    : option HL7Connection * list Effect :=
  match fuel with
  | 0 => (Some c, [])
  | S f =>
      match extract_complete_mllp_message (message_buffer c) with
      | (Some msg, rest) =>
          match handle_message clk (set_buffer rest c) msg with
          | (Some c1, w1) =>
              let '(c2, w2) := drain_messages f clk c1 in
              (c2, w1 ++ w2)
          | (None, w1) => (None, w1)
          end
      | (None, _) => (Some c, [])
      end
  end.

(** [ConnectionHealthStatus] *)
Inductive ConnectionHealthStatus := Healthy | Degraded | Unhealthy.

(** [update_connection_health]: [time_since_activity] is
    [now.signed_duration_since(last_activity).num_seconds()]. *)
Definition update_connection_health (retry_count : N) (time_since_activity : Z)
    : ConnectionHealthStatus :=
  if (retry_count <=? 2)%N && (time_since_activity <? 30)%Z then Healthy
  else if (3 <=? retry_count)%N && (retry_count <=? 5)%N && (time_since_activity <? 60)%Z
  then Degraded
  else Unhealthy.

(** [get_connection_timeout], in seconds. *)
Definition get_connection_timeout (health_status : ConnectionHealthStatus) : nat :=
  match health_status with
  | Healthy => 10
  | Degraded => 5
  | Unhealthy => 2
  end.

(** The read timeout of the connection loop of [handle_connection]:
    [last_activity] is set to [Utc::now()] just before
    [update_connection_health] reads [Utc::now()] again; [elapsed] is the
    whole number of seconds between the two readings. *)
Definition loop_read_timeout (retry_count : N) (elapsed : Z) : nat :=
  get_connection_timeout (update_connection_health retry_count elapsed).

(** [process_hl7_data] *)
Definition process_hl7_data (clk : Clock) (c : HL7Connection) (data : bytes)
    : option HL7Connection * list Effect :=
  let c0 := set_buffer (message_buffer c ++ data) c in
  drain_messages (S (length (message_buffer c0))) clk c0.

End Bf6900.

(** ** HIS delivery client ([services/his_client.rs]) *)
Module His.

(** [HisClient::get_machine_name_for_analyzer] *)
Definition get_machine_name_for_analyzer (analyzer_id : string) : string :=
  if Str.contains analyzer_id "bf6900" || Str.contains analyzer_id "hematology"
  then "Meril CQ 5 Plus"
  else if Str.contains analyzer_id "autoquant" || Str.contains analyzer_id "meril"
  then "Meril-3.6-11052213"
  else "Unknown-Analyzer".
Arguments get_machine_name_for_analyzer analyzer_id%_string.

End His.

(** ** ASTM records ([protocol/astm/mod.rs]: [RecordType], [Record] and the
    record helpers of the [AstmProtocol] trait) *)
Module AstmRecord.

Definition FIELD_DELIMITER : ascii := "|".
Definition REPEAT_DELIMITER : ascii := "`".
Definition COMPONENT_DELIMITER : ascii := "^".
Definition ESCAPE_DELIMITER : ascii := "&".

Inductive RecordType :=
| Header | Patient | Order | Result | Comment | Request | Terminator.

(** [RecordType::from_identifier] *)
Definition from_identifier (id : string) : option RecordType :=
  if String.eqb id "H" then Some Header
  else if String.eqb id "P" then Some Patient
  else if String.eqb id "O" then Some Order
  else if String.eqb id "R" then Some Result
  else if String.eqb id "C" then Some Comment
  else if String.eqb id "Q" then Some Request
  else if String.eqb id "L" then Some Terminator
  else None.

(** [RecordType::to_identifier] (the [*_RECORD] constants) *)
Definition to_identifier (rt : RecordType) : string :=
  match rt with
  | Header => "H" | Patient => "P" | Order => "O" | Result => "R"
  | Comment => "C" | Request => "Q" | Terminator => "L"
  end.

(** A fallible computation that may also panic. *)
Inductive Res (A : Type) :=
| ROk (a : A)
| RErr (e : Astm.ProtocolError)
| RPanic.
Arguments ROk {A} a.
Arguments RErr {A} e.
Arguments RPanic {A}.

(** [HashMap<usize, String>]: an association list whose keys are kept
    distinct by [fm_insert]. *)
Definition FieldMap := list (nat * string).

Fixpoint fm_get (m : FieldMap) (k : nat) : option string :=
  match m with
  | [] => None
  | (k', v) :: r => if k =? k' then Some v else fm_get r k
  end.

(** [HashMap::insert] *)
Definition fm_insert (k : nat) (v : string) (m : FieldMap) : FieldMap :=
  (k, v) :: filter (fun p => negb (fst p =? k)) m.

(** [keys().max().unwrap_or(&0)] *)
Definition fm_max_key (m : FieldMap) : nat := fold_left Nat.max (map fst m) 0.

Record Record' := mkRecord {
  record_type : RecordType;
  fields : FieldMap
}.

(** [Record::new], [Record::set_field], [Record::get_field] *)
Definition new_record (rt : RecordType) : Record' := mkRecord rt [].
Definition set_field (index : nat) (value : string) (r : Record') : Record' :=
  mkRecord (record_type r) (fm_insert index value (fields r)).
Definition get_field (r : Record') (index : nat) : option string :=
  fm_get (fields r) index.

Abbreviation is_char_boundary := Str.is_char_boundary (only parsing).

(** The [for (i, field) in fields.iter().enumerate()] loop. *)
Fixpoint set_fields (i : nat) (fs : list string) (r : Record') : Record' :=
  match fs with
  | [] => r
  | f :: rest => set_fields (S i) rest (set_field i f r)
  end.

(** [Record::parse]; [&data[0..1]] panics when byte 1 is inside a
    character. *)
Definition parse (data : string) : Res Record' :=
  if String.eqb data "" then RErr (Astm.InvalidRecordFormat "Empty record")
  else if negb (is_char_boundary data 1) then RPanic
  else
    let record_type_char := substring 0 1 data in
    match from_identifier record_type_char with
    | None => RErr (Astm.InvalidRecordFormat ("Unknown record type: " ++ record_type_char))
    | Some rt => ROk (set_fields 0 (Str.split FIELD_DELIMITER data) (new_record rt))
    end.

(** [Record::encode] *)
Definition encode (r : Record') : string :=
  to_identifier (record_type r) ++
  String.concat ""
    (map (fun i => String FIELD_DELIMITER
                     (match get_field r i with Some f => f | None => "" end))
         (seq 1 (fm_max_key (fields r))))%string.

(** [AstmProtocol::parse_components], [parse_repeats], [join_components],
    [join_repeats] *)
Definition parse_components (component_str : string) : list string :=
  Str.split COMPONENT_DELIMITER component_str.
Definition parse_repeats (repeat_str : string) : list string :=
  Str.split REPEAT_DELIMITER repeat_str.
Definition join_components (components : list string) : string :=
  String.concat (String COMPONENT_DELIMITER "") components.
Definition join_repeats (repeats : list string) : string :=
  String.concat (String REPEAT_DELIMITER "") repeats.

(** [String::from_utf8]'s validation: the well-formed UTF-8 sequences
    (no overlong forms, no surrogates, nothing above U+10FFFF). *)
Definition in_range (c : ascii) (lo hi : nat) : bool :=
  (lo <=? nat_of_ascii c) && (nat_of_ascii c <=? hi).
Definition cont (c : ascii) : bool := in_range c 128 191.

Fixpoint utf8_valid (l : bytes) : bool :=
  match l with
  | [] => true
  | b :: r =>
      let n := nat_of_ascii b in
      if n <? 128 then utf8_valid r
      else if (194 <=? n) && (n <=? 223) then
        match r with c1 :: r' => cont c1 && utf8_valid r' | [] => false end
      else if (224 <=? n) && (n <=? 239) then
        match r with
        | c1 :: c2 :: r' =>
            (if n =? 224 then in_range c1 160 191
             else if n =? 237 then in_range c1 128 159
             else cont c1) && cont c2 && utf8_valid r'
        | _ => false
        end
      else if (240 <=? n) && (n <=? 244) then
        match r with
        | c1 :: c2 :: c3 :: r' =>
            (if n =? 240 then in_range c1 144 191
             else if n =? 244 then in_range c1 128 143
             else cont c1) && cont c2 && cont c3 && utf8_valid r'
        | _ => false
        end
      else false
  end.

(** [collect::<Result<Vec<_>>>()] over a lazily mapped iterator: the first
    error (or panic) stops it. *)
Fixpoint collect {A} (l : list (Res A)) : Res (list A) :=
  match l with
  | [] => ROk []
  | ROk a :: r => match collect r with ROk xs => ROk (a :: xs) | RErr e => RErr e | RPanic => RPanic end
  | RErr e :: _ => RErr e
  | RPanic :: _ => RPanic
  end.

(** [AstmProtocol::split_frame_to_records] *)
Definition split_frame_to_records (frame : Astm.Frame) : Res (list Record') :=
  if negb (utf8_valid (Astm.content frame))
  then RErr (Astm.InvalidFrameFormat "Invalid UTF-8")
  else collect (map parse (filter (fun s => negb (String.eqb s ""))
                    (Str.split CR (string_of_list_ascii (Astm.content frame))))).

(** [AstmProtocol::join_records_to_frame_content] *)
Definition join_records_to_frame_content (records : list Record') : bytes :=
  list_ascii_of_string
    (String.concat "" (map (fun r => (encode r ++ String CR "")%string) records)).

(** [AstmProtocol::create_header_record]; [now] stands for
    [Self::format_datetime(&Utc::now())]. *)
Definition create_header_record (now : string) : Record' :=
  let record := new_record Header in
  let record := set_field 1 (String FIELD_DELIMITER (String REPEAT_DELIMITER
                  (String COMPONENT_DELIMITER (String ESCAPE_DELIMITER "")))) record in
  let record := set_field 12 "P" record in
  let record := set_field 13 "E 1394-97" record in
  set_field 14 now record.

(** [AstmProtocol::create_terminator_record] *)
Definition create_terminator_record : Record' :=
  set_field 2 "N" (set_field 1 "1" (new_record Terminator)).

End AstmRecord.

(** ** ASTM date/time parsing ([AstmProtocol::parse_datetime]) *)
Module AstmDatetime.
Import AstmRecord.

Local Open Scope Z_scope.

(** A [DateTime<Utc>], by its calendar fields. *)
Record DateTime := mkDateTime {
  year : Z; month : Z; day : Z; hour : Z; minute : Z; second : Z
}.

(** [Option<DateTime<Utc>>], or a panic of a [&str] slice. *)
Inductive Parsed :=
| PNone
| PSome (dt : DateTime)
| PPanic.

(** [&s[a..b]]: panics unless [a] and [b] are character boundaries. *)
Definition slice_str (s : string) (a b : nat) : option string :=
  if is_char_boundary s a && is_char_boundary s b
  then Some (substring a (b - a) s) else None.

Definition digit_val (c : ascii) : option Z :=
  let n := nat_of_ascii c in
  if (48 <=? n)%nat && (n <=? 57)%nat then Some (Z.of_nat n - 48) else None.

(** The digit loop of [from_str_radix(_, 10)]: [checked_mul] then
    [checked_add] (a positive number) or [checked_sub] (a negative one). *)
Fixpoint digits_pos (max acc : Z) (l : list ascii) : option Z :=
  match l with
  | [] => Some acc
  | c :: r =>
      match digit_val c with
      | None => None
      | Some d => if acc * 10 + d <=? max then digits_pos max (acc * 10 + d) r else None
      end
  end.

Fixpoint digits_neg (min acc : Z) (l : list ascii) : option Z :=
  match l with
  | [] => Some acc
  | c :: r =>
      match digit_val c with
      | None => None
      | Some d => if min <=? acc * 10 - d then digits_neg min (acc * 10 - d) r else None
      end
  end.

(** [<iN as FromStr>::from_str(s).ok()]: empty input and a lone sign are
    errors; a leading ['+'] is skipped; a leading ['-'] is read as a sign
    by the signed types only (for the unsigned ones it is an invalid digit). *)
Definition from_str (signed : bool) (min max : Z) (s : string) : option Z :=
  match list_ascii_of_string s with
  | [] => None
  | [c] => if Ascii.eqb c "+" || Ascii.eqb c "-" then None else digits_pos max 0 [c]
  | c :: rest =>
      if Ascii.eqb c "+" then digits_pos max 0 rest
      else if Ascii.eqb c "-" && signed then digits_neg min 0 rest
      else digits_pos max 0 (c :: rest)
  end.

Definition parse_i32 (s : string) : option Z := from_str true (-2147483648) 2147483647 s.
Definition parse_u32 (s : string) : option Z := from_str false 0 4294967295 s.

(** The proleptic Gregorian calendar of [chrono]. *)
Definition is_leap (y : Z) : bool :=
  ((y mod 4 =? 0) && negb (y mod 100 =? 0)) || (y mod 400 =? 0).

Definition days_in_month (y m : Z) : Z :=
  if (m =? 1) || (m =? 3) || (m =? 5) || (m =? 7) || (m =? 8) || (m =? 10) || (m =? 12)
  then 31
  else if (m =? 4) || (m =? 6) || (m =? 9) || (m =? 11) then 30
  else if m =? 2 then (if is_leap y then 29 else 28)
  else 0.

(** [NaiveDate::from_ymd_opt]; its year-range check ([-262143..=262142])
    never fails on a year read from four bytes ([-999..=9999]) and is kept
    for completeness. *)
Definition from_ymd_opt (y m d : Z) : option (Z * Z * Z) :=
  if (-262143 <=? y) && (y <=? 262142) && (1 <=? m) && (m <=? 12) &&
     (1 <=? d) && (d <=? days_in_month y m)
  then Some (y, m, d) else None.

(** [NaiveTime::from_hms_opt] *)
Definition from_hms_opt (h mi s : Z) : option (Z * Z * Z) :=
  if (h <? 24) && (mi <? 60) && (s <? 60) then Some (h, mi, s) else None.

(** [if dt_str.len() >= b { x = dt_str[a..b].parse::<u32>().unwrap_or(0) }]
    with [x] starting at 0; [None] is the slice's panic. *)
Definition time_part (s : string) (a b : nat) : option Z :=
  if (b <=? String.length s)%nat then
    match slice_str s a b with
    | None => None
    | Some p => Some (match parse_u32 p with Some v => v | None => 0 end)
    end
  else Some 0.

(** [AstmProtocol::parse_datetime] *)
Definition parse_datetime (dt_str : string) : Parsed :=
  if (String.length dt_str <? 8)%nat then PNone else
  match slice_str dt_str 0 4 with None => PPanic | Some ys =>
  match parse_i32 ys with None => PNone | Some year =>
  match slice_str dt_str 4 6 with None => PPanic | Some ms =>
  match parse_u32 ms with None => PNone | Some month =>
  match slice_str dt_str 6 8 with None => PPanic | Some ds =>
  match parse_u32 ds with None => PNone | Some day =>
  match time_part dt_str 8 10 with None => PPanic | Some hour =>
  match time_part dt_str 10 12 with None => PPanic | Some min =>
  match time_part dt_str 12 14 with None => PPanic | Some sec =>
  match from_ymd_opt year month day with None => PNone | Some _ =>
  match from_hms_opt hour min sec with None => PNone | Some _ =>
  PSome (mkDateTime year month day hour min sec)
  end end end end end end end end end end end.

End AstmDatetime.

(** * Proofs *)

(** ** List facts used by the codec proofs *)
Module ListFacts.

Lemma slice_app_mid {A} (a b r : list A) :
  slice (a ++ b ++ r) (length a) (length a + length b) = b.
Proof.
  unfold slice. rewrite skipn_app, skipn_all, Nat.sub_diag. simpl.
  replace (length a + length b - length a) with (length b) by lia.
  rewrite firstn_app, firstn_all, Nat.sub_diag. simpl. apply app_nil_r.
Qed.

Lemma nth_app_len {A} (a r : list A) (x d : A) : nth (length a) (a ++ x :: r) d = x.
Proof. rewrite app_nth2, Nat.sub_diag by lia. reflexivity. Qed.

Lemma position_app_none {A} (p : A -> bool) (a r : list A) :
  forallb (fun x => negb (p x)) a = true ->
  position p (a ++ r) = option_map (Nat.add (length a)) (position p r).
Proof.
  induction a as [|x a IH]; simpl; intros H.
  - destruct (position p r); reflexivity.
  - apply andb_prop in H as [Hx Ha]. destruct (p x); [discriminate|].
    rewrite IH by exact Ha. destruct (position p r); reflexivity.
Qed.




End ListFacts.

(** ** The ASTM frame codec *)
Module AstmFacts.
Import Astm ListFacts.

(** The checksum field printed by [encode] parses back to its value. *)
Definition hex_ok (n : nat) : bool :=
  match u8_from_hex (format_02X n) with
  | Some v => (v =? n) && utf8_valid2 (format_02X n)
  | None => false
  end.

Lemma hex_ok_all : forallb hex_ok (seq 0 256) = true.
Proof. vm_compute. reflexivity. Qed.

Lemma parse_checksum_format (n : nat) : n < 256 -> parse_checksum (format_02X n) = Ok n.
Proof.
  intros Hn.
  assert (H : hex_ok n = true).
  { pose proof hex_ok_all as Hall. rewrite forallb_forall in Hall.
    apply Hall, in_seq. lia. }
  unfold hex_ok in H. unfold parse_checksum.
  destruct (u8_from_hex (format_02X n)) as [v|] eqn:E; [|discriminate].
  apply andb_prop in H as [Hv Hu]. apply Nat.eqb_eq in Hv. subst v.
  rewrite Hu. reflexivity.
Qed.

Definition terminator (last : bool) : ascii := if last then ETX else ETB.

Definition no_terminator (c : bytes) : bool :=
  forallb (fun b => negb (is_terminator b)) c.

(** The layout of an encoded frame. *)
Lemma encode_layout (f : Frame) :
  encode f =
    [STX; u8_of_nat (sequence f + 48)] ++ content f ++
    [terminator (is_last_frame f)] ++
    format_02X (calculate_checksum
      (u8_of_nat (sequence f + 48) :: content f ++ [terminator (is_last_frame f)]))
    ++ [CR; LF].
Proof.
  unfold encode, terminator. simpl. rewrite <- !app_assoc. reflexivity.
Qed.

(** [Frame::parse] on a frame laid out as on the wire, with any two
    checksum bytes [h]: it returns the frame exactly when [h] parses to
    the checksum of the bytes from the sequence digit to the terminator. *)
Lemma parse_layout (seq : nat) (c : bytes) (last : bool) (h : bytes) :
  seq <= 7 -> no_terminator c = true -> length h = 2 ->
  let s := u8_of_nat (seq + 48) in
  let calc := calculate_checksum (s :: c ++ [terminator last]) in
  parse ([STX; s] ++ c ++ [terminator last] ++ h ++ [CR; LF]) =
    match parse_checksum h with
    | Err e => Err e
    | Ok v => if negb (v =? calc)
              then Err (InvalidChecksum (format_02X_string v) (format_02X_string calc))
              else Ok (mkFrame seq c last)
    end.
Proof.
  intros Hseq Hc Hh s calc.
  set (data := [STX; s] ++ c ++ [terminator last] ++ h ++ [CR; LF]).
  assert (Hlen : length data = length c + 7).
  { subst data. rewrite !length_app, Hh. simpl. lia. }
  assert (Hs : nat_of_ascii s = seq + 48).
  { subst s. unfold u8_of_nat. rewrite Nat.mod_small by lia.
    apply nat_ascii_embedding. lia. }
  assert (Hst : is_terminator s = false).
  { unfold is_terminator, byte_eqb.
    destruct (Ascii.eqb_spec s ETX) as [E|_];
      [apply (f_equal nat_of_ascii) in E; rewrite Hs in E; cbn in E; lia|].
    destruct (Ascii.eqb_spec s ETB) as [E|_];
      [apply (f_equal nat_of_ascii) in E; rewrite Hs in E; cbn in E; lia|].
    reflexivity. }
  assert (Hpos : position is_terminator data = Some (2 + length c)).
  { subst data. change ([STX; s] ++ c ++ [terminator last] ++ h ++ [CR; LF])
      with (([STX; s] ++ c) ++ [terminator last] ++ h ++ [CR; LF]) at 1.
    rewrite <- app_assoc. rewrite position_app_none.
    - rewrite position_app_none by exact Hc.
      destruct last; simpl; rewrite Nat.add_0_r; reflexivity.
    - simpl. rewrite Hst. reflexivity. }
  unfold parse.
  replace (length data <? 7) with false by (symmetry; apply Nat.ltb_ge; lia).
  replace (negb (byte_eqb (nth 0 data "000"%char) STX)) with false by reflexivity.
  rewrite Hpos.
  replace (nth 1 data "000"%char) with s by reflexivity. rewrite Hs.
  replace (seq + 48 <? 48) with false by (symmetry; apply Nat.ltb_ge; lia).
  replace (seq + 48 - 48) with seq by lia.
  replace (length data <? 2 + length c + 3) with false
    by (symmetry; apply Nat.ltb_ge; lia).
  assert (Hcont : slice data 2 (2 + length c) = c).
  { subst data. exact (slice_app_mid [STX; s] c _). }
  assert (Hend : nth (2 + length c) data "000"%char = terminator last).
  { subst data. rewrite app_assoc.
    replace (2 + length c) with (length ([STX; s] ++ c))
      by (rewrite length_app; reflexivity).
    apply nth_app_len. }
  assert (Hcs : slice data (2 + length c + 1) (2 + length c + 3) = h).
  { subst data.
    replace ([STX; s] ++ c ++ [terminator last] ++ h ++ [CR; LF])
      with (([STX; s] ++ c ++ [terminator last]) ++ h ++ [CR; LF])
      by (rewrite <- !app_assoc; reflexivity).
    replace (2 + length c + 1) with (length ([STX; s] ++ c ++ [terminator last]))
      by (rewrite !length_app; simpl; lia).
    replace (2 + length c + 3) with
      (length ([STX; s] ++ c ++ [terminator last]) + length h)
      by (rewrite !length_app, Hh; simpl; lia).
    apply slice_app_mid. }
  assert (Hbody : slice data 1 (2 + length c + 1) = s :: c ++ [terminator last]).
  { subst data.
    replace ([STX; s] ++ c ++ [terminator last] ++ h ++ [CR; LF])
      with ([STX] ++ (s :: c ++ [terminator last]) ++ h ++ [CR; LF])
      by (simpl; rewrite <- !app_assoc; reflexivity).
    replace (2 + length c + 1) with
      (length [STX] + length (s :: c ++ [terminator last]))
      by (simpl; rewrite length_app; simpl; lia).
    apply slice_app_mid. }
  rewrite Hcont, Hend, Hcs, Hbody. fold calc.
  replace (byte_eqb (terminator last) ETX) with last by (destruct last; reflexivity).
  destruct (parse_checksum h); reflexivity.
Qed.



(** ** C5 *)






(** ** C4 *)

(** C4 (amended): [Frame::encode] writes STX, then the bytes from the
    sequence digit through the terminator, then the checksum as two
    upper-case hexadecimal digits of the sum of exactly those bytes taken
    mod 256 (no further mod 8), then CR LF. *)
Theorem encode_checksum_sum_mod_256 (f : Frame) :
  let body := u8_of_nat (sequence f + 48) :: content f ++ [terminator (is_last_frame f)] in
  let sum := list_sum (map nat_of_ascii body) in
  firstn (length body + 1) (encode f) = STX :: body
  /\ slice (encode f) (length body + 1) (length body + 3) = format_02X (sum mod 256)
  /\ parse_checksum (slice (encode f) (length body + 1) (length body + 3)) = Ok (sum mod 256)
  /\ skipn (length body + 3) (encode f) = [CR; LF].
Proof.
  intros body sum.
  assert (E : encode f = ([STX] ++ body) ++ format_02X (sum mod 256) ++ [CR; LF]).
  { rewrite encode_layout. subst body sum. simpl. rewrite <- !app_assoc. reflexivity. }
  clearbody body sum.
  assert (L : length ([STX] ++ body) = length body + 1)
    by (rewrite length_app; simpl; rewrite Nat.add_1_r; reflexivity).
  assert (Hs : slice (encode f) (length body + 1) (length body + 3)
               = format_02X (sum mod 256)).
  { rewrite E, <- L. replace (length body + 3) with
      (length ([STX] ++ body) + length (format_02X (sum mod 256)))
      by (rewrite L; cbn [length format_02X]; rewrite <- Nat.add_assoc; reflexivity).
    apply slice_app_mid. }
  repeat split.
  - rewrite E, <- L, firstn_app, firstn_all, Nat.sub_diag. simpl.
    rewrite app_nil_r. reflexivity.
  - exact Hs.
  - rewrite Hs. apply parse_checksum_format, Nat.mod_upper_bound. lia.
  - rewrite E. replace (length body + 3) with
      (length ([STX] ++ body) + length (format_02X (sum mod 256)))
      by (rewrite L; cbn [length format_02X]; rewrite <- Nat.add_assoc; reflexivity).
    rewrite <- length_app, app_assoc, skipn_app, skipn_all, Nat.sub_diag. reflexivity.
Qed.

(** C4 (counterexample): for the frame with sequence 1 and payload "H"
    the bytes summed are '1', 'H', ETX = 124; encode writes "7C" (124),
    not the value 124 mod 8 = 4, neither as a raw byte nor in hexadecimal. *)
Lemma encode_checksum_not_mod_8 :
  let f := mkFrame 1 ["H"%char] true in
  let sum := list_sum (map nat_of_ascii ["1"; "H"; ETX]%char) in
  slice (encode f) 4 6 = ["7"; "C"]%char
  /\ slice (encode f) 4 6 <> [ascii_of_nat (sum mod 256 mod 8)]
  /\ slice (encode f) 4 6 <> format_02X (sum mod 256 mod 8).
Proof. vm_compute. repeat split; discriminate. Qed.

End AstmFacts.

(** ** The AutoQuant ASTM session *)
Module SessionFacts.
Import AutoQuant ListFacts.

Definition conn := mkConnection.

(** Running one byte through [process_astm_data]. *)
Lemma run_continue b l c c1 w1 :
  step b c = (Done true, c1, w1) ->
  process_astm_data (b :: l) c =
    let '(r, c2, w2) := process_astm_data l c1 in (r, c2, w1 ++ w2).
Proof. intros H. cbn [process_astm_data]. unfold bind at 1. rewrite H. reflexivity. Qed.

Lemma run_break b l c c1 w1 :
  step b c = (Done false, c1, w1) ->
  process_astm_data (b :: l) c = (Done tt, c1, w1 ++ []).
Proof. intros H. cbn [process_astm_data]. unfold bind at 1. rewrite H. reflexivity. Qed.

Lemma run_failed b l c c1 w1 e :
  step b c = (Failed e, c1, w1) ->
  process_astm_data (b :: l) c = (Failed e, c1, w1).
Proof. intros H. cbn [process_astm_data]. unfold bind at 1. rewrite H. reflexivity. Qed.

Lemma run_panicked b l c c1 w1 :
  step b c = (Panicked, c1, w1) ->
  process_astm_data (b :: l) c = (Panicked, c1, w1).
Proof. intros H. cbn [process_astm_data]. unfold bind at 1. rewrite H. reflexivity. Qed.

Lemma step_stx fb cf aid :
  step STX (conn WaitingForFrame fb cf aid) =
    (Done true, conn ProcessingFrame fb [STX] aid, []).
Proof. reflexivity. Qed.

Lemma step_processing b fb cf aid :
  Astm.is_terminator b = false ->
  step b (conn ProcessingFrame fb cf aid) =
    (Done true, conn ProcessingFrame fb (cf ++ [b]) aid, []).
Proof.
  intros H. unfold step, bind, get, put, ret. cbn [state current_frame].
  unfold Astm.is_terminator in H. rewrite H. reflexivity.
Qed.

Lemma step_etx fb cf aid :
  step ETX (conn ProcessingFrame fb cf aid) =
    (Done true, conn WaitingForChecksum fb (cf ++ [ETX]) aid, []).
Proof. reflexivity. Qed.

Lemma step_checksum b fb cf aid :
  step b (conn WaitingForChecksum fb cf aid) =
    (Done true, conn WaitingForCR fb (cf ++ [b]) aid, []).
Proof. reflexivity. Qed.

Lemma step_cr fb cf aid :
  step CR (conn WaitingForCR fb cf aid) =
    (Done true, conn WaitingForLF fb (cf ++ [CR]) aid, []).
Proof. reflexivity. Qed.

Lemma step_lf fb cf aid :
  step LF (conn WaitingForLF fb cf aid) =
    match process_frame (conn WaitingForLF fb (cf ++ [LF]) aid) with
    | (Done _, c1, w1) =>
        (Done true, set_state WaitingForFrame (set_current_frame [] c1), w1 ++ [Write [ACK]])
    | (Failed e, c1, w1) => (Failed e, c1, w1 ++ [Write [NAK]])
    | (Panicked, c1, w1) => (Panicked, c1, w1)
    end.
Proof.
  unfold step at 1, bind at 1, get at 1. cbn [state].
  change (byte_eqb LF LF) with true. cbv iota.
  unfold bind, put, catch, write, fail, ret, get.
  destruct (process_frame _) as [[[u|e|] c1] w1]; simpl;
    rewrite ?app_nil_r; reflexivity.
Qed.

Lemma step_eot fb cf aid :
  step EOT (conn WaitingForFrame fb cf aid) =
    match process_complete_message (conn WaitingForFrame fb cf aid) with
    | (Done _, c1, w1) =>
        (Done false, conn WaitingForEnq [] [] (analyzer_id c1), w1 ++ [Write [ACK]])
    | (Failed e, c1, w1) => (Failed e, c1, w1)
    | (Panicked, c1, w1) => (Panicked, c1, w1)
    end.
Proof.
  cbv -[process_complete_message app].
  destruct (process_complete_message _) as [[[u|e|] [] ] w1]; reflexivity.
Qed.

Lemma process_complete_message_eq fb cf aid st :
  process_complete_message (conn st fb cf aid) =
    match collect_records aid fb None [] with
    | Done (p, rs) =>
        (Done tt, conn st fb cf aid,
         [Send (LabResultProcessed aid (option_map pd_id p) p rs)])
    | Failed e => (Failed e, conn st fb cf aid, [])
    | Panicked => (Panicked, conn st fb cf aid, [])
    end.
Proof.
  cbv -[collect_records app].
  destruct (collect_records aid fb None []) as [[p rs]| |]; reflexivity.
Qed.

Lemma process_frame_eq st fb cf aid :
  process_frame (conn st fb cf aid) =
    match extract_frame_data cf with
    | Done d =>
        match parse_record_type d with
        | Done rt => (Done tt, conn st (fb ++ [cf]) cf aid,
                      [Send (AstmMessageReceived aid rt (from_utf8_lossy d))])
        | Failed e => (Failed e, conn st fb cf aid, [])
        | Panicked => (Panicked, conn st fb cf aid, [])
        end
    | Failed e => (Failed e, conn st fb cf aid, [])
    | Panicked => (Panicked, conn st fb cf aid, [])
    end.
Proof.
  cbv -[extract_frame_data parse_record_type validate_checksum app from_utf8_lossy].
  destruct (extract_frame_data cf) as [d| |]; [|reflexivity|reflexivity].
  destruct (parse_record_type d); reflexivity.
Qed.

(** A run of non-terminator bytes is appended to the frame under
    construction. *)
Lemma processing_run l tail fb cf aid :
  AstmFacts.no_terminator l = true ->
  process_astm_data (l ++ tail) (conn ProcessingFrame fb cf aid) =
    process_astm_data tail (conn ProcessingFrame fb (cf ++ l) aid).
Proof.
  revert cf. induction l as [|b l IH]; intros cf H.
  - rewrite app_nil_r. reflexivity.
  - simpl in H. apply andb_prop in H as [Hb Hl]. apply negb_true_iff in Hb.
    cbn [app]. rewrite (run_continue _ _ _ _ _ (step_processing b fb cf aid Hb)).
    rewrite IH by exact Hl. rewrite <- app_assoc. cbn [app].
    destruct (process_astm_data tail _) as [[r c2] w2]. reflexivity.
Qed.

(** [extract_frame_data] on a frame as the session assembles it. *)
Lemma extract_frame_data_assembled body cs :
  body <> [] -> AstmFacts.no_terminator body = true ->
  extract_frame_data (STX :: body ++ [ETX; cs; CR; LF]) = Done body.
Proof.
  intros Hne H. unfold extract_frame_data.
  assert (length body <> 0) by (destruct body; [congruence|discriminate]).
  replace (length (STX :: body ++ [ETX; cs; CR; LF]) <? 6) with false
    by (symmetry; apply Nat.ltb_ge; simpl; rewrite length_app; simpl; lia).
  assert (Hnoetx : forallb (fun x => negb (byte_eqb ETX x)) body = true).
  { unfold AstmFacts.no_terminator in H. rewrite forallb_forall in *.
    intros x Hx. specialize (H x Hx). unfold Astm.is_terminator in H.
    unfold byte_eqb in *. rewrite Ascii.eqb_sym.
    destruct (Ascii.eqb x ETX); [discriminate|reflexivity]. }
  change (position (byte_eqb STX) (STX :: body ++ [ETX; cs; CR; LF])) with (Some 0).
  change (position (byte_eqb ETX) (STX :: body ++ [ETX; cs; CR; LF]))
    with (option_map S (position (byte_eqb ETX) (body ++ [ETX; cs; CR; LF]))).
  rewrite position_app_none by exact Hnoetx. cbv [option_map position].
  change (byte_eqb ETX ETX) with true.
  replace (0 <? S (length body + 0)) with true by (symmetry; apply Nat.ltb_lt; lia).
  f_equal. unfold slice. simpl. rewrite Nat.sub_0_r, Nat.add_0_r.
  rewrite firstn_app, firstn_all, Nat.sub_diag. cbn [firstn]. rewrite app_nil_r.
  reflexivity.
Qed.

Lemma step_cr_other b fb cf aid :
  b <> CR ->
  step b (conn WaitingForCR fb cf aid) =
    (Failed "Invalid frame format: expected CR", conn WaitingForCR fb cf aid, []).
Proof.
  intros Hb. assert (E : byte_eqb b CR = false)
    by (unfold byte_eqb; apply Ascii.eqb_neq; exact Hb).
  cbv [step bind get fail put ret conn]. cbn [state]. rewrite E. reflexivity.
Qed.

Lemma parse_record_type_long d :
  2 <= length d -> exists rt, parse_record_type d = Done rt.
Proof.
  intros H. destruct d as [|a [|b d]]; cbn in H; try lia.
  eexists. reflexivity.
Qed.

(** The session FSM on one frame [STX body ETX cs CR LF], started in
    [WaitingForFrame]. *)
Lemma frame_run body cs fb cf aid :
  body <> [] -> AstmFacts.no_terminator body = true ->
  process_astm_data (STX :: body ++ [ETX; cs; CR; LF]) (conn WaitingForFrame fb cf aid) =
    match parse_record_type body with
    | Done rt =>
        (Done tt, conn WaitingForFrame (fb ++ [STX :: body ++ [ETX; cs; CR; LF]]) [] aid,
         [Send (AstmMessageReceived aid rt (from_utf8_lossy body)); Write [ACK]])
    | Failed e =>
        (Failed e, conn WaitingForLF fb (STX :: body ++ [ETX; cs; CR; LF]) aid, [Write [NAK]])
    | Panicked =>
        (Panicked, conn WaitingForLF fb (STX :: body ++ [ETX; cs; CR; LF]) aid, [])
    end.
Proof.
  intros Hne Hb.
  rewrite (run_continue _ _ _ _ _ (step_stx fb cf aid)).
  rewrite processing_run by exact Hb.
  rewrite (run_continue _ _ _ _ _ (step_etx _ _ _)).
  rewrite (run_continue _ _ _ _ _ (step_checksum _ _ _ _)).
  rewrite (run_continue _ _ _ _ _ (step_cr _ _ _)).
  pose proof (step_lf fb (((([STX] ++ body) ++ [ETX]) ++ [cs]) ++ [CR]) aid) as HL.
  rewrite process_frame_eq in HL.
  assert (Ef : (((([STX] ++ body) ++ [ETX]) ++ [cs]) ++ [CR]) ++ [LF]
                = STX :: body ++ [ETX; cs; CR; LF])
    by (cbn [app]; rewrite <- !app_assoc; reflexivity).
  rewrite Ef, extract_frame_data_assembled in HL by assumption.
  destruct (parse_record_type body) as [rt|e|].
  - rewrite (run_continue _ _ _ _ _ HL). reflexivity.
  - rewrite (run_failed _ _ _ _ _ _ HL). reflexivity.
  - rewrite (run_panicked _ _ _ _ _ HL). reflexivity.
Qed.

(** The four frames used by the examples below. *)
Definition header_frame : bytes :=
  STX :: list_ascii_of_string "1H|\^&" ++ [ETX; "0"%char; CR; LF].
Definition patient_frame : bytes :=
  STX :: list_ascii_of_string "2P|1||PID42|||Doe^John" ++ [ETX; "0"%char; CR; LF].
Definition result_frame : bytes :=
  STX :: list_ascii_of_string "3R|1||^^^WBC|7.5|10^3/uL" ++ [ETX; "0"%char; CR; LF].

(** C1 (amended).  The AutoQuant session FSM never rejects a frame for its
    checksum: for every checksum byte [cs], a frame whose text holds at
    least two bytes and no ETX/ETB is buffered, reported and ACKed.  The
    codec [Frame::parse], on the other hand, rejects a well-laid-out frame
    whose two hex checksum characters disagree with the computed sum, with
    [InvalidChecksum]. *)
Theorem checksum_mismatch_session_accepts_codec_rejects
    (body : bytes) (cs : ascii) (fb : list bytes) (cf : bytes) (aid : string)
    (seq : nat) (c : bytes) (last : bool) (v : nat)
    (Hbody : 2 <= length body) (Hb : AstmFacts.no_terminator body = true)
    (Hseq : seq <= 7) (Hc : AstmFacts.no_terminator c = true) (Hv : v < 256)
    (Hbad : v <> Astm.calculate_checksum
                   (u8_of_nat (seq + 48) :: c ++ [AstmFacts.terminator last])) :
  (exists rt,
     process_astm_data (STX :: body ++ [ETX; cs; CR; LF]) (conn WaitingForFrame fb cf aid) =
       (Done tt, conn WaitingForFrame (fb ++ [STX :: body ++ [ETX; cs; CR; LF]]) [] aid,
        [Send (AstmMessageReceived aid rt (from_utf8_lossy body)); Write [ACK]]))
  /\ Astm.parse ([STX; u8_of_nat (seq + 48)] ++ c ++ [AstmFacts.terminator last]
                 ++ Astm.format_02X v ++ [CR; LF]) =
     Astm.Err (Astm.InvalidChecksum (Astm.format_02X_string v)
        (Astm.format_02X_string
           (Astm.calculate_checksum
              (u8_of_nat (seq + 48) :: c ++ [AstmFacts.terminator last])))).
Proof.
  split.
  - destruct (parse_record_type_long body Hbody) as [rt Ert]. exists rt.
    assert (Hne : body <> []) by (intros ->; cbn in Hbody; lia).
    rewrite (frame_run body cs fb cf aid Hne Hb), Ert. reflexivity.
  - pose proof (AstmFacts.parse_layout seq c last (Astm.format_02X v) Hseq Hc eq_refl) as P.
    cbv zeta in P. rewrite P, (AstmFacts.parse_checksum_format v Hv).
    apply Nat.eqb_neq in Hbad. rewrite Hbad. reflexivity.
Qed.

Lemma checksum_mismatch_session_accepts_codec_rejects_witness :
  2 <= length (list_ascii_of_string "1H|\^&") /\
  AstmFacts.no_terminator (list_ascii_of_string "1H|\^&") = true /\
  1 <= 7 /\ AstmFacts.no_terminator ["H"%char] = true /\ 0 < 256 /\
  0 <> Astm.calculate_checksum (u8_of_nat (1 + 48) :: ["H"%char] ++ [AstmFacts.terminator true]) /\
  (exists rt,
     process_astm_data header_frame (conn WaitingForFrame [] [] "AQ") =
       (Done tt, conn WaitingForFrame ([] ++ [header_frame]) [] "AQ",
        [Send (AstmMessageReceived "AQ" rt (from_utf8_lossy (list_ascii_of_string "1H|\^&")));
         Write [ACK]]))
  /\ Astm.parse ([STX; u8_of_nat (1 + 48)] ++ ["H"%char] ++ [AstmFacts.terminator true]
                 ++ Astm.format_02X 0 ++ [CR; LF]) =
     Astm.Err (Astm.InvalidChecksum (Astm.format_02X_string 0)
        (Astm.format_02X_string
           (Astm.calculate_checksum
              (u8_of_nat (1 + 48) :: ["H"%char] ++ [AstmFacts.terminator true])))).
Proof.
  refine (conj _ (conj _ (conj _ (conj _ (conj _ (conj _ _)))))).
  - cbn. lia.
  - reflexivity.
  - lia.
  - reflexivity.
  - lia.
  - vm_compute. discriminate.
  - apply (checksum_mismatch_session_accepts_codec_rejects
             (list_ascii_of_string "1H|\^&") "0"%char [] [] "AQ" 1 ["H"%char] true 0).
    + cbn. lia.
    + reflexivity.
    + lia.
    + reflexivity.
    + lia.
    + vm_compute. discriminate.
Defined.

(** C1: [Frame::parse] on the frame [STX '1' 'H' ETX] with checksum
    characters "00" (the correct ones are "7C") returns [InvalidChecksum]
    instead of the frame. *)
Lemma frame_parse_rejects_bad_checksum :
  Astm.parse [STX; "1"%char; "H"%char; ETX; "0"%char; "0"%char; CR; LF] =
    Astm.Err (Astm.InvalidChecksum "00" "7C").
Proof. vm_compute. reflexivity. Qed.

(** C2 (amended).  On EOT in [WaitingForFrame], once the buffered frames
    have been reduced to a patient and a list of results, the session
    publishes [LabResultProcessed] first and writes the ACK afterwards, then
    returns to [WaitingForEnq] with both buffers cleared. *)
Theorem eot_publishes_before_ack (fb : list bytes) (cf : bytes) (aid : string)
    (rest : bytes) (p : option PatientData) (rs : list TestResult)
    (Hrec : collect_records aid fb None [] = Done (p, rs)) :
  process_astm_data (EOT :: rest) (conn WaitingForFrame fb cf aid) =
    (Done tt, conn WaitingForEnq [] [] aid,
     [Send (LabResultProcessed aid (option_map pd_id p) p rs); Write [ACK]]).
Proof.
  assert (H : step EOT (conn WaitingForFrame fb cf aid) =
    (Done false, conn WaitingForEnq [] [] aid,
     [Send (LabResultProcessed aid (option_map pd_id p) p rs); Write [ACK]]))
    by (rewrite step_eot, process_complete_message_eq, Hrec; reflexivity).
  rewrite (run_break _ rest _ _ _ H). reflexivity.
Qed.

Definition transmission_results : list TestResult :=
  [mkTestResult "WBC" "" "7.5" (Some "10^3/uL"%string) None [] "F" (Some "AQ"%string)].
Definition transmission_patient : option PatientData :=
  Some (mkPatientData "PID42" "John Doe" None None None None None None None).

Lemma eot_publishes_before_ack_witness :
  collect_records "AQ" [header_frame; patient_frame; result_frame] None [] =
    Done (transmission_patient, transmission_results) /\
  process_astm_data [EOT] (conn WaitingForFrame [header_frame; patient_frame; result_frame] [] "AQ") =
    (Done tt, conn WaitingForEnq [] [] "AQ",
     [Send (LabResultProcessed "AQ" (option_map pd_id transmission_patient)
              transmission_patient transmission_results); Write [ACK]]).
Proof.
  split.
  - vm_compute. reflexivity.
  - apply (eot_publishes_before_ack _ [] "AQ" [] transmission_patient transmission_results).
    vm_compute. reflexivity.
Defined.

(** C2: a whole transmission ENQ, one result frame, EOT.  In the output the
    [LabResultProcessed] event comes before the ACK of EOT. *)
Lemma eot_ack_after_event :
  process_astm_data (ENQ :: result_frame ++ [EOT]) (conn WaitingForEnq [] [] "AQ") =
    (Done tt, conn WaitingForEnq [] [] "AQ",
     [Write [ACK];
      Send (AstmMessageReceived "AQ" "Result" "3R|1||^^^WBC|7.5|10^3/uL");
      Write [ACK];
      Send (LabResultProcessed "AQ" None None transmission_results);
      Write [ACK]]).
Proof. vm_compute. reflexivity. Qed.

(** C3 (amended).  In [WaitingForCR] a byte other than CR ends
    [process_astm_data] with the error "Invalid frame format: expected CR":
    nothing is written (no NAK), the state stays [WaitingForCR], the frame
    under construction is kept, and the connection has no retry counter. *)
Theorem waiting_for_cr_other_byte (b : ascii) (rest : bytes) (fb : list bytes)
    (cf : bytes) (aid : string) (Hb : b <> CR) :
  process_astm_data (b :: rest) (conn WaitingForCR fb cf aid) =
    (Failed "Invalid frame format: expected CR", conn WaitingForCR fb cf aid, []).
Proof. apply run_failed, step_cr_other, Hb. Qed.

Lemma waiting_for_cr_other_byte_witness :
  LF <> CR /\
  process_astm_data [LF] (conn WaitingForCR [] [STX; "1"%char; "H"%char; ETX; "7"%char] "AQ") =
    (Failed "Invalid frame format: expected CR",
     conn WaitingForCR [] [STX; "1"%char; "H"%char; ETX; "7"%char] "AQ", []).
Proof.
  split.
  - discriminate.
  - apply waiting_for_cr_other_byte. discriminate.
Defined.

(** C3: a frame whose checksum byte is followed by 'X' instead of CR.  No
    NAK is written, the session is left in [WaitingForCR] (not
    [WaitingForFrame]) and the frame is not discarded. *)
Lemma cr_error_sends_no_nak :
  process_astm_data [STX; "1"%char; "H"%char; ETX; "7"%char; "X"%char; CR; LF]
      (conn WaitingForFrame [] [] "AQ") =
    (Failed "Invalid frame format: expected CR",
     conn WaitingForCR [] [STX; "1"%char; "H"%char; ETX; "7"%char] "AQ", []).
Proof. vm_compute. reflexivity. Qed.

(** C10.  For a one-byte frame text [x] (no ETX/ETB), [extract_frame_data]
    returns [[x]]; [parse_record_type] guards only the empty input and
    panics on every input of length one; and the session panics on such a
    frame, after writing nothing. *)
Theorem record_type_panics_on_one_byte (x cs : ascii) (fb : list bytes) (cf : bytes)
    (aid : string) (Hx : Astm.is_terminator x = false) :
  extract_frame_data [STX; x; ETX; cs; CR; LF] = Done [x] /\
  parse_record_type [] = Failed "Empty frame data" /\
  (forall fd, length fd = 1 -> parse_record_type fd = Panicked) /\
  process_astm_data [STX; x; ETX; cs; CR; LF] (conn WaitingForFrame fb cf aid) =
    (Panicked, conn WaitingForLF fb [STX; x; ETX; cs; CR; LF] aid, []).
Proof.
  assert (Hnt : AstmFacts.no_terminator [x] = true)
    by (unfold AstmFacts.no_terminator; cbn; rewrite Hx; reflexivity).
  assert (Hne : [x] <> []) by discriminate.
  refine (conj _ (conj _ (conj _ _))).
  - exact (extract_frame_data_assembled [x] cs Hne Hnt).
  - reflexivity.
  - intros [|a [|b d]] H; cbn in H; try discriminate; reflexivity.
  - exact (frame_run [x] cs fb cf aid Hne Hnt).
Qed.

Lemma record_type_panics_on_one_byte_witness :
  Astm.is_terminator "1"%char = false /\
  process_astm_data [STX; "1"%char; ETX; "1"%char; CR; LF] (conn WaitingForFrame [] [] "AQ") =
    (Panicked, conn WaitingForLF [] [STX; "1"%char; ETX; "1"%char; CR; LF] "AQ", []).
Proof.
  split.
  - reflexivity.
  - apply (record_type_panics_on_one_byte "1"%char "1"%char [] [] "AQ"). reflexivity.
Defined.

End SessionFacts.

(** ** MLLP framing and HL7 field extraction *)
Module Hl7Facts.
Import Hl7.

(** A byte string in which [sep] does not occur. *)
Definition no_sep (sep : ascii) (s : string) : bool :=
  forallb (fun c => negb (Ascii.eqb c sep)) (list_ascii_of_string s).

Lemma split_no_sep sep s : no_sep sep s = true -> Str.split sep s = [s].
Proof.
  induction s as [|c s IH]; intros H; [reflexivity|].
  cbn in H. apply andb_prop in H as [Hc Hs]. apply negb_true_iff in Hc.
  cbn [Str.split]. rewrite Hc, IH by exact Hs. reflexivity.
Qed.

Lemma split_app sep a b :
  no_sep sep a = true -> Str.split sep (a ++ String sep b) = a :: Str.split sep b.
Proof.
  induction a as [|c a IH]; intros H.
  - cbn. rewrite Ascii.eqb_refl. reflexivity.
  - cbn in H. apply andb_prop in H as [Hc Ha]. apply negb_true_iff in Hc.
    cbn [append Str.split]. rewrite Hc, IH by exact Ha. reflexivity.
Qed.

Lemma find_end_sequence_app bs i :
  forallb (fun x => negb (byte_eqb x MLLP_END_BLOCK)) bs = true ->
  find_end_sequence (bs ++ [MLLP_END_BLOCK; MLLP_CARRIAGE_RETURN]) i = Some (i + length bs).
Proof.
  revert i. induction bs as [|a bs IH]; intros i H.
  - cbn. rewrite Nat.add_0_r. reflexivity.
  - cbn in H. apply andb_prop in H as [Ha Hbs]. apply negb_true_iff in Ha.
    assert (U : forall r j, find_end_sequence (a :: r) j =
              match r with
              | b :: _ => if byte_eqb a MLLP_END_BLOCK && byte_eqb b MLLP_CARRIAGE_RETURN
                          then Some j else find_end_sequence r (S j)
              | [] => None
              end) by (intros [|b r] j; reflexivity).
    cbn [app]. rewrite U.
    assert (E : exists b r, bs ++ [MLLP_END_BLOCK; MLLP_CARRIAGE_RETURN] = b :: r)
      by (destruct bs as [|b r]; eexists _, _; reflexivity).
    destruct E as [b [r E]]. rewrite E, Ha. cbn [andb]. rewrite <- E.
    rewrite IH by exact Hbs. cbn [length]. f_equal. lia.
Qed.

(** C6.  Wrapping a text in an MLLP frame and extracting it again gives the
    text back, as long as the text holds no FS byte.  (The VT condition of
    the statement is not needed: the wrapper's own VT is the first one.) *)
Theorem mllp_roundtrip (t : string) (Hfs : no_sep MLLP_END_BLOCK t = true) :
  extract_mllp_message (create_mllp_frame t) = Ok (list_ascii_of_string t).
Proof.
  unfold extract_mllp_message, create_mllp_frame. cbn [app position].
  change (byte_eqb MLLP_START_BLOCK MLLP_START_BLOCK) with true. cbv iota.
  change (skipn (0 + 1) (MLLP_START_BLOCK :: ?l)) with l.
  rewrite find_end_sequence_app by exact Hfs.
  f_equal. unfold slice. change (0 + 1) with 1. cbn [skipn]. change byte with ascii.
  replace (1 + Datatypes.length (list_ascii_of_string t) - 1)
    with (Datatypes.length (list_ascii_of_string t)) by lia.
  rewrite firstn_app, firstn_all, Nat.sub_diag. cbn [firstn]. apply app_nil_r.
Qed.

Definition bf6900_oru : string :=
  "MSH|^~\&|BF-6900|LAB|LIS|HOSPITAL|20240101120000||ORU^R01|42|P|2.3.1" ++ String "013"
  (String "011" "OBX|1|NM|2006^WBC^LOCAL||7.5|10^3/uL|4.0-10.0|N|||F").

Lemma mllp_roundtrip_witness :
  no_sep MLLP_END_BLOCK bf6900_oru = true /\
  extract_mllp_message (create_mllp_frame bf6900_oru) = Ok (list_ascii_of_string bf6900_oru).
Proof.
  split.
  - vm_compute. reflexivity.
  - apply mllp_roundtrip. vm_compute. reflexivity.
Defined.

(** C8 (amended).  For an identifier [code^text^system] whose code and text
    hold no '^', the parameter name is the text component, whatever the
    code; the vendor-code table is consulted only for an identifier with a
    single component, which then maps to its table entry or to itself. *)
Theorem parameter_name_is_text_component (code text sys : string)
    (Hcode : no_sep "^" code = true) (Htext : no_sep "^" text = true) :
  extract_parameter_name (code ++ "^" ++ text ++ "^" ++ sys) = text /\
  extract_parameter_name code =
    match lookup code get_cq5_parameter_codes with
    | Some v => v
    | None => code
    end.
Proof.
  split; unfold extract_parameter_name.
  - cbn [append]. rewrite (split_app "^" code), (split_app "^" text) by assumption.
    reflexivity.
  - rewrite split_no_sep by exact Hcode. reflexivity.
Qed.

Lemma parameter_name_is_text_component_witness :
  no_sep "^" "2031" = true /\ no_sep "^" "CRP" = true /\
  extract_parameter_name "2031^CRP^LOCAL" = "CRP"%string /\
  extract_parameter_name "2031" = "V_CRP"%string.
Proof.
  refine (conj eq_refl (conj eq_refl _)).
  exact (parameter_name_is_text_component "2031" "CRP" "LOCAL" eq_refl eq_refl).
Defined.

(** C8: the code 2006 is in the table (as V_WBC), yet the identifier
    2006^WBC^LOCAL is named WBC. *)
Lemma parameter_name_ignores_table :
  lookup "2006" get_cq5_parameter_codes = Some "V_WBC"%string /\
  extract_parameter_name "2006^WBC^LOCAL" = "WBC"%string.
Proof. split; vm_compute; reflexivity. Qed.

End Hl7Facts.

(** ** The BF-6900 session on an unsupported message type *)
Module Bf6900Facts.
Import Hl7 Bf6900.

Definition adt_a08 : string :=
  "MSH|^~\&|X|Y|Z|W|20240101120000||ADT^A08|999|P|2.4" ++ String "013"
  "EVN|A08|20240101120000".

(** The last CR-separated segment of the response carried by a written
    MLLP frame. *)
Definition msa_segment (e : Effect) : option string :=
  match e with
  | Write bs =>
      Some (last (Str.split "013" (string_of_list_ascii (removelast (removelast (tl bs))))) EmptyString)
  | Send _ => None
  end.

(** C7: with the counter at 0, the MSA segment of the NAK is not the
    unadorned one. *)
Lemma unsupported_type_nak_msa :
  map msa_segment
    (snd (process_hl7_data (mkClock "20240101120000" 1704110400%N)
            (mkHL7Connection [] 0%N "BF6900") (create_mllp_frame adt_a08))) =
    [None; Some "MSA|AE|999|UNKNOWN_ERROR:Unsupported message type: ADT^A08 (retry 1)"%string]
  /\ "MSA|AE|999|UNKNOWN_ERROR:Unsupported message type: ADT^A08 (retry 1)"%string
     <> "MSA|AE|999|Unsupported message type: ADT^A08"%string.
Proof. split; [vm_compute; reflexivity | discriminate]. Qed.

End Bf6900Facts.

(** ** The HIS machine-name mapping *)
Module HisFacts.
Import His.

(** C9 (amended).  The mapping is total onto three names and is decided by
    case-sensitive substring tests: "Meril CQ 5 Plus" exactly when the id
    contains "bf6900" or "hematology"; "Meril-3.6-11052213" exactly when it
    contains neither of those but "autoquant" or "meril"; otherwise
    "Unknown-Analyzer". *)
Theorem machine_name_by_substring (analyzer_id : string) :
  In (get_machine_name_for_analyzer analyzer_id)
     ["Meril CQ 5 Plus"; "Meril-3.6-11052213"; "Unknown-Analyzer"]%string /\
  (get_machine_name_for_analyzer analyzer_id = "Meril CQ 5 Plus"%string <->
     Str.contains analyzer_id "bf6900" = true \/ Str.contains analyzer_id "hematology" = true) /\
  (get_machine_name_for_analyzer analyzer_id = "Meril-3.6-11052213"%string <->
     Str.contains analyzer_id "bf6900" = false /\ Str.contains analyzer_id "hematology" = false /\
     (Str.contains analyzer_id "autoquant" = true \/ Str.contains analyzer_id "meril" = true)) /\
  (get_machine_name_for_analyzer analyzer_id = "Unknown-Analyzer"%string <->
     Str.contains analyzer_id "bf6900" = false /\ Str.contains analyzer_id "hematology" = false /\
     Str.contains analyzer_id "autoquant" = false /\ Str.contains analyzer_id "meril" = false).
Proof.
  unfold get_machine_name_for_analyzer.
  destruct (Str.contains analyzer_id "bf6900"), (Str.contains analyzer_id "hematology"),
    (Str.contains analyzer_id "autoquant"), (Str.contains analyzer_id "meril");
    cbn; repeat split; intuition discriminate.
Qed.

(** C9: ids that differ only in letter case get different names. *)
Lemma machine_name_case_sensitive :
  get_machine_name_for_analyzer "bf6900" = "Meril CQ 5 Plus"%string /\
  get_machine_name_for_analyzer "BF6900" = "Unknown-Analyzer"%string /\
  get_machine_name_for_analyzer "AutoQuant" = "Unknown-Analyzer"%string.
Proof. repeat split; vm_compute; reflexivity. Qed.

End HisFacts.

(** ** ASTM records, components and frames *)
Module StrFacts.

Lemma sappend_nil_r s : (s ++ "")%string = s.
Proof. induction s; cbn; congruence. Qed.

Lemma sappend_assoc a b c : (a ++ (b ++ c))%string = ((a ++ b) ++ c)%string.
Proof. induction a; cbn; congruence. Qed.

Lemma list_ascii_of_string_app a b :
  list_ascii_of_string (a ++ b) = list_ascii_of_string a ++ list_ascii_of_string b.
Proof. induction a; cbn; congruence. Qed.

Lemma split_cons sep s : exists x xs, Str.split sep s = x :: xs.
Proof.
  destruct s as [|c r]; cbn; [eauto|].
  destruct (Ascii.eqb c sep); [eauto|].
  destruct (Str.split sep r); eauto.
Qed.

Lemma concat_string_cons (sep : string) c x xs :
  String.concat sep (String c x :: xs) = String c (String.concat sep (x :: xs)).
Proof. destruct xs; reflexivity. Qed.

(** Joining the pieces of [str::split] gives the string back. *)
Lemma split_join sep s : String.concat (String sep "") (Str.split sep s) = s.
Proof.
  induction s as [|c r IH]; [reflexivity|].
  cbn [Str.split]. destruct (Ascii.eqb c sep) eqn:E.
  - apply Ascii.eqb_eq in E. subst c.
    destruct (split_cons sep r) as [x [xs Hs]]. rewrite Hs in *.
    change (String sep (String.concat (String sep "") (x :: xs)) = String sep r).
    rewrite IH. reflexivity.
  - destruct (split_cons sep r) as [x [xs Hs]]. rewrite Hs in *.
    rewrite concat_string_cons, IH. reflexivity.
Qed.

Lemma split_concat sep cs :
  cs <> [] -> forallb (Hl7Facts.no_sep sep) cs = true ->
  Str.split sep (String.concat (String sep "") cs) = cs.
Proof.
  induction cs as [|x xs IH]; intros Hne H; [congruence|].
  cbn in H. apply andb_prop in H as [Hx Hxs].
  destruct xs as [|y ys].
  - cbn. apply Hl7Facts.split_no_sep, Hx.
  - change (String.concat (String sep "") (x :: y :: ys))
      with (x ++ String sep (String.concat (String sep "") (y :: ys)))%string.
    rewrite Hl7Facts.split_app by exact Hx. rewrite IH; [reflexivity|discriminate|exact Hxs].
Qed.

Lemma concat_empty_cons a l :
  String.concat "" (a :: l) = (a ++ String.concat "" l)%string.
Proof. destruct l; cbn; [symmetry; apply sappend_nil_r | reflexivity]. Qed.

Lemma concat_sep_cons (sep : ascii) x l :
  String.concat (String sep "") (x :: l) =
    (x ++ String.concat "" (map (String sep) l))%string.
Proof.
  revert x. induction l as [|y l IH]; intros x.
  - cbn. symmetry; apply sappend_nil_r.
  - change (String.concat (String sep "") (x :: y :: l))
      with (x ++ String sep (String.concat (String sep "") (y :: l)))%string.
    rewrite IH. cbn [map]. rewrite concat_empty_cons. reflexivity.
Qed.

End StrFacts.

(** ** [str::trim] *)
Module TrimFacts.
Import Str.
Local Open Scope list_scope.

Lemma trim_start_suffix : forall n l, length l <= n -> exists p, l = p ++ trim_start l.
Proof.
  induction n as [|n IH]; intros l Hl.
  - destruct l; [exists []; reflexivity | cbn in Hl; lia].
  - destruct l as [|a r]; [exists []; reflexivity|]. cbn in Hl. cbn [trim_start].
    destruct (ws1 a).
    + destruct (IH r ltac:(lia)) as [p E]. exists (a :: p). cbn. f_equal. exact E.
    + destruct r as [|b r2]; [exists []; reflexivity|].
      destruct (ws2 a b).
      * destruct (IH r2 ltac:(cbn in Hl; lia)) as [p E]. exists (a :: b :: p). cbn. rewrite <- E. reflexivity.
      * destruct r2 as [|c r3]; [exists []; reflexivity|].
        destruct (ws3 a b c); [|exists []; reflexivity].
        destruct (IH r3 ltac:(cbn in Hl; lia)) as [p E]. exists (a :: b :: c :: p). cbn. rewrite <- E. reflexivity.
Qed.

Lemma trim_end_rev_suffix : forall n l, length l <= n -> exists p, l = p ++ trim_end_rev l.
Proof.
  induction n as [|n IH]; intros l Hl.
  - destruct l; [exists []; reflexivity | cbn in Hl; lia].
  - destruct l as [|a r]; [exists []; reflexivity|]. cbn in Hl. cbn [trim_end_rev].
    destruct (ws1 a).
    + destruct (IH r ltac:(lia)) as [p E]. exists (a :: p). cbn. f_equal. exact E.
    + destruct r as [|b r2]; [exists []; reflexivity|].
      destruct (ws2 b a).
      * destruct (IH r2 ltac:(cbn in Hl; lia)) as [p E]. exists (a :: b :: p). cbn. rewrite <- E. reflexivity.
      * destruct r2 as [|c r3]; [exists []; reflexivity|].
        destruct (ws3 c b a); [|exists []; reflexivity].
        destruct (IH r3 ltac:(cbn in Hl; lia)) as [p E]. exists (a :: b :: c :: p). cbn. rewrite <- E. reflexivity.
Qed.

Lemma forallb_suffix (P : ascii -> bool) (p l : list ascii) :
  forallb P (p ++ l) = true -> forallb P l = true.
Proof. rewrite forallb_app. intros H. apply andb_prop in H as [_ H]. exact H. Qed.

Lemma forallb_rev (P : ascii -> bool) (l : list ascii) : forallb P (rev l) = forallb P l.
Proof.
  induction l as [|a l IH]; [reflexivity|].
  cbn. rewrite forallb_app, IH. cbn. rewrite andb_true_r, andb_comm. reflexivity.
Qed.

(** The bytes of [trim s] are a piece of the bytes of [s]: a property of
    every byte of [s] holds of every byte of [trim s]. *)
Lemma trim_forallb P s :
  forallb P (list_ascii_of_string s) = true ->
  forallb P (list_ascii_of_string (trim s)) = true.
Proof.
  intros H. unfold trim. rewrite list_ascii_of_string_of_list_ascii, forallb_rev.
  set (l := list_ascii_of_string s) in *.
  destruct (trim_start_suffix (length l) l (le_n _)) as [p1 E1].
  set (l1 := trim_start l) in *.
  destruct (trim_end_rev_suffix (length (rev l1)) (rev l1) (le_n _)) as [p2 E2].
  apply (forallb_suffix P p2). rewrite <- E2, forallb_rev.
  apply (forallb_suffix P p1). rewrite <- E1. exact H.
Qed.

(** The encoding of a whitespace character starts at the head of [l]. *)
Definition ws_at (l : list ascii) : bool :=
  match l with
  | a :: r =>
      ws1 a || match r with
               | b :: r2 => ws2 a b || match r2 with
                                       | c :: _ => ws3 a b c
                                       | [] => false
                                       end
               | [] => false
               end
  | [] => false
  end.

(** No whitespace character is encoded anywhere in [l]. *)
Fixpoint no_ws (l : list ascii) : bool :=
  match l with
  | [] => true
  | a :: r => negb (ws_at (a :: r)) && no_ws r
  end.

Lemma no_ws_suffix p q : no_ws (p ++ q) = true -> no_ws q = true.
Proof.
  induction p as [|a p IH]; [exact id|]. cbn [app no_ws].
  intros H. apply andb_prop in H as [_ H]. apply IH, H.
Qed.

Lemma no_ws_head q : no_ws q = true -> ws_at q = false.
Proof. destruct q as [|a q]; [reflexivity|]. cbn [no_ws]. intros H. apply andb_prop in H as [H _]. apply negb_true_iff, H. Qed.

Lemma trim_start_id l : ws_at l = false -> trim_start l = l.
Proof.
  intros H. destruct l as [|a r]; [reflexivity|].
  unfold ws_at in H. cbn [trim_start].
  destruct (ws1 a); [discriminate|]. destruct r as [|b r]; [reflexivity|].
  destruct (ws2 a b); [discriminate|]. destruct r as [|c r]; [reflexivity|].
  destruct (ws3 a b c); [discriminate|reflexivity].
Qed.

Lemma trim_end_rev_id l : no_ws (rev l) = true -> trim_end_rev l = l.
Proof.
  intros H. destruct l as [|a [|b [|c r]]]; [reflexivity| | |].
  - pose proof (no_ws_head _ H) as W. cbn in W. rewrite orb_false_r in W.
    cbn [trim_end_rev]. rewrite W. reflexivity.
  - cbn [rev app] in H.
    pose proof (no_ws_head _ (no_ws_suffix [b] [a] H)) as W1. cbn in W1. rewrite orb_false_r in W1.
    pose proof (no_ws_head _ H) as W2. cbn [ws_at] in W2. rewrite orb_false_r in W2.
    apply orb_false_iff in W2 as [_ W2].
    cbn [trim_end_rev]. rewrite W1, W2. reflexivity.
  - cbn [rev] in H. rewrite <- !app_assoc in H. cbn [app] in H.
    pose proof (no_ws_head _ (no_ws_suffix (rev r ++ [c; b]) [a] ltac:(rewrite <- app_assoc; exact H))) as W1.
    cbn in W1. rewrite orb_false_r in W1.
    pose proof (no_ws_head _ (no_ws_suffix (rev r ++ [c]) [b; a] ltac:(rewrite <- app_assoc; exact H))) as W2.
    cbn [ws_at] in W2. rewrite orb_false_r in W2. apply orb_false_iff in W2 as [_ W2].
    pose proof (no_ws_head _ (no_ws_suffix (rev r) [c; b; a] H)) as W3.
    cbn [ws_at] in W3. apply orb_false_iff in W3 as [_ W3]. apply orb_false_iff in W3 as [_ W3].
    cbn [trim_end_rev]. rewrite W1, W2, W3. reflexivity.
Qed.

(** A string holding no whitespace character is its own [trim]. *)
Lemma trim_no_ws s : no_ws (list_ascii_of_string s) = true -> trim s = s.
Proof.
  intros H. unfold trim.
  assert (Hs : ws_at (list_ascii_of_string s) = false) by (apply no_ws_head, H).
  rewrite (trim_start_id _ Hs), trim_end_rev_id, rev_involutive, string_of_list_ascii_of_string;
    [reflexivity|].
  rewrite rev_involutive. exact H.
Qed.

(** Bytes that can end the encoding of a whitespace character read
    backwards: the last byte of such an encoding is its lead byte. *)
Definition ws_lead (a : ascii) : bool :=
  ws1 a || (nat_of_ascii a =? 194)
  || ((225 <=? nat_of_ascii a) && (nat_of_ascii a <=? 227)).

Lemma ws2_lead a b : ws2 a b = true -> nat_of_ascii a = 194.
Proof. unfold ws2. intros H. apply andb_prop in H as [H _]. apply Nat.eqb_eq, H. Qed.

Lemma ws3_lead a b c : ws3 a b c = true -> 225 <= nat_of_ascii a <= 227.
Proof.
  unfold ws3. intros H.
  repeat match goal with
         | H : _ || _ = true |- _ => apply orb_prop in H as [H|H]
         | H : _ && _ = true |- _ => apply andb_prop in H as [H _]
         end; apply Nat.eqb_eq in H; lia.
Qed.

Lemma trim_end_rev_nil : forall n l, length l <= n ->
  trim_end_rev l = [] -> l = [] \/ ws_lead (last l "000"%char) = true.
Proof.
  induction n as [|n IH]; intros l Hl E.
  - destruct l; [left; reflexivity | cbn in Hl; lia].
  - destruct l as [|a r]; [left; reflexivity|]. right. cbn in Hl. cbn [trim_end_rev] in E.
    destruct (ws1 a) eqn:W1.
    + destruct (IH r ltac:(lia) E) as [->|H].
      * cbn. unfold ws_lead. rewrite W1. reflexivity.
      * destruct r as [|b r]; [vm_compute in H; discriminate|]. exact H.
    + destruct r as [|b r2]; [discriminate|].
      destruct (ws2 b a) eqn:W2.
      * destruct (IH r2 ltac:(cbn in Hl; lia) E) as [->|H].
        -- cbn. unfold ws_lead. rewrite (ws2_lead _ _ W2), orb_true_r. reflexivity.
        -- destruct r2 as [|c r2]; [vm_compute in H; discriminate|]. exact H.
      * destruct r2 as [|c r3]; [discriminate|].
        destruct (ws3 c b a) eqn:W3; [|discriminate].
        destruct (IH r3 ltac:(cbn in Hl; lia) E) as [->|H].
        -- cbn. unfold ws_lead. pose proof (ws3_lead _ _ _ W3).
           rewrite (proj2 (Nat.leb_le 225 _)), (proj2 (Nat.leb_le _ 227)) by lia.
           rewrite !orb_true_r. reflexivity.
        -- destruct r3 as [|d r3]; [vm_compute in H; discriminate|]. exact H.
Qed.

(** A line whose first byte cannot start a whitespace character is not
    blank. *)
Lemma trim_is_empty_lead a s : ws_lead a = false -> Hl7.trim_is_empty (String a s) = false.
Proof.
  intros H. unfold ws_lead in H. apply orb_false_iff in H as [H H3].
  apply orb_false_iff in H as [W1 H2].
  assert (W2 : forall b, ws2 a b = false).
  { intros b. destruct (ws2 a b) eqn:E; [|reflexivity].
    apply ws2_lead, Nat.eqb_eq in E. congruence. }
  assert (W3 : forall b c, ws3 a b c = false).
  { intros b c. destruct (ws3 a b c) eqn:E; [|reflexivity].
    apply ws3_lead in E. apply andb_false_iff in H3 as [H3|H3];
      [apply Nat.leb_gt in H3 | apply Nat.leb_gt in H3]; lia. }
  unfold Hl7.trim_is_empty, trim. cbn [list_ascii_of_string].
  assert (Es : trim_start (a :: list_ascii_of_string s) = a :: list_ascii_of_string s).
  { destruct (list_ascii_of_string s) as [|b [|c r]]; cbn [trim_start]; rewrite W1;
      [reflexivity | rewrite W2; reflexivity | rewrite W2, W3; reflexivity]. }
  rewrite Es. cbn [rev].
  destruct (trim_end_rev (rev (list_ascii_of_string s) ++ [a])) as [|x l] eqn:E.
  - destruct (trim_end_rev_nil _ _ (le_n _) E) as [N|N].
    + destruct (rev (list_ascii_of_string s)); discriminate.
    + rewrite last_last in N. unfold ws_lead in N. rewrite W1, H2, H3 in N. discriminate.
  - cbn [rev]. destruct (rev l); reflexivity.
Qed.

End TrimFacts.

Module AstmRecordFacts.
Import AstmRecord StrFacts.

Lemma fm_get_filter m k k' :
  fm_get (filter (fun p => negb (fst p =? k)) m) k' =
    if k' =? k then None else fm_get m k'.
Proof.
  induction m as [|[a v] m IH]; cbn.
  - destruct (k' =? k); reflexivity.
  - destruct (a =? k) eqn:Ea; cbn.
    + apply Nat.eqb_eq in Ea; subst a. rewrite IH.
      destruct (k' =? k); reflexivity.
    + rewrite IH. destruct (k' =? k) eqn:E1; [|reflexivity].
      apply Nat.eqb_eq in E1; subst k'. rewrite Nat.eqb_sym, Ea. reflexivity.
Qed.

Lemma fm_get_insert k v m k' :
  fm_get (fm_insert k v m) k' = if k' =? k then Some v else fm_get m k'.
Proof.
  unfold fm_insert. cbn. rewrite fm_get_filter.
  destruct (k' =? k); reflexivity.
Qed.

Lemma set_fields_type i fs r : record_type (set_fields i fs r) = record_type r.
Proof. revert i r; induction fs; intros; cbn; [reflexivity|]. rewrite IHfs. reflexivity. Qed.

Lemma get_set_fields i fs r k :
  get_field (set_fields i fs r) k =
    if (i <=? k) && (k <? i + length fs) then nth_error fs (k - i)
    else get_field r k.
Proof.
  revert i r. induction fs as [|f fs IH]; intros i r; cbn [set_fields].
  - cbn [length]. destruct (i <=? k) eqn:E1, (k <? i + 0) eqn:E2; cbn; try reflexivity.
    apply Nat.leb_le in E1; apply Nat.ltb_lt in E2; lia.
  - rewrite IH. unfold get_field, set_field. cbn [fields]. rewrite fm_get_insert.
    cbn [length].
    destruct (Nat.leb_spec (S i) k), (Nat.ltb_spec k (S i + length fs)),
             (Nat.leb_spec i k), (Nat.ltb_spec k (i + S (length fs))),
             (Nat.eqb_spec k i); cbn; try lia; try reflexivity;
      try (subst k; rewrite Nat.sub_diag; reflexivity).
    replace (k - i) with (S (k - S i)) by lia. reflexivity.
Qed.

Lemma fm_get_in m k v : fm_get m k = Some v -> In k (map fst m).
Proof.
  induction m as [|[a w] m IH]; cbn; [discriminate|].
  destruct (Nat.eqb_spec k a); intros H; [left; congruence | right; auto].
Qed.

Lemma fm_get_pair m k v : fm_get m k = Some v -> In (k, v) m.
Proof.
  induction m as [|[a w] m IH]; cbn; [discriminate|].
  destruct (Nat.eqb_spec k a); intros H; [left; subst; congruence | right; auto].
Qed.

Lemma fm_in_get m k : In k (map fst m) -> fm_get m k <> None.
Proof.
  induction m as [|[a w] m IH]; cbn; [contradiction|].
  destruct (Nat.eqb_spec k a); [discriminate|].
  intros [H|H]; [congruence|auto].
Qed.

Lemma fold_max_list_max l n : fold_left Nat.max l n = Nat.max n (list_max l).
Proof.
  revert n; induction l as [|x l IH]; intros n; [cbn; lia|].
  cbn [fold_left]. rewrite IH.
  change (list_max (x :: l)) with (Nat.max x (list_max l)). lia.
Qed.

Lemma fm_max_key_spec m k :
  (forall j, fm_get m j <> None -> j <= k) -> fm_get m k <> None -> fm_max_key m = k.
Proof.
  intros Hle Hk. unfold fm_max_key. rewrite fold_max_list_max.
  apply Nat.le_antisymm.
  - apply Nat.max_lub; [lia|]. apply list_max_le, Forall_forall.
    intros j Hj. apply Hle, fm_in_get, Hj.
  - destruct (fm_get m k) as [v|] eqn:E; [|congruence].
    apply fm_get_in in E.
    pose proof (list_max_le (map fst m) (list_max (map fst m))) as [H _].
    specialize (H (le_n _)). rewrite Forall_forall in H.
    specialize (H _ E). lia.
Qed.

(** The fields of a parsed record are the ['|']-separated pieces. *)
Lemma parsed_fields rt fs k :
  get_field (set_fields 0 fs (new_record rt)) k = nth_error fs k.
Proof.
  rewrite get_set_fields, Nat.sub_0_r, Nat.add_0_l.
  change (0 <=? k) with true. rewrite andb_true_l.
  destruct (Nat.ltb_spec k (length fs)); [reflexivity|].
  symmetry. apply nth_error_None. lia.
Qed.

Lemma parsed_max_key rt f fs :
  fm_max_key (fields (set_fields 0 (f :: fs) (new_record rt))) = length fs.
Proof.
  apply fm_max_key_spec.
  - intros j Hj. change (get_field (set_fields 0 (f :: fs) (new_record rt)) j <> None) in Hj.
    rewrite parsed_fields in Hj. apply nth_error_Some in Hj. cbn in Hj. lia.
  - change (get_field (set_fields 0 (f :: fs) (new_record rt)) (length fs) <> None).
    rewrite parsed_fields. apply nth_error_Some. cbn. lia.
Qed.

Lemma map_seq_nth {A B} (g : option A -> B) x l :
  map (fun i => g (nth_error (x :: l) i)) (seq 1 (length l)) = map (fun y => g (Some y)) l.
Proof.
  rewrite <- seq_shift, map_map. cbn [nth_error].
  induction l as [|y l IH]; [reflexivity|].
  cbn [length seq map nth_error]. f_equal.
  rewrite <- seq_shift, map_map. cbn [nth_error]. exact IH.
Qed.

Lemma from_to_identifier id rt : from_identifier id = Some rt -> to_identifier rt = id.
Proof.
  unfold from_identifier.
  repeat match goal with
  | |- context [String.eqb id ?c] =>
      destruct (String.eqb_spec id c); [subst; intros H; inversion H; reflexivity|]
  end; discriminate.
Qed.


Lemma substring_first c x : substring 0 1 (String c x) = String c "".
Proof. destruct x; reflexivity. Qed.

Lemma parse_ok s r :
  parse s = ROk r ->
  exists rt, from_identifier (substring 0 1 s) = Some rt /\
             r = set_fields 0 (Str.split FIELD_DELIMITER s) (new_record rt).
Proof.
  unfold parse. destruct (String.eqb s ""); [discriminate|].
  destruct (negb (is_char_boundary s 1)); [discriminate|].
  destruct (from_identifier (substring 0 1 s)) as [rt|]; [|discriminate].
  intros H; inversion H; eauto.
Qed.

Lemma encode_set_fields rt f0 fs :
  encode (set_fields 0 (f0 :: fs) (new_record rt)) =
    (to_identifier rt ++ String.concat "" (map (String FIELD_DELIMITER) fs))%string.
Proof.
  unfold encode. rewrite set_fields_type, parsed_max_key. cbn [record_type new_record].
  f_equal. f_equal.
  pose (G := fun o : option string => String FIELD_DELIMITER
               (match o with Some f => f | None => ""%string end)).
  transitivity (map (fun i => G (nth_error (f0 :: fs) i)) (seq 1 (length fs))).
  - apply map_ext_in. intros i _. unfold G. rewrite parsed_fields. reflexivity.
  - rewrite (map_seq_nth G). reflexivity.
Qed.

Lemma identifier_ascii rt : exists c, to_identifier rt = String c "" /\
  Hl7Facts.no_sep FIELD_DELIMITER (String c "") = true /\
  Hl7Facts.no_sep CR (String c "") = true /\ nat_of_ascii c < 128.
Proof. destruct rt; eexists; repeat split; cbn; lia. Qed.

Lemma from_to rt : from_identifier (to_identifier rt) = Some rt.
Proof. destruct rt; reflexivity. Qed.

Lemma nth_error_map_seq {A} (f : nat -> A) st n k :
  nth_error (map f (seq st n)) k = if k <? n then Some (f (st + k)) else None.
Proof.
  revert st k. induction n as [|n IH]; intros st k; [destruct k; reflexivity|].
  destruct k as [|k]; cbn [seq map nth_error].
  - rewrite Nat.add_0_r. reflexivity.
  - rewrite IH. replace (S st + k) with (st + S k) by lia. reflexivity.
Qed.

(** Parsing, then encoding: keeps everything from the first ['|'] on. *)
Lemma encode_parse s r c f t :
  parse s = ROk r -> s = String c (f ++ t)%string ->
  Hl7Facts.no_sep FIELD_DELIMITER f = true ->
  (t = ""%string \/ exists t', t = String FIELD_DELIMITER t') ->
  encode r = String c t.
Proof.
  intros Hp Hs Hf Ht.
  destruct (parse_ok s r Hp) as [rt [Hid Hr]]. subst r.
  assert (Hc : to_identifier rt = String c "").
  { apply from_to_identifier. rewrite Hs in Hid. rewrite substring_first in Hid. exact Hid. }
  destruct (identifier_ascii rt) as [c' [Hc' [Hns _]]].
  rewrite Hc in Hc'. inversion Hc'. subst c'.
  assert (Hcf : Hl7Facts.no_sep FIELD_DELIMITER (String c f) = true)
    by (cbn in Hns |- *; rewrite andb_true_r in Hns; rewrite Hns; exact Hf).
  rewrite Hs. change (String c (f ++ t)) with (String c f ++ t)%string.
  destruct Ht as [-> | [t' ->]].
  - rewrite sappend_nil_r, Hl7Facts.split_no_sep by exact Hcf.
    unfold encode. rewrite set_fields_type. cbn [record_type new_record].
    replace (fm_max_key (fields (set_fields 0 [String c f] (new_record rt)))) with 0
      by (symmetry; exact (parsed_max_key rt _ [])).
    rewrite Hc. reflexivity.
  - rewrite Hl7Facts.split_app by exact Hcf.
    rewrite encode_set_fields, Hc.
    pose proof (concat_sep_cons FIELD_DELIMITER "" (Str.split FIELD_DELIMITER t')) as E.
    cbn [append] in E. rewrite <- E.
    destruct (split_cons FIELD_DELIMITER t') as [x [xs Hx]].
    rewrite Hx. change (String.concat (String FIELD_DELIMITER "") (""%string :: x :: xs))
      with (String FIELD_DELIMITER (String.concat (String FIELD_DELIMITER "") (x :: xs))).
    rewrite <- Hx, split_join. reflexivity.
Qed.

Lemma encode_parse_witness :
  parse "P1x|a|b"%string = ROk (set_fields 0 ["P1x"; "a"; "b"]%string (new_record Patient)) /\
  encode (set_fields 0 ["P1x"; "a"; "b"]%string (new_record Patient)) = "P|a|b"%string.
Proof.
  split; [reflexivity|].
  apply (encode_parse "P1x|a|b" _ "P" "1x" "|a|b"); [reflexivity | reflexivity | reflexivity |].
  right. exists "a|b"%string. reflexivity.
Defined.


Definition field_or_empty (r : Record') (i : nat) : string :=
  match get_field r i with Some v => v | None => ""%string end.

Lemma encode_as_concat r :
  encode r = String.concat (String FIELD_DELIMITER "")
    (to_identifier (record_type r) :: map (field_or_empty r) (seq 1 (fm_max_key (fields r)))).
Proof.
  rewrite concat_sep_cons, map_map. reflexivity.
Qed.

Lemma parse_nonempty_letter c x :
  nat_of_ascii c < 128 -> (x = ""%string \/ exists y, x = String FIELD_DELIMITER y) ->
  parse (String c x) =
    match from_identifier (String c "") with
    | None => RErr (Astm.InvalidRecordFormat ("Unknown record type: " ++ String c ""))
    | Some rt => ROk (set_fields 0 (Str.split FIELD_DELIMITER (String c x)) (new_record rt))
    end.
Proof.
  intros Hc Hx. unfold parse. cbn [String.eqb].
  rewrite substring_first.
  destruct Hx as [-> | [y ->]]; reflexivity.
Qed.

(** Encoding, then parsing: the same record type, the identifier as field 0,
    and the fields [1..=max] (missing ones as empty strings). *)
Lemma parse_encode r :
  forallb (fun p => Hl7Facts.no_sep FIELD_DELIMITER (snd p)) (fields r) = true ->
  exists r', parse (encode r) = ROk r' /\ record_type r' = record_type r /\
    get_field r' 0 = Some (to_identifier (record_type r)) /\
    forall i, 1 <= i -> get_field r' i =
      if i <=? fm_max_key (fields r) then Some (field_or_empty r i) else None.
Proof.
  intros Hv'.
  assert (Hv : forall i v, get_field r i = Some v -> Hl7Facts.no_sep FIELD_DELIMITER v = true).
  { intros i v Hi. apply fm_get_pair in Hi. rewrite forallb_forall in Hv'.
    exact (Hv' _ Hi). }
  destruct (identifier_ascii (record_type r)) as [c [Hc [Hcs [_ Hc128]]]].
  set (vs := map (field_or_empty r) (seq 1 (fm_max_key (fields r)))).
  assert (Hsplit : Str.split FIELD_DELIMITER (encode r) = to_identifier (record_type r) :: vs).
  { rewrite encode_as_concat. apply split_concat; [discriminate|].
    cbn [forallb]. rewrite Hc, Hcs. cbn [andb].
    apply forallb_forall. unfold vs. intros v Hin. apply in_map_iff in Hin as [i [<- _]].
    unfold field_or_empty. destruct (get_field r i) eqn:E; [eapply Hv; eauto | reflexivity]. }
  assert (Henc : encode r = String c (String.concat "" (map (String FIELD_DELIMITER) vs))).
  { rewrite encode_as_concat, concat_sep_cons, Hc. reflexivity. }
  exists (set_fields 0 (to_identifier (record_type r) :: vs) (new_record (record_type r))).
  split; [|split; [|split]].
  - rewrite Henc, parse_nonempty_letter by
      (exact Hc128 || (destruct vs; [left; reflexivity | right; eexists; cbn [map]; rewrite concat_empty_cons; reflexivity])).
    rewrite <- Hc, from_to, <- Henc, Hsplit. reflexivity.
  - rewrite set_fields_type. reflexivity.
  - rewrite parsed_fields. reflexivity.
  - intros i Hi. rewrite parsed_fields. destruct i as [|k]; [lia|]. cbn [nth_error].
    unfold vs. rewrite nth_error_map_seq.
    destruct (Nat.ltb_spec k (fm_max_key (fields r))), (Nat.leb_spec (S k) (fm_max_key (fields r)));
      try lia; reflexivity.
Qed.

Lemma parse_encode_witness :
  forallb (fun p => Hl7Facts.no_sep FIELD_DELIMITER (snd p))
    (fields (set_field 3 "7.5" (set_field 1 "1" (new_record Result)))) = true /\
  exists r', parse (encode (set_field 3 "7.5" (set_field 1 "1" (new_record Result)))) = ROk r' /\
    record_type r' = Result /\ get_field r' 0 = Some "R"%string /\
    forall i, 1 <= i -> get_field r' i =
      if i <=? 3 then
        Some (field_or_empty (set_field 3 "7.5" (set_field 1 "1" (new_record Result))) i)
      else None.
Proof.
  split; [reflexivity|].
  exact (parse_encode (set_field 3 "7.5" (set_field 1 "1" (new_record Result))) eq_refl).
Defined.


Lemma utf8_lead d y :
  utf8_valid (d :: y) = true -> (nat_of_ascii d <? 128) || (192 <=? nat_of_ascii d) = true.
Proof.
  intros H. destruct (Nat.ltb_spec (nat_of_ascii d) 128); [reflexivity|].
  destruct (Nat.leb_spec 192 (nat_of_ascii d)); [reflexivity|]. exfalso.
  cbn [utf8_valid] in H.
  rewrite (proj2 (Nat.ltb_ge _ _)) in H by lia.
  rewrite (proj2 (Nat.leb_gt 194 _)), (proj2 (Nat.leb_gt 224 _)), (proj2 (Nat.leb_gt 240 _)) in H
    by lia.
  discriminate.
Qed.

Lemma leb_range a lo hi : (lo <=? a) && (a <=? hi) = true -> lo <= a <= hi.
Proof. intros H. apply andb_prop in H as [H1 H2]. apply Nat.leb_le in H1, H2. lia. Qed.

Lemma utf8_second c d y :
  utf8_valid (c :: d :: y) = true -> 128 <= nat_of_ascii c ->
  128 <= nat_of_ascii d <= 191.
Proof.
  intros H Hc. cbn [utf8_valid] in H.
  rewrite (proj2 (Nat.ltb_ge _ _)) in H by lia.
  destruct ((194 <=? nat_of_ascii c) && (nat_of_ascii c <=? 223)).
  { apply andb_prop in H as [Hd _]. apply leb_range, Hd. }
  destruct ((224 <=? nat_of_ascii c) && (nat_of_ascii c <=? 239)).
  { destruct y as [|e y]; [discriminate|].
    apply andb_prop in H as [H _]. apply andb_prop in H as [H _].
    destruct (nat_of_ascii c =? 224); [|destruct (nat_of_ascii c =? 237)];
      apply leb_range in H; lia. }
  destruct ((240 <=? nat_of_ascii c) && (nat_of_ascii c <=? 244)); [|discriminate].
  destruct y as [|e [|f y]]; try discriminate.
  apply andb_prop in H as [H _]. apply andb_prop in H as [H _]. apply andb_prop in H as [H _].
  destruct (nat_of_ascii c =? 240); [|destruct (nat_of_ascii c =? 244)];
    apply leb_range in H; lia.
Qed.

(** [Record::parse] on an empty string, and on a well-formed string whose
    first character is not a record-type letter. *)
Lemma parse_errors c x :
  parse ""%string = RErr (Astm.InvalidRecordFormat "Empty record") /\
  (utf8_valid (list_ascii_of_string (String c x)) = true ->
   nat_of_ascii c < 128 -> from_identifier (String c "") = None ->
   parse (String c x) = RErr (Astm.InvalidRecordFormat ("Unknown record type: " ++ String c ""))).
Proof.
  split; [reflexivity|].
  intros Hu Hc Hn. unfold parse. cbn [String.eqb].
  assert (Hb : is_char_boundary (String c x) 1 = true).
  { unfold is_char_boundary. destruct x as [|d y]; [reflexivity|].
    cbn [list_ascii_of_string utf8_valid] in Hu.
    rewrite (proj2 (Nat.ltb_lt _ _) Hc) in Hu.
    apply utf8_lead in Hu. cbn [String.get String.length]. rewrite Hu.
    destruct (String.length y); reflexivity. }
  rewrite Hb, substring_first, Hn. reflexivity.
Qed.

(** [Record::parse] panics on a well-formed string whose first character is
    not ASCII: [&data[0..1]] cuts that character. *)
Lemma parse_panics_non_ascii s c x :
  utf8_valid (list_ascii_of_string s) = true -> s = String c x ->
  128 <= nat_of_ascii c -> parse s = RPanic.
Proof.
  intros Hu -> Hc. unfold parse. cbn [String.eqb].
  destruct x as [|d y].
  - cbn [list_ascii_of_string utf8_valid] in Hu.
    rewrite (proj2 (Nat.ltb_ge _ _) Hc) in Hu.
    exfalso. revert Hu.
    destruct ((194 <=? nat_of_ascii c) && (nat_of_ascii c <=? 223)); [discriminate|].
    destruct ((224 <=? nat_of_ascii c) && (nat_of_ascii c <=? 239)); [discriminate|].
    destruct ((240 <=? nat_of_ascii c) && (nat_of_ascii c <=? 244)); discriminate.
  - cbn [list_ascii_of_string] in Hu.
    pose proof (utf8_second c d _ Hu Hc) as Hd.
    unfold is_char_boundary. cbn [String.get String.length].
    rewrite (proj2 (Nat.ltb_ge (nat_of_ascii d) 128)) by lia.
    rewrite (proj2 (Nat.leb_gt 192 (nat_of_ascii d))) by lia.
    destruct (String.length y); reflexivity.
Qed.

Lemma parse_panics_non_ascii_witness :
  utf8_valid (list_ascii_of_string (String "195" (String "169" "|1"))) = true /\
  parse (String "195" (String "169" "|1")) = RPanic.
Proof.
  split; [reflexivity|].
  apply (parse_panics_non_ascii _ "195" (String "169" "|1")); [reflexivity | reflexivity | cbn; lia].
Defined.

(** [Record::parse] success: the type is read from the first byte, field
    [i] is the [i]-th ['|']-separated piece. *)
Lemma parse_get_field s r :
  parse s = ROk r ->
  from_identifier (substring 0 1 s) = Some (record_type r) /\
  forall i, get_field r i = nth_error (Str.split FIELD_DELIMITER s) i.
Proof.
  intros H. destruct (parse_ok s r H) as [rt [Hid ->]].
  rewrite set_fields_type. split; [exact Hid|].
  intros i. destruct (split_cons FIELD_DELIMITER s) as [x [xs E]]. rewrite E.
  apply parsed_fields.
Qed.

Lemma parse_get_field_witness :
  parse "P|1||x"%string = ROk (set_fields 0 ["P"; "1"; ""; "x"]%string (new_record Patient)) /\
  (from_identifier (substring 0 1 "P|1||x") =
     Some (record_type (set_fields 0 ["P"; "1"; ""; "x"]%string (new_record Patient))) /\
   forall i, get_field (set_fields 0 ["P"; "1"; ""; "x"]%string (new_record Patient)) i =
             nth_error (Str.split FIELD_DELIMITER "P|1||x") i).
Proof. split; [reflexivity | apply parse_get_field; reflexivity]. Defined.

Lemma utf8_valid_app a b :
  utf8_valid a = true -> utf8_valid (a ++ b) = utf8_valid b.
Proof.
  remember (length a) as n eqn:En. revert a En.
  induction n as [n IH] using lt_wf_ind. intros a En Ha.
  destruct a as [|x r]; [reflexivity|].
  cbn [utf8_valid app] in Ha |- *.
  destruct (nat_of_ascii x <? 128).
  { apply (IH (length r)); cbn in En; [lia|reflexivity|exact Ha]. }
  destruct ((194 <=? nat_of_ascii x) && (nat_of_ascii x <=? 223)).
  { destruct r as [|c1 r']; [discriminate|]. cbn [app].
    apply andb_prop in Ha as [H1 H2]. rewrite H1, (IH (length r')); cbn in En; auto; lia. }
  destruct ((224 <=? nat_of_ascii x) && (nat_of_ascii x <=? 239)).
  { destruct r as [|c1 [|c2 r']]; try discriminate. cbn [app].
    apply andb_prop in Ha as [H1 H2]. rewrite H1, (IH (length r')); cbn in En; auto; lia. }
  destruct ((240 <=? nat_of_ascii x) && (nat_of_ascii x <=? 244)); [|discriminate].
  destruct r as [|c1 [|c2 [|c3 r']]]; try discriminate. cbn [app].
  apply andb_prop in Ha as [H1 H2]. rewrite H1, (IH (length r')); cbn in En; auto; lia.
Qed.

Lemma string_of_list_ascii_of_string s : string_of_list_ascii (list_ascii_of_string s) = s.
Proof. induction s; cbn; congruence. Qed.

Lemma no_sep_app sep a b :
  Hl7Facts.no_sep sep (a ++ b) = Hl7Facts.no_sep sep a && Hl7Facts.no_sep sep b.
Proof.
  unfold Hl7Facts.no_sep. rewrite list_ascii_of_string_app, forallb_app. reflexivity.
Qed.

Lemma concat_empty_app_map {A} (g : A -> string) l :
  list_ascii_of_string (String.concat "" (map g l)) = flat_map (fun x => list_ascii_of_string (g x)) l.
Proof.
  induction l as [|x l IH]; [reflexivity|].
  cbn [map flat_map]. rewrite concat_empty_cons, list_ascii_of_string_app, IH. reflexivity.
Qed.

(** The pieces of [encode] inherit a property of each field value. *)
Lemma encode_bytes r :
  list_ascii_of_string (encode r) =
    list_ascii_of_string (to_identifier (record_type r)) ++
    flat_map (fun i => FIELD_DELIMITER :: list_ascii_of_string (field_or_empty r i))
             (seq 1 (fm_max_key (fields r))).
Proof.
  unfold encode. rewrite list_ascii_of_string_app, concat_empty_app_map. reflexivity.
Qed.

Lemma utf8_valid_flat_map {A} (g : A -> bytes) l :
  (forall x, In x l -> utf8_valid (g x) = true) -> utf8_valid (flat_map g l) = true.
Proof.
  induction l as [|x l IH]; intros H; [reflexivity|].
  cbn [flat_map]. rewrite utf8_valid_app by (apply H; left; reflexivity).
  apply IH. intros y Hy. apply H. right. exact Hy.
Qed.

Lemma forallb_flat_map {A} (p : ascii -> bool) (g : A -> bytes) l :
  (forall x, In x l -> forallb p (g x) = true) -> forallb p (flat_map g l) = true.
Proof.
  induction l as [|x l IH]; intros H; [reflexivity|].
  cbn [flat_map]. rewrite forallb_app, H by (left; reflexivity).
  apply IH. intros y Hy. apply H. right. exact Hy.
Qed.

(** Every stored field value holds no [CR] and is well-formed UTF-8. *)
Definition field_ok (r : Record') : bool :=
  forallb (fun p => Hl7Facts.no_sep CR (snd p) && utf8_valid (list_ascii_of_string (snd p)))
          (fields r).

Lemma field_or_empty_ok r i :
  field_ok r = true -> Hl7Facts.no_sep CR (field_or_empty r i) = true /\
                utf8_valid (list_ascii_of_string (field_or_empty r i)) = true.
Proof.
  unfold field_or_empty. destruct (get_field r i) eqn:E; [|intros _; split; reflexivity].
  intros H. apply fm_get_pair in E. unfold field_ok in H. rewrite forallb_forall in H.
  apply H, andb_prop in E. exact E.
Qed.

Lemma encode_ok r :
  field_ok r = true ->
  Hl7Facts.no_sep CR (encode r) = true /\ utf8_valid (list_ascii_of_string (encode r)) = true.
Proof.
  intros Hr. unfold Hl7Facts.no_sep. rewrite encode_bytes.
  destruct (identifier_ascii (record_type r)) as [c [Hc [_ [Hcr Hc128]]]]. rewrite Hc.
  split.
  - rewrite forallb_app. cbn [list_ascii_of_string forallb].
    unfold Hl7Facts.no_sep in Hcr. cbn in Hcr. rewrite Hcr. cbn [andb].
    apply forallb_flat_map. intros i _. cbn [forallb].
    destruct (field_or_empty_ok r i Hr) as [H _]. exact H.
  - cbn [list_ascii_of_string app utf8_valid].
    rewrite (proj2 (Nat.ltb_lt _ _) Hc128).
    apply utf8_valid_flat_map. intros i _. cbn [utf8_valid].
    destruct (field_or_empty_ok r i Hr) as [_ H]. exact H.
Qed.

Lemma encode_nonempty r : String.eqb (encode r) "" = false.
Proof.
  destruct (identifier_ascii (record_type r)) as [c [Hc _]].
  unfold encode. rewrite Hc. reflexivity.
Qed.

(** Splitting a frame whose content [join_records_to_frame_content] built
    parses the encoding of each record, in order. *)
Lemma split_join_records frame rs :
  Astm.content frame = join_records_to_frame_content rs ->
  forallb field_ok rs = true ->
  split_frame_to_records frame = collect (map (fun r => parse (encode r)) rs).
Proof.
  intros Hc Hrs. unfold split_frame_to_records, join_records_to_frame_content in *.
  rewrite Hc, string_of_list_ascii_of_string.
  assert (Hu : utf8_valid (list_ascii_of_string
             (String.concat "" (map (fun r => (encode r ++ String CR "")%string) rs))) = true).
  { rewrite concat_empty_app_map. apply utf8_valid_flat_map.
    intros r Hr. rewrite list_ascii_of_string_app, utf8_valid_app; [reflexivity|].
    apply encode_ok. rewrite forallb_forall in Hrs. apply Hrs, Hr. }
  rewrite Hu. cbn [negb].
  f_equal. clear Hc Hu.
  induction rs as [|r rs IH]; [reflexivity|].
  cbn [forallb] in Hrs. apply andb_prop in Hrs as [Hr Hrs'].
  cbn [map]. rewrite concat_empty_cons, <- sappend_assoc.
  cbn [append]. rewrite Hl7Facts.split_app by (apply encode_ok, Hr).
  cbn [filter]. rewrite encode_nonempty. cbn [negb map].
  rewrite IH by exact Hrs'. reflexivity.
Qed.

Lemma split_join_records_witness :
  forallb field_ok [create_terminator_record; set_field 2 "x" (new_record Comment)] = true /\
  split_frame_to_records (Astm.mkFrame 1 (join_records_to_frame_content [create_terminator_record; set_field 2 "x" (new_record Comment)]) true) =
    collect (map (fun r => parse (encode r)) [create_terminator_record; set_field 2 "x" (new_record Comment)]).
Proof.
  split; [reflexivity|].
  apply split_join_records; reflexivity.
Defined.

(** [join_components] undoes [parse_components], [join_repeats] undoes
    [parse_repeats]; the converse holds for a nonempty list of pieces that
    hold no delimiter. *)
Lemma components_repeats_roundtrip s cs :
  join_components (parse_components s) = s /\
  join_repeats (parse_repeats s) = s /\
  (cs <> [] -> forallb (Hl7Facts.no_sep COMPONENT_DELIMITER) cs = true ->
   parse_components (join_components cs) = cs) /\
  (cs <> [] -> forallb (Hl7Facts.no_sep REPEAT_DELIMITER) cs = true ->
   parse_repeats (join_repeats cs) = cs).
Proof.
  split; [apply split_join|]. split; [apply split_join|].
  split; intros; apply split_concat; assumption.
Qed.

(** The header record's field 1 is the delimiter string and starts with
    ['|'] itself: re-parsing an encoded header shifts every later field by
    one, so the processing ID ["P"] comes back at index 13, not 12. *)
Lemma header_record_reparse now :
  Hl7Facts.no_sep FIELD_DELIMITER now = true ->
  exists r', parse (encode (create_header_record now)) = ROk r' /\
    record_type r' = Header /\
    get_field r' 1 = Some ""%string /\ get_field r' 2 = Some "`^&"%string /\
    get_field r' 12 = Some ""%string /\ get_field r' 13 = Some "P"%string /\
    get_field r' 14 = Some "E 1394-97"%string /\ get_field r' 15 = Some now.
Proof.
  intros Hn.
  set (pieces := ["H"; ""; "`^&"; ""; ""; ""; ""; ""; ""; ""; ""; ""; ""; "P"; "E 1394-97"; now]%string).
  assert (E : encode (create_header_record now) = String.concat (String FIELD_DELIMITER "") pieces)
    by reflexivity.
  assert (Hs : Str.split FIELD_DELIMITER (encode (create_header_record now)) = pieces).
  { rewrite E. apply split_concat; [discriminate|]. unfold pieces.
    cbn [forallb]. rewrite Hn. reflexivity. }
  exists (set_fields 0 pieces (new_record Header)).
  assert (Hp : parse (encode (create_header_record now)) = ROk (set_fields 0 pieces (new_record Header))).
  { rewrite <- Hs, E. unfold pieces. cbn [String.concat].
    change ("H" ++ ?x)%string with (String "H" x).
    rewrite parse_nonempty_letter; [reflexivity | cbn; lia | right; eexists; reflexivity]. }
  split; [exact Hp|]. rewrite set_fields_type.
  repeat split; rewrite parsed_fields; reflexivity.
Qed.

Lemma header_record_reparse_witness :
  Hl7Facts.no_sep FIELD_DELIMITER "20240101093000" = true /\
  exists r', parse (encode (create_header_record "20240101093000")) = ROk r' /\
    record_type r' = Header /\
    get_field r' 1 = Some ""%string /\ get_field r' 2 = Some "`^&"%string /\
    get_field r' 12 = Some ""%string /\ get_field r' 13 = Some "P"%string /\
    get_field r' 14 = Some "E 1394-97"%string /\ get_field r' 15 = Some "20240101093000"%string.
Proof. split; [reflexivity | apply header_record_reparse; reflexivity]. Defined.

End AstmRecordFacts.

(** ** ASTM date/time parsing *)
Module DatetimeFacts.
Import AstmRecord AstmDatetime.
Local Open Scope Z_scope.

Lemma substring_prefix a b : substring 0 (String.length a) (a ++ b) = a.
Proof. induction a; cbn; [destruct b; reflexivity | rewrite IHa; reflexivity]. Qed.

Lemma substring_shift a b k m :
  substring (String.length a + k) m (a ++ b) = substring k m b.
Proof. induction a; cbn; [reflexivity|]. exact IHa. Qed.

(** Zero-padded decimal digits, as [%Y] and [%m] print them. *)
Definition digit (k : Z) : ascii := ascii_of_nat (48 + Z.to_nat (k mod 10)).
Definition digits2 (n : Z) : string := String (digit (n / 10)) (String (digit n) "").
Definition digits4 (n : Z) : string :=
  String (digit (n / 1000)) (String (digit (n / 100)) (String (digit (n / 10)) (String (digit n) ""))).

Lemma digit_nat k : nat_of_ascii (digit k) = (48 + Z.to_nat (k mod 10))%nat.
Proof.
  unfold digit. apply nat_ascii_embedding.
  pose proof (Z.mod_pos_bound k 10 ltac:(lia)). lia.
Qed.

Lemma digit_small k : (nat_of_ascii (digit k) <? 128)%nat = true.
Proof. rewrite digit_nat. pose proof (Z.mod_pos_bound k 10 ltac:(lia)). apply Nat.ltb_lt. lia. Qed.

Lemma digit_val_digit k : digit_val (digit k) = Some (k mod 10).
Proof.
  unfold digit_val. rewrite digit_nat. pose proof (Z.mod_pos_bound k 10 ltac:(lia)).
  rewrite (proj2 (Nat.leb_le 48 _)), (proj2 (Nat.leb_le _ 57)) by lia. cbn [andb].
  f_equal. lia.
Qed.

Lemma digit_not_sign k c : (nat_of_ascii c < 48)%nat -> Ascii.eqb (digit k) c = false.
Proof.
  intros Hc. destruct (Ascii.eqb_spec (digit k) c) as [E|E]; [|reflexivity].
  rewrite <- E, digit_nat in Hc. lia.
Qed.

Lemma parse_i32_digits4 y : 0 <= y <= 9999 -> parse_i32 (digits4 y) = Some y.
Proof.
  intros Hy. unfold parse_i32, from_str, digits4. cbn [list_ascii_of_string].
  rewrite !digit_not_sign by (cbn; lia). cbn [andb orb digits_pos].
  rewrite !digit_val_digit.
  repeat match goal with
  | |- context [?a <=? ?b] => rewrite (proj2 (Z.leb_le a b)) by (Z.div_mod_to_equations; lia)
  end.
  f_equal. Z.div_mod_to_equations. lia.
Qed.

Lemma parse_u32_digits2 n : 0 <= n <= 99 -> parse_u32 (digits2 n) = Some n.
Proof.
  intros Hn. unfold parse_u32, from_str, digits2. cbn [list_ascii_of_string].
  rewrite !digit_not_sign by (cbn; lia). cbn [andb orb digits_pos].
  rewrite !digit_val_digit.
  repeat match goal with
  | |- context [?a <=? ?b] => rewrite (proj2 (Z.leb_le a b)) by (Z.div_mod_to_equations; lia)
  end.
  f_equal. Z.div_mod_to_equations. lia.
Qed.

Definition astm_datetime_string (y mo d h mi se : Z) : string :=
  (digits4 y ++ digits2 mo ++ digits2 d ++ digits2 h ++ digits2 mi ++ digits2 se)%string.

(** On a YYYYMMDDHHMMSS string of decimal digits, [parse_datetime] returns
    exactly the date and time written there when they form a real calendar
    date and time of day, and [None] otherwise. *)
Lemma parse_datetime_digits y mo d h mi se :
  0 <= y <= 9999 -> 0 <= mo <= 99 -> 0 <= d <= 99 ->
  0 <= h <= 99 -> 0 <= mi <= 99 -> 0 <= se <= 99 ->
  parse_datetime (astm_datetime_string y mo d h mi se) =
    match from_ymd_opt y mo d, from_hms_opt h mi se with
    | Some _, Some _ => PSome (mkDateTime y mo d h mi se)
    | _, _ => PNone
    end.
Proof.
  intros Hy Hmo Hd Hh Hmi Hse.
  pose proof (parse_i32_digits4 y Hy) as Py. pose proof (parse_u32_digits2 mo Hmo) as Pmo.
  pose proof (parse_u32_digits2 d Hd) as Pd. pose proof (parse_u32_digits2 h Hh) as Ph.
  pose proof (parse_u32_digits2 mi Hmi) as Pmi. pose proof (parse_u32_digits2 se Hse) as Pse.
  unfold digits4, digits2 in *.
  unfold parse_datetime, time_part, astm_datetime_string, digits4, digits2, slice_str, is_char_boundary.
  cbn [String.get String.length append substring Nat.sub].
  rewrite !digit_small. cbn -[digit parse_i32 parse_u32 from_ymd_opt from_hms_opt].
  rewrite Py, Pmo, Pd, Ph, Pmi, Pse. reflexivity.
Qed.

Lemma parse_datetime_digits_witness :
  parse_datetime (astm_datetime_string 2024 2 29 23 59 7) =
    PSome (mkDateTime 2024 2 29 23 59 7) /\
  parse_datetime (astm_datetime_string 2023 2 29 23 59 7) = PNone.
Proof.
  split.
  - rewrite parse_datetime_digits by lia. reflexivity.
  - rewrite parse_datetime_digits by lia. reflexivity.
Defined.

Lemma digit_val_range c d : digit_val c = Some d -> 0 <= d <= 9.
Proof.
  unfold digit_val. destruct ((48 <=? nat_of_ascii c)%nat && (nat_of_ascii c <=? 57)%nat) eqn:E;
    [|discriminate].
  apply andb_prop in E as [E1 E2]. apply Nat.leb_le in E1, E2. intros H; inversion H. lia.
Qed.

Lemma digits_pos_bound max acc l v :
  digits_pos max acc l = Some v -> 0 <= acc ->
  0 <= v < (acc + 1) * 10 ^ Z.of_nat (length l).
Proof.
  revert acc. induction l as [|c l IH]; intros acc H Ha; cbn [digits_pos] in H.
  - inversion H. cbn. lia.
  - destruct (digit_val c) as [d|] eqn:Ed; [|discriminate].
    apply digit_val_range in Ed.
    destruct (acc * 10 + d <=? max); [|discriminate].
    specialize (IH _ H ltac:(lia)).
    rewrite length_cons, Nat2Z.inj_succ, Z.pow_succ_r by lia.
    pose proof (Z.pow_pos_nonneg 10 (Z.of_nat (length l)) ltac:(lia) ltac:(lia)). nia.
Qed.

Lemma digits_neg_bound min acc l v :
  digits_neg min acc l = Some v -> acc <= 0 ->
  (acc - 1) * 10 ^ Z.of_nat (length l) < v <= 0.
Proof.
  revert acc. induction l as [|c l IH]; intros acc H Ha; cbn [digits_neg] in H.
  - inversion H. cbn. lia.
  - destruct (digit_val c) as [d|] eqn:Ed; [|discriminate].
    apply digit_val_range in Ed.
    destruct (min <=? acc * 10 - d); [|discriminate].
    specialize (IH _ H ltac:(lia)).
    rewrite length_cons, Nat2Z.inj_succ, Z.pow_succ_r by lia.
    pose proof (Z.pow_pos_nonneg 10 (Z.of_nat (length l)) ltac:(lia) ltac:(lia)). nia.
Qed.

Lemma parse_u32_nonneg p v : parse_u32 p = Some v -> 0 <= v.
Proof.
  unfold parse_u32, from_str. destruct (list_ascii_of_string p) as [|c [|c' r]]; [discriminate| |].
  - destruct (Ascii.eqb c "+" || Ascii.eqb c "-"); [discriminate|].
    intros H. apply digits_pos_bound in H; lia.
  - rewrite andb_false_r. destruct (Ascii.eqb c "+"); intros H; apply digits_pos_bound in H; lia.
Qed.

Lemma length_list_ascii p : length (list_ascii_of_string p) = String.length p.
Proof. induction p; cbn; congruence. Qed.

Lemma parse_i32_short p v :
  (String.length p <= 4)%nat -> parse_i32 p = Some v -> -999 <= v <= 9999.
Proof.
  intros Hl. unfold parse_i32, from_str.
  assert (Hl' : (length (list_ascii_of_string p) <= 4)%nat).
  { rewrite length_list_ascii. exact Hl. }
  destruct (list_ascii_of_string p) as [|c [|c' r]]; [discriminate| |].
  - destruct (Ascii.eqb c "+" || Ascii.eqb c "-"); [discriminate|].
    intros H. apply digits_pos_bound in H; cbn in H; lia.
  - cbn [length] in Hl'.
    assert (Hr : Z.of_nat (length (c' :: r)) <= 3) by (cbn [length]; lia).
    assert (Hr' : Z.of_nat (length (c :: c' :: r)) <= 4) by (cbn [length] in *; lia).
    pose proof (Z.pow_le_mono_r 10 _ _ ltac:(lia) Hr) as P3.
    pose proof (Z.pow_le_mono_r 10 _ _ ltac:(lia) Hr') as P4.
    destruct (Ascii.eqb c "+").
    + intros H. apply digits_pos_bound in H; [|lia]. lia.
    + destruct (Ascii.eqb c "-"); cbn [andb]; intros H.
      * apply digits_neg_bound in H; [|lia]. lia.
      * apply digits_pos_bound in H; [|lia]. lia.
Qed.

Lemma substring_length n m s : (String.length (substring n m s) <= m)%nat.
Proof.
  revert n m; induction s as [|c s IH]; intros [|n] [|m]; cbn; try lia.
  - specialize (IH 0%nat m). lia.
  - apply IH.
  - apply IH.
Qed.

(** What [parse_datetime] returns is always a real calendar date and time
    of day, with a year between -999 and 9999. *)
Lemma parse_datetime_valid s dt :
  parse_datetime s = PSome dt ->
  (8 <= String.length s)%nat /\ -999 <= year dt <= 9999 /\
  1 <= month dt <= 12 /\ 1 <= day dt <= days_in_month (year dt) (month dt) /\
  0 <= hour dt < 24 /\ 0 <= minute dt < 60 /\ 0 <= second dt < 60.
Proof.
  unfold parse_datetime.
  destruct (Nat.ltb_spec (String.length s) 8); [discriminate|].
  destruct (slice_str s 0 4) as [ys|] eqn:Ey; [|discriminate].
  destruct (parse_i32 ys) as [y|] eqn:Py; [|discriminate].
  destruct (slice_str s 4 6) as [ms|]; [|discriminate].
  destruct (parse_u32 ms) as [mo|]; [|discriminate].
  destruct (slice_str s 6 8) as [ds|]; [|discriminate].
  destruct (parse_u32 ds) as [d|]; [|discriminate].
  destruct (time_part s 8 10) as [h|] eqn:Th; [|discriminate].
  destruct (time_part s 10 12) as [mi|] eqn:Tmi; [|discriminate].
  destruct (time_part s 12 14) as [se|] eqn:Tse; [|discriminate].
  unfold from_ymd_opt, from_hms_opt.
  destruct ((-262143 <=? y) && (y <=? 262142) && (1 <=? mo) && (mo <=? 12) &&
            (1 <=? d) && (d <=? days_in_month y mo)) eqn:Ed; [|discriminate].
  destruct ((h <? 24) && (mi <? 60) && (se <? 60)) eqn:Et; [|discriminate].
  intros Hs; inversion Hs; subst dt; cbn [year month day hour minute second].
  assert (Hys : (String.length ys <= 4)%nat).
  { unfold slice_str in Ey.
    destruct (is_char_boundary s 0 && is_char_boundary s 4); [|discriminate].
    inversion Ey. apply substring_length. }
  pose proof (parse_i32_short ys y Hys Py).
  assert (Tnn : forall a b v, time_part s a b = Some v -> 0 <= v).
  { intros a b v. unfold time_part.
    destruct ((b <=? String.length s)%nat); [|intros E; inversion E; lia].
    destruct (slice_str s a b); [|discriminate].
    destruct (parse_u32 s0) eqn:E; intros E'; inversion E'; [|lia].
    subst. eapply parse_u32_nonneg; eauto. }
  apply Tnn in Th, Tmi, Tse.
  repeat rewrite andb_true_iff in Ed. repeat rewrite andb_true_iff in Et.
  destruct Ed as [[[[[E1 E2] E3] E4] E5] E6]. destruct Et as [[E7 E8] E9].
  apply Z.leb_le in E1, E2, E3, E4, E5, E6. apply Z.ltb_lt in E7, E8, E9.
  repeat split; lia.
Qed.

Lemma parse_datetime_valid_witness :
  parse_datetime "20240229123456" = PSome (mkDateTime 2024 2 29 12 34 56) /\
  ((8 <= String.length "20240229123456")%nat /\ -999 <= 2024 <= 9999 /\
   1 <= 2 <= 12 /\ 1 <= 29 <= days_in_month 2024 2 /\
   0 <= 12 < 24 /\ 0 <= 34 < 60 /\ 0 <= 56 < 60).
Proof.
  split; [reflexivity|].
  exact (parse_datetime_valid "20240229123456" (mkDateTime 2024 2 29 12 34 56) eq_refl).
Defined.

(** [parse_datetime] panics when byte 4 is inside a multi-byte character:
    the slice [&dt_str[0..4]] cuts it. *)
Lemma parse_datetime_panics s c :
  (8 <= String.length s)%nat -> String.get 4 s = Some c ->
  (128 <= nat_of_ascii c < 192)%nat -> parse_datetime s = PPanic.
Proof.
  intros Hl Hc Hr. unfold parse_datetime, slice_str.
  rewrite (proj2 (Nat.ltb_ge _ _) Hl).
  assert (Hb : is_char_boundary s 4 = false).
  { unfold is_char_boundary. rewrite Hc.
    rewrite (proj2 (Nat.ltb_ge (nat_of_ascii c) 128)), (proj2 (Nat.leb_gt 192 _)) by lia.
    destruct (Nat.eqb_spec 4 (String.length s)); [lia|].
    rewrite andb_false_r. reflexivity. }
  rewrite Hb, andb_false_r. reflexivity.
Qed.

Lemma parse_datetime_panics_witness :
  parse_datetime (String "2" (String "0" (String "2" (String "195" (String "169" "0101"))))) = PPanic.
Proof. apply (parse_datetime_panics _ "169"); [cbn; lia | reflexivity | cbn; lia]. Defined.

Lemma length_append_str a b : String.length (a ++ b) = (String.length a + String.length b)%nat.
Proof. induction a; cbn; congruence. Qed.

Lemma substring_app_prefix a b n m :
  (n + m <= String.length a)%nat -> substring n m (a ++ b) = substring n m a.
Proof.
  revert n m. induction a as [|c a IH]; intros n m H; cbn in H.
  - assert (n = 0%nat) by lia. assert (m = 0%nat) by lia. subst. destruct b; reflexivity.
  - destruct n as [|n], m as [|m]; cbn; try reflexivity.
    + rewrite IH by lia. reflexivity.
    + apply IH. lia.
    + apply IH. lia.
Qed.

Lemma substring_whole a : substring 0 (String.length a) a = a.
Proof. induction a; cbn; congruence. Qed.

Lemma get_app_lt a b i :
  (i < String.length a)%nat -> String.get i (a ++ b) = String.get i a.
Proof.
  revert i. induction a as [|c a IH]; intros [|i] H; cbn in *; try lia; try reflexivity.
  apply IH. lia.
Qed.

Lemma get_app_len a b k : String.get (String.length a + k) (a ++ b) = String.get k b.
Proof. induction a; cbn; [reflexivity|]. exact IHa. Qed.

(** Inside [a], the character boundaries of [a ++ b] are those of [a]. *)
Lemma boundary_app_lt a b i :
  (i < String.length a)%nat -> is_char_boundary (a ++ b) i = is_char_boundary a i.
Proof.
  intros H. unfold is_char_boundary. rewrite length_append_str, get_app_lt by exact H.
  destruct (Nat.eqb_spec i 0); [reflexivity|].
  rewrite (proj2 (Nat.eqb_neq i (String.length a + String.length b))) by lia.
  rewrite (proj2 (Nat.eqb_neq i (String.length a))) by lia.
  rewrite (proj2 (Nat.ltb_lt i (String.length a + String.length b))) by lia.
  rewrite (proj2 (Nat.ltb_lt i (String.length a))) by lia.
  reflexivity.
Qed.

(** A two-byte time part that is not a [u32] does not make
    [parse_datetime] fail, provided it starts a character (its first byte
    is no UTF-8 continuation byte, so the slices at byte 8 do not panic):
    it counts as hour 0, as if it were absent. *)
Lemma parse_datetime_bad_hour d t c :
  String.length d = 8%nat -> String.length t = 2%nat ->
  String.get 0 t = Some c -> is_cont c = false -> parse_u32 t = None ->
  parse_datetime (d ++ t) = parse_datetime d.
Proof.
  intros Hd Ht Hc Hcont Pt.
  assert (Hl : String.length (d ++ t) = 10%nat) by (rewrite length_append_str; lia).
  assert (B8 : is_char_boundary (d ++ t) 8 = true).
  { assert (G : String.get 8 (d ++ t) = Some c).
    { replace 8%nat with (String.length d + 0)%nat by lia. rewrite get_app_len. exact Hc. }
    unfold is_char_boundary. rewrite Hl, G.
    unfold is_cont in Hcont.
    destruct (Nat.ltb_spec (nat_of_ascii c) 128); [reflexivity|].
    destruct (Nat.leb_spec 192 (nat_of_ascii c)); [reflexivity|].
    rewrite (proj2 (Nat.leb_le 128 _)), (proj2 (Nat.leb_le _ 191)) in Hcont by lia.
    discriminate. }
  assert (Bd : forall i, (i <= 8)%nat -> is_char_boundary (d ++ t) i = is_char_boundary d i).
  { intros i Hi. destruct (Nat.eq_dec i 8) as [->|Hne].
    - rewrite B8. unfold is_char_boundary. rewrite Hd. reflexivity.
    - apply boundary_app_lt. lia. }
  assert (Es : forall a b, (a <= b)%nat -> (b <= 8)%nat -> slice_str (d ++ t) a b = slice_str d a b).
  { intros a b Hab Hb. unfold slice_str. rewrite !Bd by lia.
    rewrite substring_app_prefix by lia. reflexivity. }
  assert (T1 : time_part (d ++ t) 8 10 = Some 0).
  { unfold time_part, slice_str. rewrite Hl. cbn [Nat.leb]. rewrite B8.
    replace (is_char_boundary (d ++ t) 10) with true
      by (unfold is_char_boundary; rewrite Hl; reflexivity).
    cbn [andb].
    replace (10 - 8)%nat with (String.length t) by lia.
    replace 8%nat with (String.length d + 0)%nat by lia. rewrite substring_shift.
    rewrite substring_whole, Pt. reflexivity. }
  assert (T2 : time_part d 8 10 = Some 0) by (unfold time_part; rewrite Hd; reflexivity).
  assert (T3 : forall a b, (10 < b)%nat -> time_part (d ++ t) a b = Some 0 /\ time_part d a b = Some 0).
  { intros a b Hb. unfold time_part. rewrite Hl, Hd.
    rewrite !(proj2 (Nat.leb_gt _ _)) by lia. split; reflexivity. }
  unfold parse_datetime. rewrite Hl, Hd. cbn [Nat.ltb Nat.leb].
  rewrite !Es by lia. rewrite T1, T2.
  destruct (T3 10%nat 12%nat ltac:(lia)) as [-> ->].
  destruct (T3 12%nat 14%nat ltac:(lia)) as [-> ->].
  reflexivity.
Qed.

Lemma parse_datetime_bad_hour_witness :
  parse_u32 "ab" = None /\
  parse_u32 (String "195" (String "169" "")) = None /\
  parse_datetime ("20240115" ++ "ab") = parse_datetime "20240115" /\
  parse_datetime ("20240115" ++ String "195" (String "169" "")) = parse_datetime "20240115".
Proof.
  split; [reflexivity|]. split; [reflexivity|]. split.
  - apply (parse_datetime_bad_hour _ _ "a"); reflexivity.
  - apply (parse_datetime_bad_hour _ _ "195"); reflexivity.
Defined.

End DatetimeFacts.

(** ** MLLP frame validation and buffer extraction in the BF-6900 session *)
Module MllpFacts.
Import Hl7 Bf6900 Hl7Facts.
Local Open Scope string_scope.
Local Open Scope list_scope.

Lemma find_end_sequence_some x i :
  exists j, find_end_sequence (x ++ [MLLP_END_BLOCK; MLLP_CARRIAGE_RETURN]) i = Some j.
Proof.
  revert i. induction x as [|a x IH]; intros i; [eexists; reflexivity|].
  assert (E : exists b r, x ++ [MLLP_END_BLOCK; MLLP_CARRIAGE_RETURN] = b :: r)
    by (destruct x as [|b r]; eexists _, _; reflexivity).
  destruct E as [b [r E]].
  cbn [app find_end_sequence]. rewrite E.
  destruct (byte_eqb a MLLP_END_BLOCK && byte_eqb b MLLP_CARRIAGE_RETURN); [eauto|].
  rewrite <- E. apply IH.
Qed.

Lemma nth_app_last {A} (x : list A) a b d :
  nth (List.length (x ++ [a; b]) - 2) (x ++ [a; b]) d = a /\
  nth (List.length (x ++ [a; b]) - 1) (x ++ [a; b]) d = b.
Proof.
  rewrite length_app. cbn [List.length].
  replace (List.length x + 2 - 2) with (List.length x) by lia.
  replace (List.length x + 2 - 1) with (List.length x + 1) by lia.
  rewrite !app_nth2 by lia. rewrite Nat.sub_diag.
  replace (List.length x + 1 - List.length x) with 1 by lia. split; reflexivity.
Qed.


(** [validate_mllp_frame] accepts exactly the byte strings that start with
    VT and end with FS CR, at least three bytes long. *)
Theorem validate_mllp_frame_iff (data : bytes) :
  validate_mllp_frame data = true <->
  exists x, data = [MLLP_START_BLOCK] ++ x ++ [MLLP_END_BLOCK; MLLP_CARRIAGE_RETURN].
Proof.
  split.
  - unfold validate_mllp_frame. intros H.
    destruct (List.length data <? 3)%nat eqn:L; [discriminate|]. apply Nat.ltb_ge in L.
    destruct data as [|v r]; [cbn in L; lia|]. cbn [nth] in H.
    destruct (byte_eqb v MLLP_START_BLOCK) eqn:V; [|discriminate]. cbn [negb] in H.
    apply Ascii.eqb_eq in V. subst v.
    apply andb_prop in H as [H Hcr]. apply andb_prop in H as [_ Hfs].
    apply Ascii.eqb_eq in Hfs, Hcr.
    cbn [List.length] in L, Hfs, Hcr.
    destruct (rev r) as [|b rr] eqn:R1.
    { apply (f_equal (@List.length _)) in R1. rewrite length_rev in R1. cbn in R1. lia. }
    destruct rr as [|a x'] eqn:R2.
    { apply (f_equal (@List.length _)) in R1. rewrite length_rev in R1. cbn in R1. lia. }
    assert (Er : r = rev x' ++ [a; b]).
    { rewrite <- (rev_involutive r), R1. cbn. rewrite <- app_assoc. reflexivity. }
    exists (rev x'). rewrite Er in Hfs, Hcr |- *.
    destruct (nth_app_last (rev x') a b "000"%char) as [E1 E2].
    replace (S (List.length (rev x' ++ [a; b])) - 2) with (S (List.length (rev x' ++ [a; b]) - 2)) in Hfs
      by (rewrite length_app; cbn; lia).
    replace (S (List.length (rev x' ++ [a; b])) - 1) with (S (List.length (rev x' ++ [a; b]) - 1)) in Hcr
      by (rewrite length_app; cbn; lia).
    cbn [nth] in Hfs, Hcr. rewrite E1 in Hfs. rewrite E2 in Hcr. subst a b. reflexivity.
  - intros [x ->]. unfold validate_mllp_frame.
    replace (List.length ([MLLP_START_BLOCK] ++ x ++ [MLLP_END_BLOCK; MLLP_CARRIAGE_RETURN]))
      with (S (List.length (x ++ [MLLP_END_BLOCK; MLLP_CARRIAGE_RETURN]))) by reflexivity.
    destruct (nth_app_last x MLLP_END_BLOCK MLLP_CARRIAGE_RETURN "000"%char) as [E1 E2].
    rewrite length_app in *. cbn [List.length] in *.
    replace (S (List.length x + 2) <? 3)%nat with false by (symmetry; apply Nat.ltb_ge; lia).
    replace (S (List.length x + 2) - 2) with (S (List.length x + 2 - 2)) by lia.
    replace (S (List.length x + 2) - 1) with (S (List.length x + 2 - 1)) by lia.
    cbn [nth app]. rewrite E1, E2. unfold byte_eqb. rewrite !Ascii.eqb_refl. cbn [negb].
    replace (2 <=? S (List.length x + 2))%nat with true by (symmetry; apply Nat.leb_le; lia).
    reflexivity.
Qed.


(** A frame that [validate_mllp_frame] accepts always yields a message
    under [extract_mllp_message]. *)
Theorem validated_frame_extracts (data : bytes)
    (Hv : validate_mllp_frame data = true) :
  exists m, extract_mllp_message data = Ok m.
Proof.
  apply validate_mllp_frame_iff in Hv as [x ->].
  unfold extract_mllp_message. cbn [app position].
  change (byte_eqb MLLP_START_BLOCK MLLP_START_BLOCK) with true. cbv iota.
  change (skipn (0 + 1) (MLLP_START_BLOCK :: ?l)) with l.
  destruct (find_end_sequence_some x (0 + 1)) as [j E]. rewrite E. eauto.
Qed.

Lemma find_end_sequence_app_tail bs r i :
  forallb (fun x => negb (byte_eqb x MLLP_END_BLOCK)) bs = true ->
  find_end_sequence (bs ++ MLLP_END_BLOCK :: MLLP_CARRIAGE_RETURN :: r) i = Some (i + List.length bs).
Proof.
  revert i. induction bs as [|a bs IH]; intros i H.
  - cbn. rewrite Nat.add_0_r. reflexivity.
  - cbn in H. apply andb_prop in H as [Ha Hbs]. apply negb_true_iff in Ha.
    assert (E : exists b t, bs ++ MLLP_END_BLOCK :: MLLP_CARRIAGE_RETURN :: r = b :: t)
      by (destruct bs as [|b t]; eexists _, _; reflexivity).
    destruct E as [b [t E]].
    cbn [app find_end_sequence]. rewrite E, Ha. cbn [andb]. rewrite <- E.
    rewrite IH by exact Hbs. cbn [List.length]. f_equal. lia.
Qed.

Lemma find_end_sequence_none l i :
  forallb (fun x => negb (byte_eqb x MLLP_END_BLOCK)) l = true ->
  find_end_sequence l i = None.
Proof.
  revert i. induction l as [|a l IH]; intros i H; [reflexivity|].
  cbn in H. apply andb_prop in H as [Ha Hl]. apply negb_true_iff in Ha.
  destruct l as [|b l]; [reflexivity|].
  cbn [find_end_sequence]. rewrite Ha. cbn [andb]. apply IH, Hl.
Qed.

Lemma position_app_first {A} (p : A -> bool) junk v r :
  forallb (fun x => negb (p x)) junk = true -> p v = true ->
  position p (junk ++ v :: r) = Some (List.length junk).
Proof.
  intros H Hv. induction junk as [|a junk IH]; cbn.
  - rewrite Hv. reflexivity.
  - cbn in H. apply andb_prop in H as [Ha Hj]. apply negb_true_iff in Ha.
    rewrite Ha, IH by exact Hj. reflexivity.
Qed.

Lemma extract_complete_cons b :
  b <> [] ->
  extract_complete_mllp_message b =
    match position (byte_eqb MLLP_START_BLOCK) b with
    | Some start_pos =>
        match find_end_sequence (skipn (start_pos + 1) b) (start_pos + 1) with
        | Some i => (Some (slice b (start_pos + 1) i), skipn (i + 2) b)
        | None => (None, b)
        end
    | None => (None, b)
    end.
Proof. destruct b; [congruence|reflexivity]. Qed.

Lemma extract_complete_frame junk t rest :
  forallb (fun x => negb (byte_eqb MLLP_START_BLOCK x)) junk = true ->
  no_sep MLLP_END_BLOCK t = true ->
  extract_complete_mllp_message (junk ++ create_mllp_frame t ++ rest) =
    (Some (list_ascii_of_string t), rest).
Proof.
  intros Hj Ht. unfold create_mllp_frame.
  rewrite extract_complete_cons by (destruct junk; discriminate).
  change ([MLLP_START_BLOCK] ++ ?x) with (MLLP_START_BLOCK :: x).
  cbn [app]. rewrite <- app_assoc. cbn [app].
  rewrite position_app_first by (exact Hj || reflexivity).
  rewrite skipn_app, skipn_all2 by lia.
  replace (List.length junk + 1 - List.length junk) with 1 by lia. cbn [skipn app].
  rewrite find_end_sequence_app_tail by exact Ht.
  change byte with ascii. f_equal; [f_equal|].
  - unfold slice. rewrite skipn_app, skipn_all2 by lia.
    replace (@List.length ascii junk + 1 - @List.length ascii junk) with 1 by lia.
    cbn [skipn app]. match goal with |- firstn ?n _ = _ =>
      replace n with (List.length (list_ascii_of_string t)) by lia end.
    rewrite firstn_app, firstn_all, Nat.sub_diag. cbn [firstn]. apply app_nil_r.
  - rewrite skipn_app, skipn_all2 by lia. cbn [app].
    match goal with |- skipn ?n _ = _ =>
      replace n with (1 + (List.length (list_ascii_of_string t) + 2)) by lia end.
    change (skipn (1 + ?m) (?a :: ?l)) with (skipn m l).
    rewrite skipn_app, skipn_all2 by lia.
    match goal with |- _ ++ skipn ?n _ = _ => replace n with 2 by lia end. reflexivity.
Qed.

(** A buffer made of bytes other than VT, then an MLLP frame around a text
    without FS, then any bytes: [extract_complete_mllp_message] returns the
    text and leaves exactly the bytes after the frame in the buffer. *)
Theorem extract_complete_skips_junk junk t rest
    (Hjunk : forallb (fun x => negb (byte_eqb MLLP_START_BLOCK x)) junk = true)
    (Ht : no_sep MLLP_END_BLOCK t = true) :
  extract_complete_mllp_message (junk ++ create_mllp_frame t ++ rest) =
    (Some (list_ascii_of_string t), rest).
Proof. exact (extract_complete_frame junk t rest Hjunk Ht). Qed.

(** Data that holds no FS byte, added to a buffer without FS, produces no
    message and no effect: it is appended to the connection's buffer and
    kept for the next read. *)
Theorem partial_message_buffered clk c data
    (Hfs : forallb (fun x => negb (byte_eqb x MLLP_END_BLOCK)) (message_buffer c ++ data) = true) :
  process_hl7_data clk c data = (Some (set_buffer (message_buffer c ++ data) c), []).
Proof.
  unfold process_hl7_data. cbn [drain_messages message_buffer set_buffer].
  unfold extract_complete_mllp_message.
  destruct (message_buffer c ++ data) as [|b0 l] eqn:B; [reflexivity|].
  destruct (position (byte_eqb MLLP_START_BLOCK) (b0 :: l)) as [sp|]; [|reflexivity].
  rewrite find_end_sequence_none; [reflexivity|].
  rewrite <- B in *. rewrite <- (firstn_skipn (sp + 1) (message_buffer c ++ data)) in Hfs.
  rewrite forallb_app in Hfs. apply andb_prop in Hfs as [_ Hfs]. exact Hfs.
Qed.

Lemma handle_message_buffer clk c b m :
  handle_message clk (set_buffer b c) m =
    (option_map (set_buffer b) (fst (handle_message clk c m)), snd (handle_message clk c m)) /\
  forall c', fst (handle_message clk c m) = Some c' -> message_buffer c' = message_buffer c.
Proof.
  destruct c as [buf r aid]. unfold handle_message, set_buffer. cbn [message_buffer analyzer_id retry_count].
  destruct (parse_hl7_message (from_utf8_lossy m)) as [msg|e|]; cbn iota.
  - destruct (validate_hl7_message_content msg); split; try reflexivity;
      cbn; intros c' E; inversion E; reflexivity.
  - split; [reflexivity|]. cbn. intros c' E; inversion E; reflexivity.
  - split; [reflexivity|]. cbn. discriminate.
Qed.

(** Handling a list of messages one after the other, threading the
    connection, until one of them panics. *)
Fixpoint handle_seq (clk : Clock) (c : HL7Connection) (ms : list string)
    : option HL7Connection * list Effect :=
  match ms with
  | [] => (Some c, [])
  | t :: ms' =>
      match handle_message clk c (list_ascii_of_string t) with
      | (Some c1, w1) => let '(c2, w2) := handle_seq clk c1 ms' in (c2, w1 ++ w2)
      | (None, w1) => (None, w1)
      end
  end.

Lemma handle_seq_buffer clk c ms :
  forall c', fst (handle_seq clk c ms) = Some c' -> message_buffer c' = message_buffer c.
Proof.
  revert c. induction ms as [|t ms IH]; intros c c' E; [cbn in E; congruence|].
  cbn [handle_seq] in E.
  destruct (handle_message_buffer clk c [] (list_ascii_of_string t)) as [_ B].
  destruct (handle_message clk c (list_ascii_of_string t)) as [[c1|] w1]; [|discriminate].
  specialize (IH c1). destruct (handle_seq clk c1 ms) as [c2 w2]. cbn in *.
  rewrite (IH c' E). apply B. reflexivity.
Qed.

Lemma drain_frames clk ts : forall fuel c,
  forallb (no_sep MLLP_END_BLOCK) ts = true -> List.length ts < fuel ->
  drain_messages fuel clk (set_buffer (concat (map create_mllp_frame ts)) c) =
    (option_map (set_buffer []) (fst (handle_seq clk c ts)), snd (handle_seq clk c ts)).
Proof.
  induction ts as [|t ts IH]; intros fuel c H L.
  - destruct fuel; [cbn in L; lia|]. reflexivity.
  - destruct fuel as [|f]; [cbn in L; lia|]. cbn in H. apply andb_prop in H as [Ht Hts].
    cbn [drain_messages map concat message_buffer set_buffer].
    pose proof (extract_complete_frame [] t (concat (map create_mllp_frame ts)) eq_refl Ht) as E.
    cbn [app] in E. rewrite E.
    change (set_buffer ?a (set_buffer ?b c)) with (set_buffer a c).
    destruct (handle_message_buffer clk c (concat (map create_mllp_frame ts))
                (list_ascii_of_string t)) as [E1 _].
    rewrite E1. cbn [handle_seq].
    destruct (handle_message clk c (list_ascii_of_string t)) as [[c1|] w1]; cbn [fst snd option_map].
    + rewrite IH by (exact Hts || (cbn in L; lia)).
      destruct (handle_seq clk c1 ts) as [c2 w2]. reflexivity.
    + reflexivity.
Qed.

Lemma length_frames ts :
  List.length ts <= List.length (concat (map create_mllp_frame ts)).
Proof.
  induction ts as [|t ts IH]; [reflexivity|].
  cbn [map concat]. rewrite length_app. cbn. lia.
Qed.

(** Several MLLP frames arriving in one read on a connection with an empty
    buffer, each around a text without FS, are handled in order, exactly as
    if each message had been handled on its own, and leave the buffer
    empty. *)
Theorem frames_handled_in_order clk c ts
    (Hbuf : message_buffer c = [])
    (Hts : forallb (no_sep MLLP_END_BLOCK) ts = true) :
  process_hl7_data clk c (concat (map create_mllp_frame ts)) = handle_seq clk c ts.
Proof.
  unfold process_hl7_data. rewrite Hbuf. cbn [app message_buffer set_buffer].
  change (mkHL7Connection (concat (map create_mllp_frame ts)) (retry_count c) (analyzer_id c))
    with (set_buffer (concat (map create_mllp_frame ts)) c).
  rewrite drain_frames by (exact Hts || (pose proof (length_frames ts); lia)).
  pose proof (handle_seq_buffer clk c ts) as B. rewrite Hbuf in B.
  destruct (handle_seq clk c ts) as [[[buf r aid]|] w]; [|reflexivity].
  specialize (B _ eq_refl). cbn in B |- *. subst buf. reflexivity.
Qed.

Lemma validated_frame_extracts_witness :
  validate_mllp_frame [MLLP_START_BLOCK; "A"%char; MLLP_END_BLOCK; MLLP_CARRIAGE_RETURN] = true /\
  exists m, extract_mllp_message
              [MLLP_START_BLOCK; "A"%char; MLLP_END_BLOCK; MLLP_CARRIAGE_RETURN] = Ok m.
Proof.
  split; [reflexivity|]. apply validated_frame_extracts. reflexivity.
Defined.

Lemma extract_complete_skips_junk_witness :
  forallb (fun x => negb (byte_eqb MLLP_START_BLOCK x)) ["x"%char; "y"%char] = true /\
  no_sep MLLP_END_BLOCK "MSH|1" = true /\
  extract_complete_mllp_message (["x"%char; "y"%char] ++ create_mllp_frame "MSH|1" ++ [MLLP_START_BLOCK]) =
    (Some (list_ascii_of_string "MSH|1"), [MLLP_START_BLOCK]).
Proof.
  split; [reflexivity|]. split; [reflexivity|].
  apply extract_complete_skips_junk; reflexivity.
Defined.

Lemma partial_message_buffered_witness :
  forallb (fun x => negb (byte_eqb x MLLP_END_BLOCK))
    ([MLLP_START_BLOCK] ++ list_ascii_of_string "MSH|") = true /\
  process_hl7_data (mkClock "20240101120000" 0) (mkHL7Connection [MLLP_START_BLOCK] 0%N "BF")
    (list_ascii_of_string "MSH|") =
    (Some (set_buffer ([MLLP_START_BLOCK] ++ list_ascii_of_string "MSH|")
       (mkHL7Connection [MLLP_START_BLOCK] 0%N "BF")), []).
Proof.
  split; [reflexivity|].
  apply (partial_message_buffered _ (mkHL7Connection [MLLP_START_BLOCK] 0%N "BF")). reflexivity.
Defined.

Lemma frames_handled_in_order_witness :
  message_buffer (mkHL7Connection [] 2%N "BF") = [] /\
  forallb (no_sep MLLP_END_BLOCK) [Bf6900Facts.adt_a08; bf6900_oru] = true /\
  process_hl7_data (mkClock "20240101120000" 1704110400) (mkHL7Connection [] 2%N "BF")
    (concat (map create_mllp_frame [Bf6900Facts.adt_a08; bf6900_oru])) =
    handle_seq (mkClock "20240101120000" 1704110400) (mkHL7Connection [] 2%N "BF")
      [Bf6900Facts.adt_a08; bf6900_oru].
Proof.
  split; [reflexivity|]. split; [vm_compute; reflexivity|].
  apply frames_handled_in_order; [reflexivity|vm_compute; reflexivity].
Defined.

End MllpFacts.

(** ** The NAK for an unsupported message type in the BF-6900 session *)
Module NakFacts.
Import Hl7 Bf6900 Hl7Facts MllpFacts.
Local Open Scope list_scope.
Local Open Scope string_scope.

(** The pieces of [str::split] before the last piece of [a] are the
    first pieces of [a ++ b]. *)
Lemma split_app_nth (sep : ascii) (a b : string) (k : nat) :
  S k < List.length (Str.split sep a) ->
  nth_error (Str.split sep (a ++ b)) k = nth_error (Str.split sep a) k.
Proof.
  revert k. induction a as [|c a IH]; intros k Hk; [cbn in Hk; lia|].
  cbn [append Str.split] in *. destruct (Ascii.eqb c sep).
  - destruct k as [|k]; [reflexivity|]. cbn [nth_error]. apply IH. cbn in Hk. lia.
  - destruct (StrFacts.split_cons sep a) as [y [ys Ey]].
    destruct (StrFacts.split_cons sep (a ++ b)) as [x [xs Ex]].
    rewrite Ey in Hk |- *. rewrite Ex.
    specialize (IH k). rewrite Ey, Ex in IH. cbn [List.length] in Hk, IH.
    specialize (IH Hk).
    destruct k as [|k]; cbn [nth_error] in IH |- *; [injection IH as ->|]; congruence.
Qed.

Lemma prefix_app (p s : string) : String.prefix p s = true -> exists x, s = p ++ x.
Proof.
  revert s. induction p as [|c p IH]; intros s H; [exists s; reflexivity|].
  destruct s as [|d s]; [discriminate|]. cbn in H.
  destruct (Ascii.ascii_dec c d) as [<-|]; [|discriminate].
  destruct (IH s H) as [x ->]. exists x. reflexivity.
Qed.

(** [str::lines] on a nonempty text without LF is that text. *)
Lemma lines_no_lf (u : string) :
  u <> "" -> no_sep "010" u = true -> lines u = [u].
Proof.
  intros Hne H. unfold lines. rewrite split_no_sep by exact H. cbn.
  destruct (String.eqb_spec u ""); [congruence|reflexivity].
Qed.

(** [parse_lines] only appends segments. *)
Lemma parse_lines_prefix (ls : list string) : forall acc m,
  parse_lines ls acc = Ok m -> exists tl, segments m = (segments acc ++ tl)%list.
Proof.
  induction ls as [|l ls IH]; intros acc m H; cbn [parse_lines] in H.
  - injection H as <-. exists []. symmetry. apply List.app_nil_r.
  - destruct (trim_is_empty l); [exact (IH _ _ H)|].
    destruct (parse_hl7_segment l) as [seg| |]; try discriminate.
    destruct (String.eqb (segment_type seg) "MSH").
    + destruct (parse_msh_segment seg) as [msh| |]; try discriminate.
      destruct (IH _ _ H) as [tl E]. cbn [segments] in E.
      exists (seg :: tl). rewrite E, <- app_assoc. reflexivity.
    + destruct (IH _ _ H) as [tl E]. cbn [segments] in E.
      exists (seg :: tl). rewrite E, <- app_assoc. reflexivity.
Qed.

(** A message text that starts with "MSH" and parses: its first segment is
    the MSH segment made of the first CR-separated line, which has at
    least twelve fields, and field 9 of that segment is field 9 of the
    whole text split on '|'. *)
Lemma parse_first_msh (u : string) (m : HL7Message) :
  Str.starts_with u "MSH" = true -> parse_hl7_message u = Ok m ->
  exists s0 ss, segments m = s0 :: ss /\ segment_type s0 = "MSH" /\
    nth_error (Str.split "|" u) 9 = Some (field s0 9).
Proof.
  intros Hs Hp. apply prefix_app in Hs as [x ->].
  unfold parse_hl7_message in Hp. cbn [String.eqb append] in Hp.
  destruct (StrFacts.split_cons "013" x) as [y [ys Ey]].
  assert (Split : Str.split "013" ("MSH" ++ x) = ("MSH" ++ y) :: ys)
    by (cbn [append Str.split]; rewrite Ey; reflexivity).
  assert (Hx : ("MSH" ++ x) = ("MSH" ++ y) ++ String.concat "" (map (String "013") ys)).
  { rewrite <- (StrFacts.split_join "013" ("MSH" ++ x)) at 1. rewrite Split.
    rewrite StrFacts.concat_sep_cons. reflexivity. }
  cbn [append] in Split. rewrite Split in Hp.
  change ("MSH" ++ y) with (String "M" (String "S" (String "H" y))) in Hx.
  set (p0 := String "M" (String "S" (String "H" y))) in *.
  cbn [parse_lines] in Hp.
  replace (trim_is_empty p0) with false in Hp
    by (symmetry; exact (TrimFacts.trim_is_empty_lead "M" _ eq_refl)).
  unfold parse_hl7_segment in Hp.
  replace (String.length p0 <? 3)%nat with false in Hp by reflexivity.
  destruct (negb (Str.is_char_boundary p0 3)); [discriminate|].
  replace (substring 0 3 p0) with "MSH" in Hp by (subst p0; cbn; destruct y; reflexivity).
  cbn [segment_type String.eqb Ascii.eqb Bool.eqb] in Hp.
  unfold parse_msh_segment in Hp. cbn [segment_type fields negb String.eqb Ascii.eqb Bool.eqb] in Hp.
  destruct (Nat.ltb_spec (List.length (Str.split "|" p0)) 12) as [|Hf]; [discriminate|].
  apply parse_lines_prefix in Hp as [tl E]. cbn [segments app] in E.
  eexists _, tl. split; [exact E|]. split; [reflexivity|].
  rewrite Hx, split_app_nth by lia.
  unfold field, Str.get_or. cbn [fields].
  apply nth_error_nth'. lia.
Qed.

(** C7 (amended): a message of an unsupported type.  On a connection with
    an empty buffer, one MLLP frame arrives around a text [t] without FS.
    Decoded with [String::from_utf8_lossy], it is [u]: a text without LF
    that starts with "MSH" and parses to a message [m] whose type is not
    supported.  The session then reports [HL7MessageReceived] and answers
    with one NAK whose MSA segment is "MSA|AE|", the control id (field 9
    of the first MSH segment), "|", and the validation text
    "Unsupported message type: <type>" decorated by
    [handle_hl7_processing_error]: its error type in front and
    " (retry n)" behind, where n is the retry count plus one, mod 2^32.
    It publishes no other event (in particular no
    [HematologyResultProcessed]), keeps the buffer empty and stores n. *)
Theorem unsupported_type_nak (clk : Clock) (c : HL7Connection) (t u : string) (m : HL7Message)
    (Hbuf : message_buffer c = [])
    (Ht : no_sep MLLP_END_BLOCK t = true)
    (Hu : from_utf8_lossy (list_ascii_of_string t) = u)
    (Hmsh : Str.starts_with u "MSH" = true)
    (Hlf : no_sep "010" u = true)
    (Hp : parse_hl7_message u = Ok m)
    (Hty : is_supported_message_type (message_type m) = false) :
  let e := "Unsupported message type: " ++ message_type m in
  let n := ((retry_count c + 1) mod 2 ^ 32)%N in
  exists s0 ss, segments m = s0 :: ss /\ segment_type s0 = "MSH" /\
  process_hl7_data clk c (create_mllp_frame t) =
    (Some (mkHL7Connection [] n (analyzer_id c)),
     [Send (HL7MessageReceived (analyzer_id c) "HL7" u);
      send_hl7_response
        ("MSH|^~\&|LIS|HOSPITAL|BF-6900|FACILITY|" ++ now_ymdhms clk
         ++ "||ACK^R01^ACK|NAK" ++ Str.n_to_string (now_epoch clk)
         ++ "|P|2.3.1||||||UTF-8" ++ CR_str
         ++ "MSA|AE|" ++ field s0 9 ++ "|" ++ error_type e ++ ":" ++ e
         ++ " (retry " ++ Str.n_to_string n ++ ")")]).
Proof.
  intros e n.
  destruct (parse_first_msh u m Hmsh Hp) as [s0 [ss [Hseg [Hty0 Hf9]]]].
  exists s0, ss. split; [exact Hseg|]. split; [exact Hty0|].
  assert (Hne : u <> "") by (intros ->; discriminate).
  unfold process_hl7_data. rewrite Hbuf. cbn [app message_buffer set_buffer].
  replace (set_buffer (create_mllp_frame t) c)
    with (set_buffer (concat (map create_mllp_frame [t])) c)
    by (cbn [map concat]; rewrite List.app_nil_r; reflexivity).
  rewrite drain_frames.
  2:{ cbn. rewrite Ht. reflexivity. }
  2:{ unfold create_mllp_frame. rewrite !length_app. cbn. lia. }
  cbn [handle_seq].
  unfold handle_message. rewrite Hu, Hp.
  unfold validate_hl7_message_content. rewrite Hseg, Hty0, Hty. cbn [negb String.eqb Ascii.eqb Bool.eqb].
  unfold handle_hl7_processing_error, create_hl7_nak_response.
  rewrite lines_no_lf by assumption. cbn [find]. rewrite Hmsh, Hf9.
  rewrite Hbuf. reflexivity.
Qed.

(** The message that [parse_hl7_message] makes of the ADT^A08 text. *)
Definition adt_a08_message : HL7Message :=
  match parse_hl7_message Bf6900Facts.adt_a08 with
  | Ok m => m
  | _ => mkMessage "" "" "" "" [] ""
  end.

Lemma unsupported_type_nak_witness :
  let clk := mkClock "20240101120000" 1704110400%N in
  let c := mkHL7Connection [] 4294967295%N "BF6900" in
  let t := Bf6900Facts.adt_a08 in
  let m := adt_a08_message in
  (message_buffer c = [] /\ no_sep MLLP_END_BLOCK t = true /\
   from_utf8_lossy (list_ascii_of_string t) = t /\ Str.starts_with t "MSH" = true /\
   no_sep "010" t = true /\ parse_hl7_message t = Ok m /\
   is_supported_message_type (message_type m) = false) /\
  let e := "Unsupported message type: " ++ message_type m in
  let n := ((retry_count c + 1) mod 2 ^ 32)%N in
  exists s0 ss, segments m = s0 :: ss /\ segment_type s0 = "MSH" /\
  process_hl7_data clk c (create_mllp_frame t) =
    (Some (mkHL7Connection [] n (analyzer_id c)),
     [Send (HL7MessageReceived (analyzer_id c) "HL7" t);
      send_hl7_response
        ("MSH|^~\&|LIS|HOSPITAL|BF-6900|FACILITY|" ++ now_ymdhms clk
         ++ "||ACK^R01^ACK|NAK" ++ Str.n_to_string (now_epoch clk)
         ++ "|P|2.3.1||||||UTF-8" ++ CR_str
         ++ "MSA|AE|" ++ field s0 9 ++ "|" ++ error_type e ++ ":" ++ e
         ++ " (retry " ++ Str.n_to_string n ++ ")")]).
Proof.
  cbv zeta. split; [repeat split; vm_compute; reflexivity|].
  apply (unsupported_type_nak (mkClock "20240101120000" 1704110400%N)
           (mkHL7Connection [] 4294967295%N "BF6900") Bf6900Facts.adt_a08
           Bf6900Facts.adt_a08 adt_a08_message);
    vm_compute; reflexivity.
Defined.

End NakFacts.

(** ** BF-6900 results, abnormal flags and connection health *)
Module Bf6900ResultFacts.
Import Hl7 Bf6900 Hl7Facts.
Local Open Scope string_scope.
Local Open Scope list_scope.

Lemma process_fold aid segs : forall p rs,
  fold_left (fun (acc : option PatientData * list HematologyResult) s =>
    let '(p, rs) := acc in
    if String.eqb (segment_type s) "PID" then (Some (convert_pid_to_patient_data s), rs)
    else if String.eqb (segment_type s) "OBX"
    then (p, rs ++ [convert_obx_to_hematology_result s aid])
    else (p, rs)) segs (p, rs) =
  (match find (fun s => String.eqb (segment_type s) "PID") (rev segs) with
   | Some s => Some (convert_pid_to_patient_data s)
   | None => p
   end,
   rs ++ map (fun s => convert_obx_to_hematology_result s aid)
          (filter (fun s => String.eqb (segment_type s) "OBX") segs)).
Proof.
  induction segs as [|s segs IH] using rev_ind; intros p rs.
  - cbn. rewrite app_nil_r. reflexivity.
  - rewrite fold_left_app, IH. cbn [fold_left].
    rewrite rev_app_distr, filter_app. cbn [rev app find filter].
    destruct (String.eqb (segment_type s) "PID") eqn:P.
    + cbn [map]. idtac.
      assert (String.eqb (segment_type s) "OBX" = false) as ->
        by (apply String.eqb_eq in P; rewrite P; reflexivity).
      cbn [map]. rewrite app_nil_r. reflexivity.
    + destruct (String.eqb (segment_type s) "OBX"); cbn [map];
        rewrite ?map_app, ?app_assoc, ?app_nil_r; reflexivity.
Qed.

(** The event published for a message lists one result per OBX segment, in
    the order of the segments, and takes the patient from the last PID
    segment (none without PID); the patient id is that patient's id. *)
Theorem process_hl7_message_results (c : HL7Connection) (m : HL7Message) :
  process_hl7_message c m =
    HematologyResultProcessed (analyzer_id c)
      (option_map pd_id (option_map convert_pid_to_patient_data
         (find (fun s => String.eqb (segment_type s) "PID") (rev (segments m)))))
      (option_map convert_pid_to_patient_data
         (find (fun s => String.eqb (segment_type s) "PID") (rev (segments m))))
      (map (fun s => convert_obx_to_hematology_result s (analyzer_id c))
         (filter (fun s => String.eqb (segment_type s) "OBX") (segments m))).
Proof.
  unfold process_hl7_message. rewrite process_fold. cbn [app].
  destruct (find _ (rev (segments m))); reflexivity.
Qed.

Lemma forallb_impl {A} (p q : A -> bool) (l : list A) :
  (forall x, In x l -> p x = true -> q x = true) ->
  forallb p l = true -> forallb q l = true.
Proof.
  intros H Hp. apply forallb_forall. intros x Hx.
  apply H; [exact Hx|]. rewrite forallb_forall in Hp. apply Hp, Hx.
Qed.

Lemma no_sep_split_in sep s x :
  In x (Str.split sep s) -> no_sep sep x = true.
Proof.
  revert x. induction s as [|c s IH]; intros x Hx.
  - destruct Hx as [<-|[]]. reflexivity.
  - cbn [Str.split] in Hx. destruct (Ascii.eqb c sep) eqn:E.
    + destruct Hx as [<-|Hx]; [reflexivity|]. apply IH, Hx.
    + destruct (Str.split sep s) as [|y ys] eqn:S.
      * destruct Hx as [<-|[]]. cbn. rewrite E. reflexivity.
      * destruct Hx as [<-|Hx].
        -- cbn. rewrite E. apply IH. left. reflexivity.
        -- apply IH. right. exact Hx.
Qed.

(** Every flag that [extract_abnormal_flags] returns is nonempty and holds
    no '~'. *)
Theorem abnormal_flags_clean (s : string) :
  Forall (fun f => f <> ""%string /\ no_sep "~" f = true) (extract_abnormal_flags s).
Proof.
  unfold extract_abnormal_flags. destruct (String.eqb s ""); [constructor|].
  apply Forall_forall. intros f Hf. apply filter_In in Hf as [Hf Hne].
  apply negb_true_iff, String.eqb_neq in Hne. split; [exact Hne|].
  apply in_map_iff in Hf as [x [<- Hx]].
  apply no_sep_split_in in Hx. apply TrimFacts.trim_forallb, Hx.
Qed.

(** Flags that are nonempty and hold neither a whitespace character
    (Unicode White_Space) nor '~', joined by '~', are extracted back
    unchanged and in order. *)
Theorem abnormal_flags_roundtrip (fs : list string)
    (Hfs : forallb (fun f => negb (String.eqb f "") && TrimFacts.no_ws (list_ascii_of_string f)
                             && no_sep "~" f) fs = true) :
  extract_abnormal_flags (String.concat "~" fs) = fs.
Proof.
  destruct fs as [|f0 fs0] eqn:F; [reflexivity|]. rewrite <- F in *.
  assert (Hne : String.concat "~" fs <> ""%string).
  { subst fs. cbn in Hfs. apply andb_prop in Hfs as [Hf0 _].
    apply andb_prop in Hf0 as [Hf0 _]. apply andb_prop in Hf0 as [Hf0 _].
    apply negb_true_iff, String.eqb_neq in Hf0.
    destruct f0 as [|a f0]; [congruence|]. rewrite StrFacts.concat_string_cons. discriminate. }
  unfold extract_abnormal_flags. apply String.eqb_neq in Hne. rewrite Hne. cbv iota.
  rewrite StrFacts.split_concat; [| subst fs; discriminate |].
  - rewrite map_ext_in with (g := fun x => x).
    + rewrite map_id. apply forallb_filter_id.
      eapply forallb_impl; [|exact Hfs]. intros f _ Hf.
      apply andb_prop in Hf as [Hf _]. apply andb_prop in Hf as [Hf _]. exact Hf.
    + intros f Hf. apply TrimFacts.trim_no_ws.
      rewrite forallb_forall in Hfs. specialize (Hfs f Hf).
      apply andb_prop in Hfs as [Hfs _]. apply andb_prop in Hfs as [_ Hfs]. exact Hfs.
  - eapply forallb_impl; [|exact Hfs]. intros f _ Hf.
    apply andb_prop in Hf as [_ Hf]. exact Hf.
Qed.

(** In the connection loop the health is computed right after
    [last_activity] is reset, so while less than 30 seconds pass between
    the two clock readings the read timeout depends on the retry counter
    alone: 10 s for at most 2 retries, 5 s for 3 to 5, 2 s beyond. *)
Theorem loop_timeout_by_retries (r : N) (elapsed : Z)
    (He : (0 <= elapsed < 30)%Z) :
  loop_read_timeout r elapsed = (if (r <=? 2)%N then 10 else if (r <=? 5)%N then 5 else 2)%nat.
Proof.
  unfold loop_read_timeout, update_connection_health.
  replace (elapsed <? 30)%Z with true by (symmetry; apply Z.ltb_lt; lia).
  replace (elapsed <? 60)%Z with true by (symmetry; apply Z.ltb_lt; lia).
  destruct (r <=? 2)%N eqn:R2; [reflexivity|]. apply N.leb_gt in R2.
  replace (3 <=? r)%N with true by (symmetry; apply N.leb_le; lia).
  destruct (r <=? 5)%N; reflexivity.
Qed.

(** For a fixed retry counter, the longer the connection has been idle the
    shorter (or equal) the read timeout. *)
Theorem timeout_nonincreasing_in_idle_time (r : N) (e1 e2 : Z)
    (Hle : (e1 <= e2)%Z) :
  get_connection_timeout (update_connection_health r e2)
    <= get_connection_timeout (update_connection_health r e1).
Proof.
  unfold update_connection_health.
  destruct (e2 <? 30)%Z eqn:A2, (e1 <? 30)%Z eqn:A1, (e2 <? 60)%Z eqn:B2, (e1 <? 60)%Z eqn:B1;
    rewrite ?Z.ltb_lt, ?Z.ltb_ge in *; try lia;
    rewrite ?andb_true_r, ?andb_false_r; cbn;
    repeat match goal with |- context [if ?b then _ else _] => destruct b end; cbn; lia.
Qed.

Lemma abnormal_flags_roundtrip_witness :
  forallb (fun f => negb (String.eqb f "") && TrimFacts.no_ws (list_ascii_of_string f)
                    && no_sep "~" f) ["H"; "A"] = true /\
  extract_abnormal_flags "H~A" = ["H"; "A"].
Proof.
  split; [reflexivity|]. apply (abnormal_flags_roundtrip ["H"; "A"]). reflexivity.
Defined.

Lemma loop_timeout_by_retries_witness :
  (0 <= 0 < 30)%Z /\ loop_read_timeout 4%N 0 = 5%nat.
Proof.
  split; [lia|]. apply (loop_timeout_by_retries 4%N 0). lia.
Defined.

Lemma timeout_nonincreasing_in_idle_time_witness :
  (10 <= 40)%Z /\
  (get_connection_timeout (update_connection_health 1%N 40)
     <= get_connection_timeout (update_connection_health 1%N 10))%nat.
Proof.
  split; [lia|]. apply timeout_nonincreasing_in_idle_time. lia.
Defined.

End Bf6900ResultFacts.

(** ** The HL7 acknowledgment parses back *)
Module AckFacts.
Import Hl7 Bf6900 Hl7Facts StrFacts AstmRecordFacts.
Local Open Scope string_scope.
Local Open Scope list_scope.

(** A field value that can travel in an HL7 segment: it holds neither the
    field separator nor the segment separator. *)
Definition field_safe (x : string) : bool := no_sep "|" x && no_sep "013" x.

Lemma split_in_chars sep s x c :
  In x (Str.split sep s) -> In c (list_ascii_of_string x) ->
  In c (list_ascii_of_string s) /\ c <> sep.
Proof.
  revert x. induction s as [|a s IH]; intros x Hx Hc.
  - destruct Hx as [<-|[]]. destruct Hc.
  - cbn [Str.split] in Hx. destruct (Ascii.eqb a sep) eqn:E.
    + destruct Hx as [<-|Hx]; [destruct Hc|].
      destruct (IH x Hx Hc) as [H1 H2]. split; [right; exact H1|exact H2].
    + apply Ascii.eqb_neq in E.
      destruct (Str.split sep s) as [|y ys] eqn:S.
      * destruct Hx as [<-|[]]. destruct Hc as [<-|[]]. split; [left; reflexivity|exact E].
      * destruct Hx as [<-|Hx].
        -- destruct Hc as [<-|Hc]; [split; [left; reflexivity|exact E]|].
           destruct (IH y (or_introl eq_refl) Hc) as [H1 H2]. split; [right; exact H1|exact H2].
        -- destruct (IH x (or_intror Hx) Hc) as [H1 H2]. split; [right; exact H1|exact H2].
Qed.

Lemma no_sep_forall sep s :
  no_sep sep s = true <-> forall c, In c (list_ascii_of_string s) -> c <> sep.
Proof.
  unfold no_sep. rewrite forallb_forall. split; intros H c Hc.
  - specialize (H c Hc). apply negb_true_iff, Ascii.eqb_neq in H. exact H.
  - apply negb_true_iff, Ascii.eqb_neq, H, Hc.
Qed.

Lemma split_piece_safe sep s x :
  In x (Str.split sep s) -> field_safe s = true -> field_safe x = true.
Proof.
  unfold field_safe. intros Hx Hs. apply andb_prop in Hs as [H1 H2].
  rewrite no_sep_forall in H1, H2. apply andb_true_intro. split; apply no_sep_forall;
    intros c Hc; apply (split_in_chars sep s x c Hx) in Hc as [Hc _]; auto.
Qed.

Lemma split_piece_no_sep sep s x :
  In x (Str.split sep s) -> no_sep sep x = true.
Proof.
  intros Hx. apply no_sep_forall. intros c Hc.
  exact (proj2 (split_in_chars sep s x c Hx Hc)).
Qed.

Lemma split_piece_no_other sep c0 s x :
  In x (Str.split sep s) -> no_sep c0 s = true -> no_sep c0 x = true.
Proof.
  intros Hx Hs. rewrite no_sep_forall in Hs |- *. intros c Hc.
  apply Hs, (split_in_chars sep s x c Hx Hc).
Qed.

Lemma nth_split_safe l i d :
  no_sep "013" l = true -> field_safe d = true ->
  field_safe (nth i (Str.split "|" l) d) = true.
Proof.
  intros Hl Hd. destruct (Nat.lt_ge_cases i (List.length (Str.split "|" l))) as [Hi|Hi].
  - pose proof (nth_In _ d Hi) as Hin. unfold field_safe. rewrite (split_piece_no_sep _ _ _ Hin).
    rewrite (split_piece_no_other _ _ _ _ Hin Hl). reflexivity.
  - rewrite nth_overflow by exact Hi. exact Hd.
Qed.

(** What [parse_lines] keeps: header fields and segment fields are safe. *)
Definition msg_safe (m : HL7Message) : Prop :=
  field_safe (message_type m) = true /\ field_safe (message_control_id m) = true /\
  Forall (fun s => forallb field_safe (fields s) = true) (segments m).

Lemma parse_lines_safe lines : forall acc m,
  Forall (fun l => no_sep "013" l = true) lines -> msg_safe acc ->
  parse_lines lines acc = Ok m -> msg_safe m.
Proof.
  induction lines as [|l lines IH]; intros acc m Hl Hacc H.
  - cbn in H. injection H as <-. exact Hacc.
  - inversion Hl as [|? ? Hl0 Hls]; subst. cbn [parse_lines] in H.
    destruct (trim_is_empty l); [eapply IH; eauto|].
    unfold parse_hl7_segment in H.
    destruct (String.length l <? 3)%nat; [discriminate|].
    destruct (negb (Str.is_char_boundary l 3)); [discriminate|].
    assert (Hf : forallb field_safe (Str.split "|" l) = true).
    { apply forallb_forall. intros x Hx. unfold field_safe.
      rewrite (split_piece_no_sep _ _ _ Hx), (split_piece_no_other _ _ _ _ Hx Hl0). reflexivity. }
    destruct Hacc as [A1 [A2 A3]].
    unfold parse_msh_segment in H. cbn [segment_type fields] in H.
    destruct (String.eqb (substring 0 3 l) "MSH").
    + cbn [negb] in H.
      destruct (List.length (Str.split "|" l) <? 12)%nat; [discriminate|].
      refine (IH _ m Hls _ H).
      unfold msg_safe. cbn [message_type message_control_id segments msh_message_type
        msh_message_control_id].
      unfold field, Str.get_or. cbn [fields].
      refine (conj (nth_split_safe _ _ ""%string Hl0 eq_refl) (conj (nth_split_safe _ _ ""%string Hl0 eq_refl) _)).
      cbn [segments]. apply Forall_app. split; [exact A3|]. repeat constructor. exact Hf.
    + refine (IH _ m Hls _ H). unfold msg_safe.
      refine (conj A1 (conj A2 _)). cbn [segments]. apply Forall_app.
      split; [exact A3|]. repeat constructor. exact Hf.
Qed.

Lemma parse_safe s m : parse_hl7_message s = Ok m -> msg_safe m.
Proof.
  unfold parse_hl7_message. destruct (String.eqb s ""); [discriminate|].
  apply parse_lines_safe; [|repeat split; constructor].
  apply Forall_forall. intros l Hl. apply (split_piece_no_sep _ _ _ Hl).
Qed.


Lemma msh_as_concat f3 f4 ts trig :
  ("MSH|^~\&|LIS|HOSPITAL|" ++ f3 ++ "|" ++ f4 ++ "|" ++ ts ++ "||ACK^" ++ trig
   ++ "^ACK|ACK" ++ ts ++ "|P|2.3.1||||||UTF-8")%string =
  String.concat "|" ["MSH"; "^~\&"; "LIS"; "HOSPITAL"; f3; f4; ts; "";
    "ACK^" ++ trig ++ "^ACK"; "ACK" ++ ts; "P"; "2.3.1"; ""; ""; ""; ""; ""; "UTF-8"]%string.
Proof.
  cbn [String.concat]. rewrite <- !sappend_assoc. cbn [append]. reflexivity.
Qed.

Lemma msa_as_concat code ctrl text :
  ("MSA|" ++ code ++ "|" ++ ctrl ++ "|" ++ text)%string =
  String.concat "|" ["MSA"; code; ctrl; text]%string.
Proof. cbn [String.concat]. reflexivity. Qed.

Lemma ack_shape f3 f4 ts trig code ctrl text :
  field_safe f3 = true -> field_safe f4 = true -> field_safe ts = true ->
  field_safe trig = true -> field_safe code = true -> field_safe ctrl = true ->
  field_safe text = true ->
  parse_hl7_message
    (("MSH|^~\&|LIS|HOSPITAL|" ++ f3 ++ "|" ++ f4 ++ "|" ++ ts ++ "||ACK^" ++ trig
      ++ "^ACK|ACK" ++ ts ++ "|P|2.3.1||||||UTF-8") ++ CR_str
     ++ ("MSA|" ++ code ++ "|" ++ ctrl ++ "|" ++ text) ++ CR_str)%string =
  Ok (mkMessage ("ACK^" ++ trig ++ "^ACK") ("ACK" ++ ts) "P" "2.3.1"
        [mkSegment "MSH" ["MSH"; "^~\&"; "LIS"; "HOSPITAL"; f3; f4; ts; "";
           "ACK^" ++ trig ++ "^ACK"; "ACK" ++ ts; "P"; "2.3.1"; ""; ""; ""; ""; ""; "UTF-8"]
           ("MSH|^~\&|LIS|HOSPITAL|" ++ f3 ++ "|" ++ f4 ++ "|" ++ ts ++ "||ACK^" ++ trig
            ++ "^ACK|ACK" ++ ts ++ "|P|2.3.1||||||UTF-8");
         mkSegment "MSA" ["MSA"; code; ctrl; text] ("MSA|" ++ code ++ "|" ++ ctrl ++ "|" ++ text)]
        (("MSH|^~\&|LIS|HOSPITAL|" ++ f3 ++ "|" ++ f4 ++ "|" ++ ts ++ "||ACK^" ++ trig
          ++ "^ACK|ACK" ++ ts ++ "|P|2.3.1||||||UTF-8") ++ CR_str
         ++ ("MSA|" ++ code ++ "|" ++ ctrl ++ "|" ++ text) ++ CR_str))%string.
Proof.
  unfold field_safe.
  intros H3 H4 Hts Htr Hc Hct Htx.
  apply andb_prop in H3 as [P3 C3], H4 as [P4 C4], Hts as [Pts Cts], Htr as [Ptr Ctr],
    Hc as [Pc Cc], Hct as [Pct Cct], Htx as [Ptx Ctx].
  set (M := ("MSH|^~\&|LIS|HOSPITAL|" ++ f3 ++ "|" ++ f4 ++ "|" ++ ts ++ "||ACK^" ++ trig
      ++ "^ACK|ACK" ++ ts ++ "|P|2.3.1||||||UTF-8")%string).
  set (A := ("MSA|" ++ code ++ "|" ++ ctrl ++ "|" ++ text)%string).
  assert (MC : no_sep "013" M = true)
    by (unfold M; rewrite !no_sep_app, C3, C4, Cts, Ctr; reflexivity).
  assert (AC : no_sep "013" A = true)
    by (unfold A; rewrite !no_sep_app, Cc, Cct, Ctx; reflexivity).
  assert (MS : Str.split "|" M =
    ["MSH"; "^~\&"; "LIS"; "HOSPITAL"; f3; f4; ts; "";
     "ACK^" ++ trig ++ "^ACK"; "ACK" ++ ts; "P"; "2.3.1"; ""; ""; ""; ""; ""; "UTF-8"]%string).
  { unfold M. rewrite msh_as_concat. apply StrFacts.split_concat; [discriminate|].
    cbn [forallb]. rewrite !no_sep_app, P3, P4, Pts, Ptr. reflexivity. }
  assert (AS : Str.split "|" A = ["MSA"; code; ctrl; text]%string).
  { unfold A. rewrite msa_as_concat. apply StrFacts.split_concat; [discriminate|].
    cbn [forallb]. rewrite Pc, Pct, Ptx. reflexivity. }
  assert (ML : (String.length M <? 3)%nat = false) by reflexivity.
  assert (AL : (String.length A <? 3)%nat = false) by reflexivity.
  assert (MT : substring 0 3 M = "MSH"%string) by reflexivity.
  assert (AT : substring 0 3 A = "MSA"%string) by reflexivity.
  assert (MB : Str.is_char_boundary M 3 = true) by reflexivity.
  assert (AB : Str.is_char_boundary A 3 = true) by reflexivity.
  assert (ME : trim_is_empty M = false) by exact (TrimFacts.trim_is_empty_lead "M" _ eq_refl).
  assert (AE : trim_is_empty A = false) by exact (TrimFacts.trim_is_empty_lead "M" _ eq_refl).
  assert (E : String.eqb (M ++ CR_str ++ A ++ CR_str) "" = false) by reflexivity.
  clearbody M A.
  unfold parse_hl7_message. rewrite E. cbv iota.
  change (CR_str ++ ?x)%string with (String "013" x).
  rewrite split_app by exact MC. change (A ++ CR_str)%string with (A ++ String "013" "")%string.
  rewrite split_app by exact AC.
  cbn [parse_lines Str.split]. rewrite ME, AE. unfold parse_hl7_segment.
  rewrite ML, MB, MT, AL, AB, AT. cbn [negb].
  cbn [segment_type String.eqb Ascii.eqb Bool.eqb]. unfold parse_msh_segment.
  cbn [segment_type fields]. rewrite MS. cbn [negb String.eqb Ascii.eqb Bool.eqb].
  cbn [List.length Nat.ltb Nat.leb]. rewrite AS.
  reflexivity.
Qed.

Lemma first_field_safe (segs : list HL7Segment) i d :
  Forall (fun s => forallb field_safe (fields s) = true) segs -> field_safe d = true ->
  field_safe (match segs with
              | s :: _ => match nth_error (fields s) i with Some f => f | None => d end
              | [] => d
              end) = true.
Proof.
  intros H Hd. destruct segs as [|s0 ss]; [exact Hd|].
  inversion H as [|? ? H0 _]; subst.
  destruct (nth_error (fields s0) i) as [f|] eqn:N; [|exact Hd].
  apply nth_error_In in N. rewrite forallb_forall in H0. apply H0, N.
Qed.

(** The acknowledgment built for any message that [parse_hl7_message]
    accepted is itself accepted by [parse_hl7_message], as long as the clock
    text, the acknowledgment code and the text hold no '|' and no CR: it has
    an MSH and an MSA segment, the type ACK^<first component of the original
    type>^ACK, the control id ACK<timestamp>, processing id P and version
    2.3.1, and its MSA fields are the code, the original control id and the
    text. *)
Theorem ack_reparses (clk : Clock) (s : string) (m : HL7Message) (code : string)
    (text : option string)
    (Hm : parse_hl7_message s = Ok m)
    (Hts : field_safe (now_ymdhms clk) = true) (Hcode : field_safe code = true)
    (Htext : field_safe (match text with Some t => t | None => ""%string end) = true) :
  exists h,
    parse_hl7_message (create_hl7_acknowledgment clk m code text) = Ok h /\
    message_type h = ("ACK^" ++ hd "R01" (Str.split "^" (message_type m)) ++ "^ACK")%string /\
    message_control_id h = ("ACK" ++ now_ymdhms clk)%string /\
    processing_id h = "P"%string /\ version_id h = "2.3.1"%string /\
    map segment_type (segments h) = ["MSH"; "MSA"]%string /\
    map fields (tl (segments h)) =
      [["MSA"; code; message_control_id m; match text with Some t => t | None => "" end]]%string.
Proof.
  destruct (parse_safe s m Hm) as [S1 [S2 S3]].
  unfold create_hl7_acknowledgment. cbv beta zeta.
  eexists. split.
  { apply ack_shape.
    - apply first_field_safe; [exact S3|reflexivity].
    - apply first_field_safe; [exact S3|reflexivity].
    - exact Hts.
    - destruct (split_cons "^" (message_type m)) as [x [xs E]]. rewrite E.
      apply (split_piece_safe "^" (message_type m)); [rewrite E; left; reflexivity|exact S1].
    - exact Hcode.
    - exact S2.
    - exact Htext. }
  repeat split.
Qed.

Lemma ack_reparses_witness :
  exists m, parse_hl7_message Hl7Facts.bf6900_oru = Ok m /\
  field_safe "20240101120000" = true /\ field_safe "AA" = true /\
  field_safe "Message accepted" = true /\
  exists h,
    parse_hl7_message (create_hl7_acknowledgment (mkClock "20240101120000" 0) m "AA"
                         (Some "Message accepted")) = Ok h /\
    message_type h = ("ACK^" ++ hd "R01" (Str.split "^" (message_type m)) ++ "^ACK")%string /\
    message_control_id h = ("ACK" ++ "20240101120000")%string /\
    processing_id h = "P"%string /\ version_id h = "2.3.1"%string /\
    map segment_type (segments h) = ["MSH"; "MSA"]%string /\
    map fields (tl (segments h)) =
      [["MSA"; "AA"; message_control_id m; "Message accepted"]]%string.
Proof.
  eexists. split; [reflexivity|].
  split; [reflexivity|]. split; [reflexivity|]. split; [reflexivity|].
  apply (ack_reparses (mkClock "20240101120000" 0) Hl7Facts.bf6900_oru); [reflexivity..].
Defined.

End AckFacts.

(** ** Whole AutoQuant transmissions *)
Module SessionRunFacts.
Import AutoQuant SessionFacts.
Local Open Scope string_scope.
Local Open Scope list_scope.

Lemma run_same b l c :
  step b c = (Done true, c, []) -> process_astm_data (b :: l) c = process_astm_data l c.
Proof.
  intros H. rewrite (run_continue _ _ _ _ _ H).
  destruct (process_astm_data l c) as [[r c2] w2]. reflexivity.
Qed.

(** Bytes other than ENQ are ignored while waiting for ENQ, and bytes other
    than STX and EOT are ignored between frames: they change neither the
    connection nor the output. *)
Theorem idle_bytes_ignored (junk tail : bytes) (fb : list bytes) (cf : bytes) (aid : string) :
  (forallb (fun b => negb (byte_eqb b ENQ)) junk = true ->
   process_astm_data (junk ++ tail) (conn WaitingForEnq fb cf aid) =
     process_astm_data tail (conn WaitingForEnq fb cf aid)) /\
  (forallb (fun b => negb (byte_eqb b STX) && negb (byte_eqb b EOT)) junk = true ->
   process_astm_data (junk ++ tail) (conn WaitingForFrame fb cf aid) =
     process_astm_data tail (conn WaitingForFrame fb cf aid)).
Proof.
  split; induction junk as [|b junk IH]; intros H; try reflexivity;
    cbn in H; apply andb_prop in H as [Hb H]; cbn [app].
  - apply negb_true_iff in Hb. rewrite run_same; [exact (IH H)|].
    cbv [step bind get put ret write conn]. cbn [state]. rewrite Hb. reflexivity.
  - apply andb_prop in Hb as [H1 H2]. apply negb_true_iff in H1, H2.
    rewrite run_same; [exact (IH H)|].
    cbv [step bind get put ret write conn]. cbn [state]. rewrite H1, H2. reflexivity.
Qed.

Lemma frame_run_tail body cs fb cf aid rt tail :
  body <> [] -> AstmFacts.no_terminator body = true -> parse_record_type body = Done rt ->
  process_astm_data ((STX :: body ++ [ETX; cs; CR; LF]) ++ tail) (conn WaitingForFrame fb cf aid) =
    let '(r, c2, w2) :=
      process_astm_data tail
        (conn WaitingForFrame (fb ++ [STX :: body ++ [ETX; cs; CR; LF]]) [] aid) in
    (r, c2, [Send (AstmMessageReceived aid rt (from_utf8_lossy body)); Write [ACK]] ++ w2).
Proof.
  intros Hne Hb Hrt.
  cbn [app]. rewrite <- app_assoc. cbn [app].
  rewrite (run_continue _ _ _ _ _ (step_stx fb cf aid)).
  rewrite processing_run by exact Hb.
  rewrite (run_continue _ _ _ _ _ (step_etx _ _ _)).
  rewrite (run_continue _ _ _ _ _ (step_checksum _ _ _ _)).
  rewrite (run_continue _ _ _ _ _ (step_cr _ _ _)).
  pose proof (step_lf fb (((([STX] ++ body) ++ [ETX]) ++ [cs]) ++ [CR]) aid) as HL.
  rewrite process_frame_eq in HL.
  assert (Ef : (((([STX] ++ body) ++ [ETX]) ++ [cs]) ++ [CR]) ++ [LF]
                = STX :: body ++ [ETX; cs; CR; LF])
    by (cbn [app]; rewrite <- !app_assoc; reflexivity).
  rewrite Ef, extract_frame_data_assembled, Hrt in HL by assumption.
  rewrite (run_continue _ _ _ _ _ HL).
  cbv [set_state set_current_frame conn frame_buffer analyzer_id].
  destruct (process_astm_data tail _) as [[r c2] w2]. reflexivity.
Qed.

(** A frame as the analyzer sends it: STX, the body, ETX, the checksum byte,
    CR LF. *)
Definition wire (f : bytes * ascii) : bytes := STX :: fst f ++ [ETX; snd f; CR; LF].

(** A body of at least two bytes without ETX or ETB. *)
Definition frame_ok (f : bytes * ascii) : bool :=
  (2 <=? length (fst f))%nat && AstmFacts.no_terminator (fst f).

(** The record type [parse_record_type] gives a body ("" if none). *)
Definition record_type_of (body : bytes) : string :=
  match parse_record_type body with Done rt => rt | _ => ""%string end.

Lemma frames_run aid frames : forall fb cf tail,
  forallb frame_ok frames = true ->
  process_astm_data (concat (map wire frames) ++ tail) (conn WaitingForFrame fb cf aid) =
    let '(r, c2, w2) :=
      process_astm_data tail
        (conn WaitingForFrame (fb ++ map wire frames)
           (match frames with [] => cf | _ => [] end) aid) in
    (r, c2, flat_map (fun f => [Send (AstmMessageReceived aid (record_type_of (fst f))
                                  (from_utf8_lossy (fst f))); Write [ACK]]) frames ++ w2).
Proof.
  induction frames as [|f frames IH]; intros fb cf tail H.
  - cbn [map concat app flat_map]. rewrite app_nil_r.
    destruct (process_astm_data tail _) as [[r c2] w2]. reflexivity.
  - cbn in H. apply andb_prop in H as [Hf H]. apply andb_prop in Hf as [Hl Hnt].
    apply Nat.leb_le in Hl.
    destruct (parse_record_type_long (fst f) Hl) as [rt Hrt].
    cbn [map concat]. rewrite <- app_assoc. unfold wire at 1.
    rewrite (frame_run_tail (fst f) (snd f) fb cf aid rt) by
      (assumption || (destruct (fst f); [cbn in Hl; lia|discriminate])).
    rewrite IH by exact H.
    rewrite <- app_assoc. cbn [app].
    change (STX :: fst f ++ [ETX; snd f; CR; LF]) with (wire f).
    cbn [flat_map]. rewrite <- ?app_assoc.
    replace (record_type_of (fst f)) with rt by (unfold record_type_of; rewrite Hrt; reflexivity).
    destruct frames as [|f' frames'];
    destruct (process_astm_data tail _) as [[r c2] w2]; reflexivity.
Qed.

(** A whole transmission: ENQ, well-formed frames, EOT, then anything.  The
    session acknowledges ENQ, reports each frame with its record type and
    acknowledges it, publishes the collected patient and results at EOT and
    acknowledges EOT; it ends back in [WaitingForEnq] with empty buffers and
    ignores the bytes after EOT. *)
Theorem full_session (frames : list (bytes * ascii)) (rest : bytes) (fb : list bytes)
    (cf : bytes) (aid : string) (p : option PatientData) (rs : list TestResult)
    (Hok : forallb frame_ok frames = true)
    (Hrec : collect_records aid (fb ++ map wire frames) None [] = Done (p, rs)) :
  process_astm_data ([ENQ] ++ concat (map wire frames) ++ [EOT] ++ rest)
    (conn WaitingForEnq fb cf aid) =
    (Done tt, conn WaitingForEnq [] [] aid,
     [Write [ACK]]
     ++ flat_map (fun f => [Send (AstmMessageReceived aid (record_type_of (fst f))
                                   (from_utf8_lossy (fst f))); Write [ACK]]) frames
     ++ [Send (LabResultProcessed aid (option_map pd_id p) p rs); Write [ACK]]).
Proof.
  assert (HE : step ENQ (conn WaitingForEnq fb cf aid) =
                 (Done true, conn WaitingForFrame fb cf aid, [Write [ACK]])) by reflexivity.
  cbn [app]. rewrite (run_continue _ _ _ _ _ HE).
  rewrite frames_run by exact Hok.
  set (cf' := match frames with [] => cf | _ => [] end).
  assert (HT : step EOT (conn WaitingForFrame (fb ++ map wire frames) cf' aid) =
    (Done false, conn WaitingForEnq [] [] aid,
     [Send (LabResultProcessed aid (option_map pd_id p) p rs); Write [ACK]]))
    by (rewrite step_eot, process_complete_message_eq, Hrec; reflexivity).
  cbn [app]. rewrite (run_break _ rest _ _ _ HT). reflexivity.
Qed.

Lemma full_session_witness :
  forallb frame_ok [(list_ascii_of_string "2P|1||PID42|||Doe^John", "0"%char);
                    (list_ascii_of_string "3R|1||^^^WBC|7.5|10^3/uL", "0"%char)] = true /\
  collect_records "AQ" ([] ++ map wire
      [(list_ascii_of_string "2P|1||PID42|||Doe^John", "0"%char);
       (list_ascii_of_string "3R|1||^^^WBC|7.5|10^3/uL", "0"%char)]) None [] =
    Done (transmission_patient, transmission_results) /\
  process_astm_data ([ENQ] ++ concat (map wire
      [(list_ascii_of_string "2P|1||PID42|||Doe^John", "0"%char);
       (list_ascii_of_string "3R|1||^^^WBC|7.5|10^3/uL", "0"%char)]) ++ [EOT] ++ [ENQ])
    (conn WaitingForEnq [] [] "AQ") =
    (Done tt, conn WaitingForEnq [] [] "AQ",
     [Write [ACK]]
     ++ flat_map (fun f => [Send (AstmMessageReceived "AQ" (record_type_of (fst f))
                                   (from_utf8_lossy (fst f))); Write [ACK]])
          [(list_ascii_of_string "2P|1||PID42|||Doe^John", "0"%char);
           (list_ascii_of_string "3R|1||^^^WBC|7.5|10^3/uL", "0"%char)]
     ++ [Send (LabResultProcessed "AQ" (option_map pd_id transmission_patient)
                 transmission_patient transmission_results); Write [ACK]]).
Proof.
  split; [reflexivity|]. split; [vm_compute; reflexivity|].
  apply full_session; [reflexivity|vm_compute; reflexivity].
Defined.

End SessionRunFacts.
